(** * Puppeteer n8n node: session resolution, action execution, batch driver

    A shallow embedding of [src/nodes/Puppeteer/Puppeteer.node.ts]
    ([runAction] and [Puppeteer.execute]) together with the properties the
    specification states about them.

    The node is asynchronous, effectful TypeScript.  Every [await] is a
    sequencing point of a single thread of control, so the embedding is a
    state-and-exception monad [M]:

    - the state ([World]) is the history of calls the node issued to its
      collaborators (puppeteer, the script VM, the browser manager, the
      binary-data helper) and the workflow-scoped static-data slot
      [puppeteerSession];
    - the collaborators are an environment ([Env]): for each call, a function
      from the history so far and the call's arguments to the call's outcome
      (a value or a thrown error).  Theorems quantify over every environment;
    - [try]/[catch]/[finally] keep their JavaScript meaning, in particular a
      [finally] block that throws replaces the completion of its [try] block. *)

From Stdlib Require Import String Ascii List Bool Arith ZArith Lia.
From Stdlib Require Import DecimalString.
Import ListNotations.
Open Scope string_scope.
Open Scope list_scope.

(** ** JavaScript values *)

(** The values that flow through the node untyped: script results, result
    items ([INodeExecutionData]) and the objects built around them.  An
    object is the list of its own enumerable properties in insertion
    order. *)
#[warnings="-register-all"] Inductive JsVal : Type :=
| JsUndefined
| JsNull
| JsBool (b : bool)
| JsNum (n : Z)
| JsStr (s : string)
| JsArr (elems : list JsVal)
| JsObj (props : list (string * JsVal)).

(** [Array.isArray] *)
Definition isArray (v : JsVal) : bool :=
  match v with JsArr _ => true | _ => false end.

(** Truthiness of a value typed [string | undefined]. *)
Definition truthy (s : option string) : bool :=
  match s with
  | Some s => negb (s =? "")
  | None => false
  end.

(** Truthiness of a value typed [string]. *)
Definition nonEmpty (s : string) : bool := negb (s =? "").

Definition newline : string := String (ascii_of_nat 10) EmptyString.

Definition string_of_nat (n : nat) : string :=
  NilZero.string_of_uint (Nat.to_uint n).

Fixpoint lookup_prop (k : string) (props : list (string * JsVal)) : JsVal :=
  match props with
  | [] => JsUndefined
  | (k', v) :: rest => if k' =? k then v else lookup_prop k rest
  end.

(** [{ ...props, k: v }]: an existing key keeps its position, a new key is
    added last. *)
Fixpoint set_prop (k : string) (v : JsVal) (props : list (string * JsVal))
  : list (string * JsVal) :=
  match props with
  | [] => [(k, v)]
  | (k', v') :: rest =>
      if k' =? k then (k, v) :: rest else (k', v') :: set_prop k v rest
  end.

Fixpoint indexed {A : Type} (i : nat) (l : list A) : list (string * A) :=
  match l with
  | [] => []
  | x :: rest => (string_of_nat i, x) :: indexed (S i) rest
  end.

Fixpoint chars (s : string) : list JsVal :=
  match s with
  | EmptyString => []
  | String c rest => JsStr (String c EmptyString) :: chars rest
  end.

(** Object spread [{ ...v }]: own enumerable properties; nothing for
    [undefined], [null], booleans and numbers. *)
Definition spread (v : JsVal) : list (string * JsVal) :=
  match v with
  | JsObj props => props
  | JsArr elems => indexed 0 elems
  | JsStr s => indexed 0 (chars s)
  | _ => []
  end.

(** ** Errors *)

(** What can be thrown.  One constructor per [throw] site of the source,
    named after the error taxonomy: the [NodeOperationError] built there
    from the arguments the constructor carries (the wrapping sites carry the
    wrapped value).  [HostError] is an [Error] object thrown by a
    collaborator, with this [message]; [TypeError] one thrown by the
    JavaScript runtime; [Thrown] is a thrown value that is not an [Error]
    object, as a script's [throw null] or [throw 'text'] produces. *)
Inductive Error : Type :=
| HostError (msg : string)
| TypeError (msg : string)
| Thrown (value : JsVal)
| PageNotFound (pageId : string)        (* runAction, line 54 *)
| InvalidScriptReturn                   (* runAction, line 75 *)
| InvalidURL (urlString : string)       (* runAction, line 96 *)
| SessionStartFailure (cause : Error)   (* execute, line 203 *)
| NoSessionToStop                       (* execute, line 216 *)
| SessionStopFailure (cause : Error)    (* execute, line 229 *)
| IncompleteManualOverride              (* execute, line 244 *)
| ConnectFailure (cause : Error)        (* execute, line 252 *)
| LaunchFailure (cause : Error).        (* execute, line 265 *)

Inductive Result (A : Type) : Type :=
| Ok (a : A)
| Err (e : Error).
Arguments Ok {A} a.
Arguments Err {A} e.

Definition isOk {A : Type} (r : Result A) : bool :=
  match r with Ok _ => true | Err _ => false end.

(** ** Data model *)

(** [interface PuppeteerSessionData] *)
Record PuppeteerSessionData : Type := {
  wsEndpoint : string;
  pageId : string;
  sessionId : string;
  browserManagerUrl : string
}.

(** A live browser connection, identified by the handle the collaborator
    returned. *)
Definition Browser : Type := nat.

(** A live page: its handle and the [_targetId] of its target. *)
Record Page : Type := {
  page_handle : nat;
  targetId : string
}.

Definition Bytes : Type := string.

Inductive Headless : Type := HeadlessFalse | HeadlessNew.

Inductive LogSink : Type := SendMessageToUI | ConsoleLog.

(** [options.launchArguments]: [{ args: { arg: string }[] }], with [args]
    possibly absent. *)
Record LaunchArguments : Type := {
  args : option (list string)
}.

(** The [options] collection; an absent entry is [None]. *)
Module Opt.
Record t : Type := {
  manualSessionOverride : option bool;
  manualWsEndpoint : option string;
  manualPageId : option string;
  launchArguments : option LaunchArguments;
  addContainerArgs : option bool;
  headless : option bool;
  executablePath : option string;
  fileName : option string
}.
End Opt.

Record Margin : Type := {
  top : option string;
  bottom : option string;
  left : option string;
  right : option string
}.

(** The node parameters as [getNodeParameter] delivers them for one item
    index (configured value or schema default), at the types the source
    casts them to.  [scale] is the configured number in thousandths. *)
Module Param.
Record t : Type := {
  operation : string;
  sessionId : string;
  browserManagerUrl : string;
  stopSessionId : string;
  stopBrowserManagerUrl : string;
  scriptCode : string;
  url : string;
  queryParameters : option (list (string * string));
  dataPropertyName : string;
  imageType : string;
  fullPage : bool;
  quality : Z;
  options : Opt.t;
  pageRanges : string;
  displayHeaderFooter : bool;
  omitBackground : bool;
  printBackground : bool;
  landscape : bool;
  preferCSSPageSize : bool;
  scale : Z;
  margin : Margin;
  headerTemplate : string;
  footerTemplate : string;
  height : string;
  width : string;
  format : string
}.
End Param.

(** puppeteer's [ScreenshotOptions], the fields the node sets. *)
Module Shot.
Record t : Type := {
  type : string;
  fullPage : bool;
  quality : option Z;
  path : option string
}.
End Shot.

(** puppeteer's [PDFOptions], the fields the node sets. *)
Module PDF.
Record t : Type := {
  pageRanges : string;
  displayHeaderFooter : bool;
  omitBackground : bool;
  printBackground : bool;
  landscape : bool;
  preferCSSPageSize : bool;
  scale : Z;
  margin : Margin;
  headerTemplate : option string;
  footerTemplate : option string;
  height : option string;
  width : option string;
  format : option string;
  path : option string
}.
End PDF.

(** A parsed [URL]: the normalised address and the query parameters appended
    through [searchParams.append], in order. *)
Record URL : Type := {
  href : string;
  appended : list (string * string)
}.

(** The body of the browser manager's answer to [/start]. *)
Record StartResponse : Type := {
  response_wsEndpoint : string;
  response_pageId : string;
  response_sessionId : string
}.

(** ** Calls to collaborators *)

Inductive Event : Type :=
| EvHttpPost (url : string) (sessionId : string)
| EvConnect (browserWSEndpoint : string)
| EvLaunch (headless : Headless) (args : list string)
           (executablePath : option string)
| EvPages (browser : Browser)
| EvNewPage (browser : Browser)
| EvVmRun (code : string) (browser : Browser) (page : Page) (sink : LogSink)
| EvGoto (page : Page) (url : string)
| EvContent (page : Page)
| EvScreenshot (page : Page) (o : Shot.t)
| EvPdf (page : Page) (o : PDF.t)
| EvPrepareBinaryData (data : Bytes) (path : option string) (mime : string)
| EvPageClose (page : Page)
| EvDisconnect (browser : Browser)
| EvBrowserClose (browser : Browser).

Definition Trace : Type := list Event.

(** The collaborators.  Each field answers one kind of call, given the calls
    issued so far. *)
Record Env : Type := {
  httpRequest : Trace -> string -> string -> Result StartResponse;
  connect : Trace -> string -> Result Browser;
  launch : Trace -> Headless -> list string -> option string -> Result Browser;
  pages : Trace -> Browser -> Result (list Page);
  newPage : Trace -> Browser -> Result Page;
  vm_run : Trace -> string -> Browser -> Page -> Result JsVal;
  goto : Trace -> Page -> string -> Result unit;
  content : Trace -> Page -> Result string;
  screenshot : Trace -> Page -> Shot.t -> Result Bytes;
  pdf : Trace -> Page -> PDF.t -> Result Bytes;
  prepareBinaryData : Trace -> Bytes -> option string -> string -> Result JsVal;
  isClosed : Trace -> Page -> bool;
  page_close : Trace -> Page -> Result unit;
  disconnect : Trace -> Browser -> Result unit;
  browser_close : Trace -> Browser -> Result unit
}.

(** The invocation context ([this: IExecuteFunctions]), read-only during one
    invocation, with the platform's [URL] and the [message] that
    n8n-workflow's [NodeOperationError] constructor gives the error built at
    a throw site of the node (the constructor may rewrite the text it is
    handed). *)
Record Context : Type := {
  getNodeParameter : nat -> Param.t;
  getInputData : list JsVal;
  continueOnFail : bool;
  getMode : string;
  normalizeItems : list JsVal -> Result (list JsVal);
  URL_new : string -> option string;
  URL_toString : URL -> string;
  NodeOperationError_message : Error -> string
}.

(** ** The monad *)

Record World : Type := {
  trace : Trace;
  puppeteerSession : option PuppeteerSessionData
}.

Definition M (A : Type) : Type := World -> Result A * World.

Definition ret {A : Type} (a : A) : M A := fun w => (Ok a, w).

Definition throw {A : Type} (e : Error) : M A := fun w => (Err e, w).

Definition bind {A B : Type} (m : M A) (k : A -> M B) : M B :=
  fun w =>
    match m w with
    | (Ok a, w') => k a w'
    | (Err e, w') => (Err e, w')
    end.

Notation "x <- m ;; k" := (bind m (fun x => k))
  (at level 61, m at next level, right associativity).
Notation "m ;;; k" := (bind m (fun _ => k))
  (at level 61, right associativity).

(** [await callee(...)]: the call is recorded, its outcome is the
    collaborator's answer to the history before it. *)
Definition call {A : Type} (ev : Event) (answer : Trace -> Result A) : M A :=
  fun w =>
    (answer (trace w),
     {| trace := trace w ++ [ev]; puppeteerSession := puppeteerSession w |}).

(** A synchronous query of a collaborator. *)
Definition ask {A : Type} (answer : Trace -> A) : M A :=
  fun w => (Ok (answer (trace w)), w).

Definition lift {A : Type} (r : Result A) : M A := fun w => (r, w).

(** [this.getWorkflowStaticData('global').puppeteerSession] *)
Definition readSession : M (option PuppeteerSessionData) :=
  fun w => (Ok (puppeteerSession w), w).

Definition writeSession (s : option PuppeteerSessionData) : M unit :=
  fun w => (Ok tt, {| trace := trace w; puppeteerSession := s |}).

(** [try { body } catch (error) { handler }] *)
Definition try_catch {A : Type} (body : M A) (handler : Error -> M A) : M A :=
  fun w =>
    match body w with
    | (Ok a, w') => (Ok a, w')
    | (Err e, w') => handler e w'
    end.

(** [try { body } finally { final }]: [final] runs on every path; when it
    throws, its error is the completion of the whole statement. *)
Definition try_finally {A : Type} (body : M A) (final : M unit) : M A :=
  fun w =>
    match body w with
    | (r, w') =>
        match final w' with
        | (Ok _, w'') => (r, w'')
        | (Err e, w'') => (Err e, w'')
        end
    end.

(** [xs.map(f)] with a callback that may throw. *)
Fixpoint mapR {A B : Type} (f : A -> Result B) (xs : list A)
  : Result (list B) :=
  match xs with
  | [] => Ok []
  | x :: rest =>
      match f x with
      | Err e => Err e
      | Ok y =>
          match mapR f rest with
          | Err e => Err e
          | Ok ys => Ok (y :: ys)
          end
      end
  end.

(** ** The node *)

Definition CONTAINER_LAUNCH_ARGS : list string :=
  [ "--no-sandbox";
    "--disable-setuid-sandbox";
    "--disable-dev-shm-usage";
    "--disable-gpu" ].

(** [launchArgs.includes(arg)] *)
Definition includes (l : list string) (arg : string) : bool :=
  existsb (String.eqb arg) l.

(** [execute], line 255: the arguments the user supplied,
    [options.launchArguments?.args?.map(a => a.arg) ?? []]. *)
Definition userLaunchArgs (options : Opt.t) : list string :=
  match Opt.launchArguments options with
  | Some la => match args la with Some l => l | None => [] end
  | None => []
  end.

(** [execute], lines 255-259: the argument list handed to
    [puppeteer.launch]. *)
Definition buildLaunchArgs (options : Opt.t) : list string :=
  let launchArgs := userLaunchArgs options in
  match Opt.addContainerArgs options with
  | Some true =>
      let missingArgs :=
        filter (fun arg => negb (includes launchArgs arg))
               CONTAINER_LAUNCH_ARGS in
      if (0 <? length missingArgs)%nat then launchArgs ++ missingArgs
      else launchArgs
  | _ => launchArgs
  end.

(** [execute], line 261 *)
Definition headlessMode (options : Opt.t) : Headless :=
  match Opt.headless options with
  | Some false => HeadlessFalse
  | _ => HeadlessNew
  end.

Definition elements (v : JsVal) : list JsVal :=
  match v with JsArr elems => elems | _ => [] end.

(** [item.json] *)
Definition get_json (item : JsVal) : Result JsVal :=
  match item with
  | JsUndefined =>
      Err (TypeError "Cannot read properties of undefined (reading 'json')")
  | JsNull =>
      Err (TypeError "Cannot read properties of null (reading 'json')")
  | JsObj props => Ok (lookup_prop "json" props)
  | _ => Ok JsUndefined
  end.

(** [({ ...item, json: { ...item.json, pageId: session.pageId } })],
    lines 78-81 and 152-155. *)
Definition stampPageId (pageId : string) (item : JsVal) : Result JsVal :=
  match get_json item with
  | Err e => Err e
  | Ok json =>
      Ok (JsObj (set_prop "json"
                   (JsObj (set_prop "pageId" (JsStr pageId) (spread json)))
                   (spread item)))
  end.

(** [pairedItem: { item: itemIndex }] *)
Definition pairedItem (itemIndex : nat) : string * JsVal :=
  ("pairedItem", JsObj [("item", JsNum (Z.of_nat itemIndex))]).

(** [(error as Error).message], line 279, of whatever was caught: the
    message of an [Error] object; the [message] property of another object,
    [undefined] when it has none and for a string, number, boolean or
    array; for [undefined] and [null] the read itself throws. *)
Definition readMessage (ctx : Context) (error : Error) : Result JsVal :=
  match error with
  | HostError msg => Ok (JsStr msg)
  | TypeError msg => Ok (JsStr msg)
  | Thrown JsUndefined =>
      Err (TypeError
             "Cannot read properties of undefined (reading 'message')")
  | Thrown JsNull =>
      Err (TypeError "Cannot read properties of null (reading 'message')")
  | Thrown (JsObj props) => Ok (lookup_prop "message" props)
  | Thrown _ => Ok JsUndefined
  | _ => Ok (JsStr (NodeOperationError_message ctx error))
  end.

(** The record pushed for a failed item, lines 278-281, from the message
    read off the caught value. *)
Definition errorRecord (message : JsVal) (i : nat) : JsVal :=
  JsObj [("json", JsObj [("error", message)]); pairedItem i].

(** [this.helpers.returnJsonArray] *)
Definition returnJsonArray (l : list JsVal) : list JsVal :=
  map (fun d => JsObj [("json", d)]) l.

Definition sessionObject (s : PuppeteerSessionData) : JsVal :=
  JsObj [("wsEndpoint", JsStr (wsEndpoint s));
         ("pageId", JsStr (pageId s));
         ("sessionId", JsStr (sessionId s));
         ("browserManagerUrl", JsStr (browserManagerUrl s))].

(** The script text handed to the VM, line 73. *)
Definition wrapScript (scriptCode : string) : string :=
  ("module.exports = async function() { " ++ scriptCode ++ newline ++ "}()")%string.

Definition isSome {A : Type} (o : option A) : bool :=
  match o with Some _ => true | None => false end.

Section Node.

Variable env : Env.
Variable ctx : Context.

(** *** runAction *)

(** Lines 49-59: the page the item works on. *)
Definition resolvePage (browser : Browser)
           (session : option PuppeteerSessionData) : M Page :=
  match session with
  | Some s =>
      let pageId := pageId s in
      pages <- call (EvPages browser) (fun tr => pages env tr browser) ;;
      match find (fun p => targetId p =? pageId) pages with
      | None => throw (PageNotFound pageId)
      | Some foundPage => ret foundPage
      end
  | None => call (EvNewPage browser) (fun tr => newPage env tr browser)
  end.

(** Line 71: where the script's [console.log] goes. *)
Definition logSink : LogSink :=
  if getMode ctx =? "manual" then SendMessageToUI else ConsoleLog.

(** Lines 62-84. *)
Definition runCustomScript (itemIndex : nat) (browser : Browser)
           (session : option PuppeteerSessionData) (page : Page)
  : M (list JsVal) :=
  let scriptCode := Param.scriptCode (getNodeParameter ctx itemIndex) in
  scriptResult <-
    call (EvVmRun (wrapScript scriptCode) browser page logSink)
         (fun tr => vm_run env tr (wrapScript scriptCode) browser page) ;;
  if negb (isArray scriptResult) then throw InvalidScriptReturn
  else
    scriptResult <-
      match session with
      | Some s => lift (mapR (stampPageId (pageId s)) (elements scriptResult))
      | None => ret (elements scriptResult)
      end ;;
    lift (normalizeItems ctx scriptResult).

(** Lines 87-97. *)
Definition buildURL (itemIndex : nat) : Result URL :=
  let urlString := Param.url (getNodeParameter ctx itemIndex) in
  match URL_new ctx urlString with
  | None => Err (InvalidURL urlString)
  | Some h =>
      let queryParameters :=
        match Param.queryParameters (getNodeParameter ctx itemIndex) with
        | Some l => l
        | None => []
        end in
      Ok (fold_left
            (fun u queryParameter =>
               {| href := href u;
                  appended := appended u ++ [queryParameter] |})
            queryParameters
            {| href := h; appended := [] |})
  end.

(** Lines 106-116. *)
Definition screenshotOptions (itemIndex : nat) : Shot.t :=
  let p := getNodeParameter ctx itemIndex in
  let type := Param.imageType p in
  {| Shot.type := type;
     Shot.fullPage := Param.fullPage p;
     Shot.quality :=
       if negb (type =? "png") then Some (Param.quality p) else None;
     Shot.path :=
       if truthy (Opt.fileName (Param.options p))
       then Opt.fileName (Param.options p) else None |}.

(** Lines 124-145. *)
Definition pdfOptions (itemIndex : nat) : PDF.t :=
  let p := getNodeParameter ctx itemIndex in
  let displayHeaderFooter := Param.displayHeaderFooter p in
  let preferCSSPageSize := Param.preferCSSPageSize p in
  let height :=
    if negb preferCSSPageSize then Some (Param.height p) else None in
  let width :=
    if negb preferCSSPageSize then Some (Param.width p) else None in
  {| PDF.pageRanges := Param.pageRanges p;
     PDF.displayHeaderFooter := displayHeaderFooter;
     PDF.omitBackground := Param.omitBackground p;
     PDF.printBackground := Param.printBackground p;
     PDF.landscape := Param.landscape p;
     PDF.preferCSSPageSize := preferCSSPageSize;
     PDF.scale := Param.scale p;
     PDF.margin := Param.margin p;
     PDF.headerTemplate :=
       if displayHeaderFooter then Some (Param.headerTemplate p) else None;
     PDF.footerTemplate :=
       if displayHeaderFooter then Some (Param.footerTemplate p) else None;
     PDF.height := height;
     PDF.width := width;
     PDF.format :=
       if negb preferCSSPageSize
       then if negb (truthy height) || negb (truthy width)
            then Some (Param.format p) else None
       else None;
     PDF.path :=
       if truthy (Opt.fileName (Param.options p))
       then Opt.fileName (Param.options p) else None |}.

(** Lines 102-149: the action proper, on a navigated page. *)
Definition performAction (operation : string) (itemIndex : nat)
           (page : Page) (url : URL) : M (list JsVal) :=
  let p := getNodeParameter ctx itemIndex in
  if operation =? "getPageContent" then
    body <- call (EvContent page) (fun tr => content env tr page) ;;
    ret [JsObj [("json", JsObj [("body", JsStr body)]);
                pairedItem itemIndex]]
  else if operation =? "getScreenshot" then
    let dataPropertyName := Param.dataPropertyName p in
    let screenshotOptions := screenshotOptions itemIndex in
    screenshot <-
      call (EvScreenshot page screenshotOptions)
           (fun tr => screenshot env tr page screenshotOptions) ;;
    let mimeType := ("image/" ++ Shot.type screenshotOptions)%string in
    binaryData <-
      call (EvPrepareBinaryData screenshot (Shot.path screenshotOptions)
                                mimeType)
           (fun tr => prepareBinaryData env tr screenshot
                        (Shot.path screenshotOptions) mimeType) ;;
    ret [JsObj [("binary", JsObj [(dataPropertyName, binaryData)]);
                ("json", JsObj [("url", JsStr (URL_toString ctx url))]);
                pairedItem itemIndex]]
  else if operation =? "getPDF" then
    let dataPropertyName := Param.dataPropertyName p in
    let pdfOptions := pdfOptions itemIndex in
    pdf <-
      call (EvPdf page pdfOptions) (fun tr => pdf env tr page pdfOptions) ;;
    binaryData <-
      call (EvPrepareBinaryData pdf (PDF.path pdfOptions) "application/pdf")
           (fun tr => prepareBinaryData env tr pdf (PDF.path pdfOptions)
                        "application/pdf") ;;
    ret [JsObj [("binary", JsObj [(dataPropertyName, binaryData)]);
                ("json", JsObj [("url", JsStr (URL_toString ctx url))]);
                pairedItem itemIndex]]
  else ret [].

(** Lines 62-158: the [try] block. *)
Definition runAction_body (operation : string) (itemIndex : nat)
           (browser : Browser) (session : option PuppeteerSessionData)
           (page : Page) : M (list JsVal) :=
  if operation =? "runCustomScript" then
    runCustomScript itemIndex browser session page
  else
    url <- lift (buildURL itemIndex) ;;
    call (EvGoto page (URL_toString ctx url))
         (fun tr => goto env tr page (URL_toString ctx url)) ;;;
    resultData <- performAction operation itemIndex page url ;;
    match session with
    | Some s => lift (mapR (stampPageId (pageId s)) resultData)
    | None => ret resultData
    end.

(** Lines 159-163: the [finally] block. *)
Definition runAction_finally (session : option PuppeteerSessionData)
           (page : Page) : M unit :=
  if negb (isSome session) then
    closed <- ask (fun tr => isClosed env tr page) ;;
    if negb closed then
      call (EvPageClose page) (fun tr => page_close env tr page)
    else ret tt
  else ret tt.

Definition runAction (itemIndex : nat) (browser : Browser)
           (session : option PuppeteerSessionData) : M (list JsVal) :=
  let operation := Param.operation (getNodeParameter ctx itemIndex) in
  page <- resolvePage browser session ;;
  try_finally (runAction_body operation itemIndex browser session page)
              (runAction_finally session page).

(** *** execute *)

(** Lines 183-205. *)
Definition startPersistentBrowser : M (list (list JsVal)) :=
  let sessionId := Param.sessionId (getNodeParameter ctx 0) in
  let browserManagerUrl := Param.browserManagerUrl (getNodeParameter ctx 0) in
  try_catch
    (response <-
       call (EvHttpPost (browserManagerUrl ++ "/start")%string sessionId)
            (fun tr => httpRequest env tr
                         (browserManagerUrl ++ "/start")%string sessionId) ;;
     let sessionData :=
       {| wsEndpoint := response_wsEndpoint response;
          pageId := response_pageId response;
          sessionId := response_sessionId response;
          browserManagerUrl := browserManagerUrl |} in
     writeSession (Some sessionData) ;;;
     ret [returnJsonArray [sessionObject sessionData]])
    (fun error => throw (SessionStartFailure error)).

(** Lines 207-231. *)
Definition stopPersistentBrowser : M (list (list JsVal)) :=
  session <- readSession ;;
  let sessionId :=
    if negb (isSome session)
    then Some (Param.stopSessionId (getNodeParameter ctx 0))
    else option_map sessionId session in
  let browserManagerUrl :=
    if negb (isSome session)
    then Some (Param.stopBrowserManagerUrl (getNodeParameter ctx 0))
    else option_map browserManagerUrl session in
  if negb (truthy sessionId) || negb (truthy browserManagerUrl) then
    throw NoSessionToStop
  else
    let sessionId := match sessionId with Some s => s | None => "" end in
    let browserManagerUrl :=
      match browserManagerUrl with Some s => s | None => "" end in
    try_catch
      (call (EvHttpPost (browserManagerUrl ++ "/stop")%string sessionId)
            (fun tr => httpRequest env tr
                         (browserManagerUrl ++ "/stop")%string sessionId) ;;;
       (if isSome session then writeSession None else ret tt) ;;;
       ret [returnJsonArray
              [JsObj [("message", JsStr "Session stopped.")]]])
      (fun error => throw (SessionStopFailure error)).

(** Lines 235-246: the session the batch runs in, and whether it is a
    manual override. *)
Definition resolveSession : M (option PuppeteerSessionData * bool) :=
  session <- readSession ;;
  let options := Param.options (getNodeParameter ctx 0) in
  match session, Opt.manualSessionOverride options with
  | None, Some true =>
      let manualWsEndpoint := Opt.manualWsEndpoint options in
      let manualPageId := Opt.manualPageId options in
      if negb (truthy manualWsEndpoint) || negb (truthy manualPageId) then
        throw IncompleteManualOverride
      else
        ret (Some {| wsEndpoint :=
                       match manualWsEndpoint with Some s => s | None => "" end;
                     pageId :=
                       match manualPageId with Some s => s | None => "" end;
                     sessionId := "manual-override";
                     browserManagerUrl := "" |},
             true)
  | _, _ => ret (session, false)
  end.

(** Lines 248-267. *)
Definition acquireBrowser (session : option PuppeteerSessionData)
  : M Browser :=
  let options := Param.options (getNodeParameter ctx 0) in
  match session with
  | Some s =>
      try_catch
        (call (EvConnect (wsEndpoint s))
              (fun tr => connect env tr (wsEndpoint s)))
        (fun error => throw (ConnectFailure error))
  | None =>
      let launchArgs := buildLaunchArgs options in
      try_catch
        (let headless := headlessMode options in
         call (EvLaunch headless launchArgs (Opt.executablePath options))
              (fun tr => launch env tr headless launchArgs
                           (Opt.executablePath options)))
        (fun error => throw (LaunchFailure error))
  end.

(** Lines 273-286: one turn of the loop, from the results gathered so
    far to the results after item [i]. *)
Definition processItem (browser : Browser)
           (session : option PuppeteerSessionData)
           (returnData : list JsVal) (i : nat) : M (list JsVal) :=
  try_catch
    (results <- runAction i browser session ;;
     ret (returnData ++ results))
    (fun error =>
       if continueOnFail ctx then
         message <- lift (readMessage ctx error) ;;
         ret (returnData ++ [errorRecord message i])
       else throw error).

(** Lines 272-287: [for (let i = ...; i < items.length; i++)], with [n]
    the number of items still to process. *)
Fixpoint processItems (n i : nat) (browser : Browser)
         (session : option PuppeteerSessionData)
         (returnData : list JsVal) : M (list JsVal) :=
  match n with
  | 0 => ret returnData
  | S n' =>
      returnData <- processItem browser session returnData i ;;
      processItems n' (S i) browser session returnData
  end.

(** Lines 288-298: the [finally] block of the batch. *)
Definition teardown (browser : Browser)
           (session : option PuppeteerSessionData) (isManualSession : bool)
  : M unit :=
  if isSome session && negb isManualSession then
    call (EvDisconnect browser) (fun tr => disconnect env tr browser)
  else if isSome session && isManualSession then
    call (EvDisconnect browser) (fun tr => disconnect env tr browser)
  else
    call (EvBrowserClose browser) (fun tr => browser_close env tr browser).

(** Lines 233-300: every operation other than start and stop. *)
Definition runBatch : M (list (list JsVal)) :=
  let items := getInputData ctx in
  resolved <- resolveSession ;;
  let session := fst resolved in
  let isManualSession := snd resolved in
  browser <- acquireBrowser session ;;
  returnData <-
    try_finally (processItems (length items) 0 browser session [])
                (teardown browser session isManualSession) ;;
  ret [returnData].

Definition execute : M (list (list JsVal)) :=
  let operation := Param.operation (getNodeParameter ctx 0) in
  if operation =? "startPersistentBrowser" then startPersistentBrowser
  else if operation =? "stopPersistentBrowser" then stopPersistentBrowser
  else runBatch.

End Node.

(** ** Classes of calls *)

Definition isTeardown (ev : Event) : bool :=
  match ev with
  | EvDisconnect _ | EvBrowserClose _ => true
  | _ => false
  end.

Definition isLaunch (ev : Event) : bool :=
  match ev with
  | EvLaunch _ _ _ => true
  | _ => false
  end.

(** The calls an item's action issues between acquiring its page and
    releasing it. *)
Definition isWork (ev : Event) : bool :=
  match ev with
  | EvVmRun _ _ _ _ | EvGoto _ _ | EvContent _ | EvScreenshot _ _
  | EvPdf _ _ | EvPrepareBinaryData _ _ _ => true
  | _ => false
  end.

(** The calls [runAction] issues. *)
Definition isItemLevel (ev : Event) : bool :=
  match ev with
  | EvPages _ | EvNewPage _ | EvPageClose _ => true
  | _ => isWork ev
  end.

Definition teardowns (evs : Trace) : Trace := filter isTeardown evs.

(** [m] only ever issues calls of class [P] and leaves the session slot
    alone. *)
Definition emits {A : Type} (P : Event -> bool) (m : M A) : Prop :=
  forall w r w',
    m w = (r, w') ->
    puppeteerSession w' = puppeteerSession w /\
    exists evs, trace w' = trace w ++ evs /\ forallb P evs = true.

(** ** Spec-side reading of the batch loop *)

(** Every item from [i] on is attempted, in order, whatever the outcome of
    the ones before it: the outcomes, and the world after the last one. *)
Fixpoint attempts (env : Env) (ctx : Context) (n i : nat) (browser : Browser)
         (session : option PuppeteerSessionData) (w : World)
  : list (Result (list JsVal)) * World :=
  match n with
  | 0 => ([], w)
  | S n' =>
      let (r, w1) := runAction env ctx i browser session w in
      let (rs, w2) := attempts env ctx n' (S i) browser session w1 in
      (r :: rs, w2)
  end.

(** What the outcomes of items [i], [i+1], ... contribute to the output: an
    item's own results, or one record
    [{ json: { error: <message> }, pairedItem: { item: <index> } }] with the
    message of what the item threw, paired to the item's index. *)
Fixpoint contributions (ctx : Context) (i : nat)
         (outcomes : list (Result (list JsVal))) : list JsVal :=
  match outcomes with
  | [] => []
  | Ok results :: rest => results ++ contributions ctx (S i) rest
  | Err error :: rest =>
      JsObj [("json",
              JsObj [("error",
                      match readMessage ctx error with
                      | Ok message => message
                      | Err _ => JsUndefined
                      end)]);
             ("pairedItem", JsObj [("item", JsNum (Z.of_nat i))])]
      :: contributions ctx (S i) rest
  end.

(** ** Derived notions *)

(** The operations served by the batch path of [execute]. *)
Definition isBatchOperation (ctx : Context) : bool :=
  negb (Param.operation (getNodeParameter ctx 0) =? "startPersistentBrowser")
  && negb (Param.operation (getNodeParameter ctx 0) =? "stopPersistentBrowser").

(** The answer of the collaborator to the teardown call issued after the
    history [tr]. *)
Definition teardownAnswer (env : Env) (browser : Browser)
           (session : option PuppeteerSessionData) (tr : Trace) : Result unit :=
  if isSome session then disconnect env tr browser
  else browser_close env tr browser.

(** The teardown call itself. *)
Definition teardownCall (browser : Browser)
           (session : option PuppeteerSessionData) : Event :=
  if isSome session then EvDisconnect browser else EvBrowserClose browser.

(** The call that acquires the browser. *)
Definition acquireCall (ctx : Context) (session : option PuppeteerSessionData)
  : Event :=
  let options := Param.options (getNodeParameter ctx 0) in
  match session with
  | Some s => EvConnect (wsEndpoint s)
  | None => EvLaunch (headlessMode options) (buildLaunchArgs options)
                     (Opt.executablePath options)
  end.

(** The identifier and the manager address the stop request is made with:
    the ambient descriptor's when there is one, the fallback parameters
    otherwise. *)
Definition stopTarget (ctx : Context) (slot : option PuppeteerSessionData)
  : string * string :=
  match slot with
  | Some s => (sessionId s, browserManagerUrl s)
  | None => (Param.stopSessionId (getNodeParameter ctx 0),
             Param.stopBrowserManagerUrl (getNodeParameter ctx 0))
  end.

(** What the node adds to the user's arguments. *)
Definition injected (user : list string) : list string :=
  filter (fun arg => negb (includes user arg)) CONTAINER_LAUNCH_ARGS.

(** The outcome of the cleanup step of [runAction] after the history
    [tr]. *)
Definition cleanupAnswer (env : Env) (session : option PuppeteerSessionData)
           (page : Page) (tr : Trace) : Result unit :=
  match session with
  | Some _ => Ok tt
  | None => if isClosed env tr page then Ok tt else page_close env tr page
  end.

(** The calls the cleanup step issues after the history [tr]. *)
Definition cleanupCalls (env : Env) (session : option PuppeteerSessionData)
           (page : Page) (tr : Trace) : Trace :=
  match session with
  | Some _ => []
  | None => if isClosed env tr page then [] else [EvPageClose page]
  end.

(** ** The parameter schema module *)

(** [s.startsWith(prefix)] *)
Fixpoint startsWith (prefix s : string) : bool :=
  match prefix, s with
  | EmptyString, _ => true
  | String _ _, EmptyString => false
  | String a prefix', String b s' => Ascii.eqb a b && startsWith prefix' s'
  end.

(** [s.includes(searchString)]: [searchString] occurs somewhere in [s]. *)
Fixpoint str_includes (searchString s : string) : bool :=
  if startsWith searchString s then true
  else match s with
       | EmptyString => false
       | String _ rest => str_includes searchString rest
       end.

(** What [isRunningInContainer] probes: the file system ([existsSync],
    [readFileSync], either of which may throw), [process.platform] and
    [process.env]. *)
Record Host : Type := {
  existsSync : string -> Result bool;
  platform : string;
  readFileSync : string -> Result string;
  process_env : string -> option string
}.

(** [isRunningInContainer], lines 6-24 of the schema module.  The inner
    [try] swallows a failed read of the control-group file; the outer one
    turns any other failure into [false]. *)
Definition isRunningInContainer (host : Host) : bool :=
  match
    match existsSync host "/.dockerenv" with
    | Err e => Err e
    | Ok true => Ok true
    | Ok false =>
        let fromCgroup :=
          if platform host =? "linux" then
            match readFileSync host "/proc/1/cgroup" with
            | Ok cgroupContent =>
                str_includes "docker" cgroupContent
                || str_includes "kubepods" cgroupContent
            | Err _ => false
            end
          else false in
        if fromCgroup then Ok true
        else if truthy (process_env host "KUBERNETES_SERVICE_HOST")
                || truthy (process_env host "DOCKER_CONTAINER")
                || truthy (process_env host "DOCKER_HOST")
        then Ok true
        else Ok false
    end
  with
  | Ok b => b
  | Err _ => false
  end.

(** ** Device options *)

Module Devices.

(** puppeteer's [Device], the fields [getDevices] reads. *)
Record Viewport : Type := {
  width : nat;
  height : nat
}.

Record Device : Type := {
  viewport : Viewport
}.

(** [INodePropertyOptions] *)
Record INodePropertyOptions : Type := {
  name : string;
  value : string;
  description : string
}.

(** [devices[name]]: the value of the first property called [name]. *)
Fixpoint get (devices : list (string * Device)) (name : string)
  : option Device :=
  match devices with
  | [] => None
  | (k, d) :: rest => if k =? name then Some d else get rest name
  end.

(** [getDevices], lines 170-176, over the table of known devices (an object,
    given as its properties in key order). *)
Definition getDevices (devices : list (string * Device))
  : Result (list INodePropertyOptions) :=
  let deviceNames := map fst devices in
  mapR (fun name =>
          match get devices name with
          | None =>
              Err (TypeError
                     "Cannot read properties of undefined (reading 'viewport')")
          | Some device =>
              Ok {| name := name;
                    value := name;
                    description :=
                      (string_of_nat (width (viewport device)) ++ "x"
                       ++ string_of_nat (height (viewport device)))%string |}
          end)
       deviceNames.

End Devices.

(** The option [getDevices] builds for a device name. *)
Definition deviceOption (devices : list (string * Devices.Device))
           (name : string) : Devices.INodePropertyOptions :=
  match Devices.get devices name with
  | Some device =>
      {| Devices.name := name;
         Devices.value := name;
         Devices.description :=
           (string_of_nat (Devices.width (Devices.viewport device)) ++ "x"
            ++ string_of_nat (Devices.height (Devices.viewport device)))%string
      |}
  | None =>
      {| Devices.name := name; Devices.value := name;
         Devices.description := "" |}
  end.

(** ** More classes of calls *)

Definition isHttp (ev : Event) : bool :=
  match ev with
  | EvHttpPost _ _ => true
  | _ => false
  end.

Definition isNewPage (ev : Event) : bool :=
  match ev with
  | EvNewPage _ => true
  | _ => false
  end.

Definition isPages (ev : Event) : bool :=
  match ev with
  | EvPages _ => true
  | _ => false
  end.

(** The calls that acquire a browser. *)
Definition isAcquire (ev : Event) : bool :=
  match ev with
  | EvConnect _ | EvLaunch _ _ _ => true
  | _ => false
  end.

(** [v[k]] for a value [v] read as an object. *)
Definition prop (k : string) (v : JsVal) : JsVal := lookup_prop k (spread v).

Definition isNone {A : Type} (o : option A) : bool := negb (isSome o).

(** The options of a [page.pdf] call respect the precedence of the page
    size settings: with [preferCSSPageSize] no height, width or format is
    passed; without it height and width are passed and a format exactly
    when one of them is empty; the templates are passed exactly when the
    header and footer are displayed; a path is never empty. *)
Definition pdfShape (o : PDF.t) : bool :=
  (if PDF.preferCSSPageSize o
   then isNone (PDF.height o) && isNone (PDF.width o) && isNone (PDF.format o)
   else isSome (PDF.height o) && isSome (PDF.width o)
        && Bool.eqb (isSome (PDF.format o))
                    (negb (truthy (PDF.height o) && truthy (PDF.width o))))
  && Bool.eqb (isSome (PDF.headerTemplate o)) (PDF.displayHeaderFooter o)
  && Bool.eqb (isSome (PDF.footerTemplate o)) (PDF.displayHeaderFooter o)
  && (isNone (PDF.path o) || truthy (PDF.path o)).

(** The options of a [page.screenshot] call: a quality exactly for the
    types other than png; a path is never empty. *)
Definition shotShape (o : Shot.t) : bool :=
  Bool.eqb (isSome (Shot.quality o)) (negb (Shot.type o =? "png"))
  && (isNone (Shot.path o) || truthy (Shot.path o)).

(** The render calls are well formed. *)
Definition renderShape (ev : Event) : bool :=
  match ev with
  | EvPdf _ o => pdfShape o
  | EvScreenshot _ o => shotShape o
  | _ => true
  end.

(** The calls a script item issues between acquiring its page and releasing
    it. *)
Definition isVmRun (ev : Event) : bool :=
  match ev with
  | EvVmRun _ _ _ _ => true
  | _ => false
  end.



(** ** Scenarios *)

Module Scenario.

Definition noOptions : Opt.t :=
  {| Opt.manualSessionOverride := None;
     Opt.manualWsEndpoint := None;
     Opt.manualPageId := None;
     Opt.launchArguments := None;
     Opt.addContainerArgs := None;
     Opt.headless := None;
     Opt.executablePath := None;
     Opt.fileName := None |}.

Definition noMargin : Margin :=
  {| top := None; bottom := None; left := None; right := None |}.

(** The schema defaults, with a URL, for the given operation and
    options. *)
Definition parameters (operation : string) (options : Opt.t) : Param.t :=
  {| Param.operation := operation;
     Param.sessionId := "abc";
     Param.browserManagerUrl := "http://127.0.0.1:3001";
     Param.stopSessionId := "";
     Param.stopBrowserManagerUrl := "http://127.0.0.1:3001";
     Param.scriptCode := "return [{ ok: true }];";
     Param.url := "https://example.test/";
     Param.queryParameters := None;
     Param.dataPropertyName := "data";
     Param.imageType := "png";
     Param.fullPage := true;
     Param.quality := 100;
     Param.options := options;
     Param.pageRanges := "";
     Param.displayHeaderFooter := false;
     Param.omitBackground := false;
     Param.printBackground := false;
     Param.landscape := true;
     Param.preferCSSPageSize := true;
     Param.scale := 1000;
     Param.margin := noMargin;
     Param.headerTemplate := "";
     Param.footerTemplate := "";
     Param.height := "";
     Param.width := "";
     Param.format := "Letter" |}.

(** A PDF request that does not prefer the CSS page size. *)
Definition pdfParameters (height width format : string) : Param.t :=
  let p := parameters "getPDF" noOptions in
  {| Param.operation := Param.operation p;
     Param.sessionId := Param.sessionId p;
     Param.browserManagerUrl := Param.browserManagerUrl p;
     Param.stopSessionId := Param.stopSessionId p;
     Param.stopBrowserManagerUrl := Param.stopBrowserManagerUrl p;
     Param.scriptCode := Param.scriptCode p;
     Param.url := Param.url p;
     Param.queryParameters := Param.queryParameters p;
     Param.dataPropertyName := Param.dataPropertyName p;
     Param.imageType := Param.imageType p;
     Param.fullPage := Param.fullPage p;
     Param.quality := Param.quality p;
     Param.options := Param.options p;
     Param.pageRanges := Param.pageRanges p;
     Param.displayHeaderFooter := Param.displayHeaderFooter p;
     Param.omitBackground := Param.omitBackground p;
     Param.printBackground := Param.printBackground p;
     Param.landscape := Param.landscape p;
     Param.preferCSSPageSize := false;
     Param.scale := Param.scale p;
     Param.margin := Param.margin p;
     Param.headerTemplate := Param.headerTemplate p;
     Param.footerTemplate := Param.footerTemplate p;
     Param.height := height;
     Param.width := width;
     Param.format := format |}.

(** A stop request with the given fallback fields. *)
Definition stopParameters (stopSessionId stopBrowserManagerUrl : string)
  : Param.t :=
  let p := parameters "stopPersistentBrowser" noOptions in
  {| Param.operation := Param.operation p;
     Param.sessionId := Param.sessionId p;
     Param.browserManagerUrl := Param.browserManagerUrl p;
     Param.stopSessionId := stopSessionId;
     Param.stopBrowserManagerUrl := stopBrowserManagerUrl;
     Param.scriptCode := Param.scriptCode p;
     Param.url := Param.url p;
     Param.queryParameters := Param.queryParameters p;
     Param.dataPropertyName := Param.dataPropertyName p;
     Param.imageType := Param.imageType p;
     Param.fullPage := Param.fullPage p;
     Param.quality := Param.quality p;
     Param.options := Param.options p;
     Param.pageRanges := Param.pageRanges p;
     Param.displayHeaderFooter := Param.displayHeaderFooter p;
     Param.omitBackground := Param.omitBackground p;
     Param.printBackground := Param.printBackground p;
     Param.landscape := Param.landscape p;
     Param.preferCSSPageSize := Param.preferCSSPageSize p;
     Param.scale := Param.scale p;
     Param.margin := Param.margin p;
     Param.headerTemplate := Param.headerTemplate p;
     Param.footerTemplate := Param.footerTemplate p;
     Param.height := Param.height p;
     Param.width := Param.width p;
     Param.format := Param.format p |}.

Definition manualOptions (endpoint pageId : option string) : Opt.t :=
  {| Opt.manualSessionOverride := Some true;
     Opt.manualWsEndpoint := endpoint;
     Opt.manualPageId := pageId;
     Opt.launchArguments := None;
     Opt.addContainerArgs := None;
     Opt.headless := None;
     Opt.executablePath := None;
     Opt.fileName := None |}.

Definition containerOptions (userArgs : list string) : Opt.t :=
  {| Opt.manualSessionOverride := None;
     Opt.manualWsEndpoint := None;
     Opt.manualPageId := None;
     Opt.launchArguments := Some {| args := Some userArgs |};
     Opt.addContainerArgs := Some true;
     Opt.headless := None;
     Opt.executablePath := None;
     Opt.fileName := None |}.

(** A constructor that keeps the text it is handed, and the message of the
    error it wraps: the text of each throw site of the node. *)
Fixpoint plainMessage (e : Error) : string :=
  match e with
  | HostError msg => msg
  | TypeError msg => msg
  | Thrown _ => ""
  | PageNotFound pageId =>
      ("Could not find persistent page with ID '" ++ pageId ++ "'.")%string
  | InvalidScriptReturn => "Custom script must return an array of items."
  | InvalidURL urlString => ("Invalid URL: " ++ urlString)%string
  | SessionStartFailure cause => plainMessage cause
  | NoSessionToStop =>
      "Could not find a session to stop. Provide a fallback Session ID or ensure a Start node ran."
  | SessionStopFailure cause => plainMessage cause
  | IncompleteManualOverride =>
      "For Manual Session Override, both WebSocket Endpoint and Page ID are required."
  | ConnectFailure cause => plainMessage cause
  | LaunchFailure cause => plainMessage cause
  end.

(** A batch of [n] items with the same parameters for every item. *)
Definition context (p : Param.t) (n : nat) (continueOnFail : bool)
  : Context :=
  {| getNodeParameter := fun _ => p;
     getInputData := repeat (JsObj [("json", JsObj [])]) n;
     continueOnFail := continueOnFail;
     getMode := "manual";
     normalizeItems := fun l => Ok l;
     URL_new := fun s => if s =? "" then None else Some s;
     URL_toString := href;
     NodeOperationError_message := plainMessage |}.

Definition thePage : Page := {| page_handle := 1; targetId := "p1" |}.

(** Collaborators that never fail: browser handle 7, one page [p1]. *)
Definition calm : Env :=
  {| httpRequest := fun _ _ sessionId =>
       Ok {| response_wsEndpoint := "ws://x";
             response_pageId := "p1";
             response_sessionId := sessionId |};
     connect := fun _ _ => Ok 7;
     launch := fun _ _ _ _ => Ok 7;
     pages := fun _ _ => Ok [thePage];
     newPage := fun _ _ => Ok thePage;
     vm_run := fun _ _ _ _ => Ok (JsArr [JsObj [("json", JsObj [])]]);
     goto := fun _ _ _ => Ok tt;
     content := fun _ _ => Ok "<html></html>";
     screenshot := fun _ _ _ => Ok "image-bytes";
     pdf := fun _ _ _ => Ok "pdf-bytes";
     prepareBinaryData := fun _ _ _ mime => Ok (JsObj [("mimeType", JsStr mime)]);
     isClosed := fun _ _ => false;
     page_close := fun _ _ => Ok tt;
     disconnect := fun _ _ => Ok tt;
     browser_close := fun _ _ => Ok tt |}.

(** As [calm], with the script's value, the answer to navigation given
    the calls so far, and the outcomes of page close, browser close and
    the manager's request replaced. *)
Definition collaborators (scriptValue : JsVal)
           (navigation : Trace -> Result unit)
           (pageClose browserClose : Result unit)
           (manager : Result StartResponse) : Env :=
  {| httpRequest := fun _ _ _ => manager;
     connect := connect calm;
     launch := launch calm;
     pages := pages calm;
     newPage := newPage calm;
     vm_run := fun _ _ _ _ => Ok scriptValue;
     goto := fun tr _ _ => navigation tr;
     content := content calm;
     screenshot := screenshot calm;
     pdf := pdf calm;
     prepareBinaryData := prepareBinaryData calm;
     isClosed := isClosed calm;
     page_close := fun _ _ => pageClose;
     disconnect := fun _ _ => browserClose;
     browser_close := fun _ _ => browserClose |}.

Definition ambient : PuppeteerSessionData :=
  {| wsEndpoint := "ws://x";
     pageId := "p1";
     sessionId := "abc";
     browserManagerUrl := "http://127.0.0.1:3001" |}.

Definition start (slot : option PuppeteerSessionData) : World :=
  {| trace := []; puppeteerSession := slot |}.

(** Navigation fails exactly for the second item of a batch: when one
    navigation has been issued before. *)
Definition secondNavigationFails (tr : Trace) : Result unit :=
  if (length (filter (fun ev => match ev with EvGoto _ _ => true | _ => false end) tr) =? 1)%nat
  then Err (HostError "net::ERR_CONNECTION_REFUSED")
  else Ok tt.

(** The collaborators of scenario 4: the second navigation fails. *)
Definition flaky : Env :=
  collaborators JsNull secondNavigationFails (Ok tt) (Ok tt)
                (Err (HostError "unused")).

(** A batch of [n] content requests. *)
Definition contentBatch (n : nat) (continueOnFail : bool) : Context :=
  context (parameters "getPageContent" noOptions) n continueOnFail.

(** The world right after a browser was launched with no arguments. *)
Definition launched : World :=
  {| trace := [EvLaunch HeadlessNew [] None]; puppeteerSession := None |}.

(** Every navigation fails and so does the browser's teardown. *)
Definition failingTeardown : Env :=
  collaborators JsNull (fun _ => Err (HostError "navigation failed"))
                (Ok tt) (Err (HostError "close failed"))
                (Err (HostError "unused")).

(** The script returns the number 42; closing the page fails. *)
Definition failingPageClose : Env :=
  collaborators (JsNum 42) (fun _ => Ok tt)
                (Err (HostError "Protocol error: Target closed"))
                (Ok tt) (Err (HostError "unused")).

(** The script returns the number 42; nothing else fails. *)
Definition scriptReturnsNumber : Env :=
  collaborators (JsNum 42) (fun _ => Ok tt) (Ok tt) (Ok tt)
                (Err (HostError "unused")).

Definition scriptBatch (n : nat) (continueOnFail : bool) : Context :=
  context (parameters "runCustomScript" noOptions) n continueOnFail.

(** The manager refuses every request. *)
Definition managerDown : Env :=
  collaborators JsNull (fun _ => Ok tt) (Ok tt) (Ok tt)
                (Err (HostError "ECONNREFUSED")).

(** A screenshot request with a complete manual override configured. *)
Definition overriddenScreenshot : Context :=
  context (parameters "getScreenshot"
             (manualOptions (Some "ws://other") (Some "p9")))
          1 false.

(** A launch with the container flag set and two arguments of the user's,
    one of them a recommended one. *)
Definition containerLaunch : Context :=
  context (parameters "getPageContent"
             (containerOptions ["--disable-gpu"; "--window-size=800,600"]))
          1 false.

(** One PDF request: CSS page size not preferred, no height, no width,
    an empty format. *)
Definition barePdf : Context := context (pdfParameters "" "" "") 1 false.

(** A start request with the schema defaults. *)
Definition startRequest : Context :=
  context (parameters "startPersistentBrowser" noOptions) 1 false.

(** A stop request whose fallback parameters are both empty. *)
Definition stopRequest : Context := context (stopParameters "" "") 1 false.

(** A stop request with a complete fallback. *)
Definition stopWithFallback : Context :=
  context (stopParameters "abc" "http://127.0.0.1:3001") 1 false.

(** A descriptor stored from an answer that carried no session id. *)
Definition anonymous : PuppeteerSessionData :=
  {| wsEndpoint := "ws://x";
     pageId := "p1";
     sessionId := "";
     browserManagerUrl := "http://127.0.0.1:3001" |}.

(** The override's endpoint and page id are configured, its flag is
    [false]; the browser is to run with a window. *)
Definition overrideSwitchedOff : Context :=
  context (parameters "getPageContent"
             {| Opt.manualSessionOverride := Some false;
                Opt.manualWsEndpoint := Some "ws://other";
                Opt.manualPageId := Some "p9";
                Opt.launchArguments := None;
                Opt.addContainerArgs := None;
                Opt.headless := Some false;
                Opt.executablePath := None;
                Opt.fileName := None |})
          1 false.

(** The browser behind the session's endpoint cannot be reached. *)
Definition unreachable : Env :=
  {| httpRequest := httpRequest calm;
     connect := fun _ _ => Err (HostError "connect ECONNREFUSED");
     launch := launch calm;
     pages := pages calm;
     newPage := newPage calm;
     vm_run := vm_run calm;
     goto := goto calm;
     content := content calm;
     screenshot := screenshot calm;
     pdf := pdf calm;
     prepareBinaryData := prepareBinaryData calm;
     isClosed := isClosed calm;
     page_close := page_close calm;
     disconnect := disconnect calm;
     browser_close := browser_close calm |}.

(** Everything works except the browser's teardown. *)
Definition stubbornBrowser : Env :=
  collaborators JsNull (fun _ => Ok tt) (Ok tt)
                (Err (HostError "close failed")) (Err (HostError "unused")).

(** The results of the first [n] items of a content batch in a launched
    browser, and the world after them. *)
Definition attempts_results (env : Env) (ctx : Context) (n : nat)
  : list JsVal * World :=
  (contributions ctx 0 (fst (attempts env ctx n 0 7 None launched)),
   snd (attempts env ctx n 0 7 None launched)).

(** The browser has one page, and it is not the session's. *)
Definition otherPageOnly : Env :=
  {| httpRequest := httpRequest calm;
     connect := connect calm;
     launch := launch calm;
     pages := fun _ _ => Ok [{| page_handle := 2; targetId := "p2" |}];
     newPage := newPage calm;
     vm_run := vm_run calm;
     goto := goto calm;
     content := content calm;
     screenshot := screenshot calm;
     pdf := pdf calm;
     prepareBinaryData := prepareBinaryData calm;
     isClosed := isClosed calm;
     page_close := page_close calm;
     disconnect := disconnect calm;
     browser_close := browser_close calm |}.

(** A content request whose URL is empty. *)
Definition noUrl : Context :=
  {| getNodeParameter :=
       fun _ =>
         let p := parameters "getPageContent" noOptions in
         {| Param.operation := Param.operation p;
            Param.sessionId := Param.sessionId p;
            Param.browserManagerUrl := Param.browserManagerUrl p;
            Param.stopSessionId := Param.stopSessionId p;
            Param.stopBrowserManagerUrl := Param.stopBrowserManagerUrl p;
            Param.scriptCode := Param.scriptCode p;
            Param.url := "";
            Param.queryParameters := Param.queryParameters p;
            Param.dataPropertyName := Param.dataPropertyName p;
            Param.imageType := Param.imageType p;
            Param.fullPage := Param.fullPage p;
            Param.quality := Param.quality p;
            Param.options := Param.options p;
            Param.pageRanges := Param.pageRanges p;
            Param.displayHeaderFooter := Param.displayHeaderFooter p;
            Param.omitBackground := Param.omitBackground p;
            Param.printBackground := Param.printBackground p;
            Param.landscape := Param.landscape p;
            Param.preferCSSPageSize := Param.preferCSSPageSize p;
            Param.scale := Param.scale p;
            Param.margin := Param.margin p;
            Param.headerTemplate := Param.headerTemplate p;
            Param.footerTemplate := Param.footerTemplate p;
            Param.height := Param.height p;
            Param.width := Param.width p;
            Param.format := Param.format p |};
     getInputData := [JsObj [("json", JsObj [])]];
     continueOnFail := false;
     getMode := "manual";
     normalizeItems := fun l => Ok l;
     URL_new := fun s => if s =? "" then None else Some s;
     URL_toString := href;
     NodeOperationError_message := plainMessage |}.

(** A request for an operation that is none of the node's. *)
Definition unknownOperation : Context :=
  context (parameters "getTitle" noOptions) 1 false.

(** A content request with three query parameters, two of one name; the
    address is printed with its parameters joined to it. *)
Definition withQuery : Context :=
  {| getNodeParameter :=
       fun _ =>
         let p := parameters "getPageContent" noOptions in
         {| Param.operation := Param.operation p;
            Param.sessionId := Param.sessionId p;
            Param.browserManagerUrl := Param.browserManagerUrl p;
            Param.stopSessionId := Param.stopSessionId p;
            Param.stopBrowserManagerUrl := Param.stopBrowserManagerUrl p;
            Param.scriptCode := Param.scriptCode p;
            Param.url := Param.url p;
            Param.queryParameters := Some [("a", "1"); ("a", "2"); ("b", "3")];
            Param.dataPropertyName := Param.dataPropertyName p;
            Param.imageType := Param.imageType p;
            Param.fullPage := Param.fullPage p;
            Param.quality := Param.quality p;
            Param.options := Param.options p;
            Param.pageRanges := Param.pageRanges p;
            Param.displayHeaderFooter := Param.displayHeaderFooter p;
            Param.omitBackground := Param.omitBackground p;
            Param.printBackground := Param.printBackground p;
            Param.landscape := Param.landscape p;
            Param.preferCSSPageSize := Param.preferCSSPageSize p;
            Param.scale := Param.scale p;
            Param.margin := Param.margin p;
            Param.headerTemplate := Param.headerTemplate p;
            Param.footerTemplate := Param.footerTemplate p;
            Param.height := Param.height p;
            Param.width := Param.width p;
            Param.format := Param.format p |};
     getInputData := [JsObj [("json", JsObj [])]];
     continueOnFail := false;
     getMode := "manual";
     normalizeItems := fun l => Ok l;
     URL_new := fun s => if s =? "" then None else Some s;
     URL_toString :=
       fun u =>
         (href u
          ++ match appended u with
             | [] => ""
             | (k, v) :: rest =>
                 "?" ++ k ++ "=" ++ v
                 ++ String.concat ""
                      (map (fun kv => "&" ++ fst kv ++ "=" ++ snd kv) rest)
             end)%string;
     NodeOperationError_message := plainMessage |}.

(** A pod: Linux, no marker file, control groups of Kubernetes, nothing
    in the environment. *)
Definition pod : Host :=
  {| existsSync := fun _ => Ok false;
     platform := "linux";
     readFileSync := fun _ => Ok "12:pids:/kubepods/besteffort/pod1";
     process_env := fun _ => None |}.

(** A Linux host that may not read the control groups of the init process;
    [DOCKER_HOST] is set. *)
Definition restricted : Host :=
  {| existsSync := fun _ => Ok false;
     platform := "linux";
     readFileSync := fun _ => Err (HostError "EACCES");
     process_env :=
       fun k => if k =? "DOCKER_HOST" then Some "tcp://127.0.0.1:2375"
                else None |}.

(** A macOS host with nothing set. *)
Definition laptop : Host :=
  {| existsSync := fun _ => Ok false;
     platform := "darwin";
     readFileSync := fun _ => Err (HostError "ENOENT");
     process_env := fun _ => None |}.

(** A table of two known devices. *)
Definition twoDevices : list (string * Devices.Device) :=
  [("iPhone 6",
    {| Devices.viewport := {| Devices.width := 375; Devices.height := 667 |} |});
   ("iPad",
    {| Devices.viewport := {| Devices.width := 768; Devices.height := 1024 |} |})].

(** A host on which the file system may not be probed; [DOCKER_HOST] is
    set. *)
Definition sandboxed : Host :=
  {| existsSync := fun _ => Err (HostError "EPERM");
     platform := "linux";
     readFileSync := fun _ => Err (HostError "EPERM");
     process_env :=
       fun k => if k =? "DOCKER_HOST" then Some "tcp://127.0.0.1:2375"
                else None |}.

(** The script returns two items. *)
Definition twoResults : Env :=
  collaborators (JsArr [JsObj [("json", JsObj [("n", JsNum 1)])];
                        JsObj [("json", JsObj [("n", JsNum 2)])]])
                (fun _ => Ok tt) (Ok tt) (Ok tt) (Err (HostError "unused")).

(** The script returns an array whose only element is [null]. *)
Definition nullResult : Env :=
  collaborators (JsArr [JsNull]) (fun _ => Ok tt) (Ok tt) (Ok tt)
                (Err (HostError "unused")).

(** The script of every item throws the given value, which is not an
    [Error] object; nothing else fails. *)
Definition scriptThrows (value : JsVal) : Env :=
  {| httpRequest := httpRequest calm;
     connect := connect calm;
     launch := launch calm;
     pages := pages calm;
     newPage := newPage calm;
     vm_run := fun _ _ _ _ => Err (Thrown value);
     goto := goto calm;
     content := content calm;
     screenshot := screenshot calm;
     pdf := pdf calm;
     prepareBinaryData := prepareBinaryData calm;
     isClosed := isClosed calm;
     page_close := page_close calm;
     disconnect := disconnect calm;
     browser_close := browser_close calm |}.

End Scenario.

(** * Properties *)

(** ** The end-to-end scenarios of the specification *)

(** Scenario 1: a content request with no ambient session launches a
    browser, opens a page, navigates, reads the content, closes the page and
    closes the browser. *)
Example scenario_content_launched :
  execute Scenario.calm (Scenario.contentBatch 1 false) (Scenario.start None)
  = (Ok [[JsObj [("json", JsObj [("body", JsStr "<html></html>")]);
                 pairedItem 0]]],
     {| trace := [EvLaunch HeadlessNew [] None;
                  EvNewPage 7;
                  EvGoto Scenario.thePage "https://example.test/";
                  EvContent Scenario.thePage;
                  EvPageClose Scenario.thePage;
                  EvBrowserClose 7];
        puppeteerSession := None |}).
Proof. vm_compute. reflexivity. Qed.

(** Scenario 2: starting a persistent browser stores the manager's answer in
    the slot and returns it as the only item. *)
Example scenario_start_persistent :
  execute Scenario.calm
          (Scenario.context
             (Scenario.parameters "startPersistentBrowser" Scenario.noOptions)
             1 false)
          (Scenario.start None)
  = (Ok [[JsObj [("json", sessionObject Scenario.ambient)]]],
     {| trace := [EvHttpPost "http://127.0.0.1:3001/start" "abc"];
        puppeteerSession := Some Scenario.ambient |}).
Proof. vm_compute. reflexivity. Qed.

(** Scenario 3: with that descriptor in the slot, a screenshot request
    connects, looks the page up, captures, stamps the page id on the result
    and disconnects. *)
Example scenario_screenshot_in_session :
  execute Scenario.calm
          (Scenario.context
             (Scenario.parameters "getScreenshot" Scenario.noOptions) 1 false)
          (Scenario.start (Some Scenario.ambient))
  = (Ok [[JsObj [("binary",
                  JsObj [("data", JsObj [("mimeType", JsStr "image/png")])]);
                 ("json", JsObj [("url", JsStr "https://example.test/");
                                 ("pageId", JsStr "p1")]);
                 pairedItem 0]]],
     {| trace := [EvConnect "ws://x";
                  EvPages 7;
                  EvGoto Scenario.thePage "https://example.test/";
                  EvScreenshot Scenario.thePage
                    {| Shot.type := "png"; Shot.fullPage := true;
                       Shot.quality := None; Shot.path := None |};
                  EvPrepareBinaryData "image-bytes" None "image/png";
                  EvDisconnect 7];
        puppeteerSession := Some Scenario.ambient |}).
Proof. vm_compute. reflexivity. Qed.

(** ** Reasoning about the calls a computation issues *)

(** A computation that issues no call and leaves the world as it is. *)
Ltac silent :=
  let H := fresh in
  intros ? ? ? H; inversion H; subst; split; [reflexivity|];
  exists []; rewrite app_nil_r; split; reflexivity.

Section Emits.

Context {A : Type} (P : Event -> bool).

Lemma emits_ret (a : A) : emits P (ret a).
Proof. silent. Qed.

Lemma emits_throw (e : Error) : emits P (@throw A e).
Proof. silent. Qed.

Lemma emits_lift (x : Result A) : emits P (lift x).
Proof. silent. Qed.

Lemma emits_ask (answer : Trace -> A) : emits P (ask answer).
Proof. silent. Qed.

Lemma emits_call (ev : Event) (answer : Trace -> Result A) :
  P ev = true -> emits P (call ev answer).
Proof.
  intros HP w r w' H. inversion H; subst. split; [reflexivity|].
  exists [ev]. split; [reflexivity|]. simpl. rewrite HP. reflexivity.
Qed.

Lemma emits_try_catch (body : M A) (handler : Error -> M A) :
  emits P body -> (forall e, emits P (handler e)) ->
  emits P (try_catch body handler).
Proof.
  intros Hb Hh w r w' H. unfold try_catch in H.
  destruct (body w) as [[a|e] w1] eqn:E.
  - inversion H; subst. exact (Hb _ _ _ E).
  - destruct (Hb _ _ _ E) as [S1 [evs1 [T1 F1]]].
    destruct (Hh e _ _ _ H) as [S2 [evs2 [T2 F2]]].
    split; [congruence|].
    exists (evs1 ++ evs2). rewrite T2, T1, app_assoc. split; [reflexivity|].
    rewrite forallb_app, F1, F2. reflexivity.
Qed.

Lemma emits_try_finally (body : M A) (final : M unit) :
  emits P body -> emits P final -> emits P (try_finally body final).
Proof.
  intros Hb Hf w r w' H. unfold try_finally in H.
  destruct (body w) as [r1 w1] eqn:E.
  destruct (final w1) as [r2 w2] eqn:F.
  destruct (Hb _ _ _ E) as [S1 [evs1 [T1 F1]]].
  destruct (Hf _ _ _ F) as [S2 [evs2 [T2 F2]]].
  assert (w' = w2) by (destruct r2; inversion H; reflexivity). subst w'.
  split; [congruence|].
  exists (evs1 ++ evs2). rewrite T2, T1, app_assoc. split; [reflexivity|].
  rewrite forallb_app, F1, F2. reflexivity.
Qed.

Lemma emits_weaken (Q : Event -> bool) (m : M A) :
  (forall ev, P ev = true -> Q ev = true) -> emits P m -> emits Q m.
Proof.
  intros HPQ Hm w r w' H.
  destruct (Hm _ _ _ H) as [S1 [evs [T1 F1]]].
  split; [exact S1|]. exists evs. split; [exact T1|].
  rewrite forallb_forall in *. auto.
Qed.

End Emits.

Lemma emits_bind {A B : Type} (P : Event -> bool) (m : M A) (k : A -> M B) :
  emits P m -> (forall a, emits P (k a)) -> emits P (bind m k).
Proof.
  intros Hm Hk w r w' H. unfold bind in H.
  destruct (m w) as [[a|e] w1] eqn:E.
  - destruct (Hm _ _ _ E) as [S1 [evs1 [T1 F1]]].
    destruct (Hk a _ _ _ H) as [S2 [evs2 [T2 F2]]].
    split; [congruence|].
    exists (evs1 ++ evs2). rewrite T2, T1, app_assoc. split; [reflexivity|].
    rewrite forallb_app, F1, F2. reflexivity.
  - inversion H; subst. exact (Hm _ _ _ E).
Qed.

(** Decomposes a computation along its control structure. *)
Ltac emits_steps :=
  repeat match goal with
    | |- emits _ (ret _) => apply emits_ret
    | |- emits _ (throw _) => apply emits_throw
    | |- emits _ (lift _) => apply emits_lift
    | |- emits _ (ask _) => apply emits_ask
    | |- emits _ (call _ _) => apply emits_call; reflexivity
    | |- emits _ (bind _ _) => apply emits_bind; [|intros ?]
    | |- emits _ (try_catch _ _) => apply emits_try_catch; [|intros ?]
    | |- emits _ (try_finally _ _) => apply emits_try_finally
    | |- emits _ (if ?b then _ else _) => destruct b
    | |- emits _ (match ?x with _ => _ end) => destruct x
    end.

Section ItemCalls.

Variable env : Env.
Variable ctx : Context.

Lemma runAction_body_emits operation itemIndex browser session page :
  emits isWork (runAction_body env ctx operation itemIndex browser session page).
Proof.
  unfold runAction_body, runCustomScript, performAction. emits_steps.
Qed.

Lemma runAction_emits itemIndex browser session :
  emits isItemLevel (runAction env ctx itemIndex browser session).
Proof.
  unfold runAction, resolvePage, runAction_finally. emits_steps.
  apply emits_weaken with (P := isWork).
  - intros [] H; simpl in *; congruence.
  - apply runAction_body_emits.
Qed.

Lemma processItem_emits browser session returnData i :
  emits isItemLevel (processItem env ctx browser session returnData i).
Proof.
  unfold processItem. emits_steps. apply runAction_emits.
Qed.

Lemma processItems_emits n : forall i browser session returnData,
  emits isItemLevel (processItems env ctx n i browser session returnData).
Proof.
  induction n as [|n IH]; intros; simpl.
  - apply emits_ret.
  - apply emits_bind; [apply processItem_emits | intros; apply IH].
Qed.

End ItemCalls.

(** ** The shape of a batch run *)

Lemma execute_batch env ctx :
  isBatchOperation ctx = true -> execute env ctx = runBatch env ctx.
Proof.
  unfold isBatchOperation, execute. intros H.
  apply andb_true_iff in H. destruct H as [H1 H2].
  apply negb_true_iff in H1, H2. rewrite H1, H2. reflexivity.
Qed.

Lemma resolveSession_pure ctx w r w' :
  resolveSession ctx w = (r, w') -> w' = w.
Proof.
  unfold resolveSession, bind, readSession. intros H.
  destruct (puppeteerSession w); [inversion H; reflexivity|].
  destruct (Opt.manualSessionOverride _) as [[|]|];
    try (inversion H; reflexivity).
  destruct (_ || _); inversion H; reflexivity.
Qed.

(** Session resolution as a function of the slot and the options. *)
Lemma resolveSession_run ctx w :
  resolveSession ctx w =
    (let options := Param.options (getNodeParameter ctx 0) in
     match puppeteerSession w, Opt.manualSessionOverride options with
     | None, Some true =>
         if negb (truthy (Opt.manualWsEndpoint options))
            || negb (truthy (Opt.manualPageId options))
         then Err IncompleteManualOverride
         else Ok (Some {| wsEndpoint :=
                            match Opt.manualWsEndpoint options with
                            | Some s => s | None => "" end;
                          pageId :=
                            match Opt.manualPageId options with
                            | Some s => s | None => "" end;
                          sessionId := "manual-override";
                          browserManagerUrl := "" |}, true)
     | slot, _ => Ok (slot, false)
     end, w).
Proof.
  unfold resolveSession, bind, readSession. cbv zeta.
  destruct (puppeteerSession w); [reflexivity|].
  destruct (Opt.manualSessionOverride _) as [[|]|]; try reflexivity.
  destruct (_ || _); reflexivity.
Qed.

Lemma runBatch_not_resolved env ctx w e :
  resolveSession ctx w = (Err e, w) -> runBatch env ctx w = (Err e, w).
Proof. intros H. unfold runBatch, bind. rewrite H. reflexivity. Qed.

Lemma acquireBrowser_trace env ctx session w r w' :
  acquireBrowser env ctx session w = (r, w') ->
  trace w' = trace w ++ [acquireCall ctx session]
  /\ puppeteerSession w' = puppeteerSession w.
Proof.
  unfold acquireBrowser, acquireCall, try_catch, call, throw.
  destruct session as [s|]; simpl; intros H.
  - destruct (connect env (trace w) (wsEndpoint s));
      inversion H; subst; simpl; auto.
  - destruct (launch env (trace w) _ _ _);
      inversion H; subst; simpl; auto.
Qed.

Lemma teardown_run env browser session isManualSession w :
  teardown env browser session isManualSession w =
    (teardownAnswer env browser session (trace w),
     {| trace := trace w ++ [teardownCall browser session];
        puppeteerSession := puppeteerSession w |}).
Proof.
  unfold teardown, teardownAnswer, teardownCall, call.
  destruct session, isManualSession; reflexivity.
Qed.

(** A batch run, step by step. *)
Lemma runBatch_run env ctx w session isManualSession browser w1 r2 w2 :
  resolveSession ctx w = (Ok (session, isManualSession), w) ->
  acquireBrowser env ctx session w = (Ok browser, w1) ->
  processItems env ctx (length (getInputData ctx)) 0 browser session [] w1
    = (r2, w2) ->
  runBatch env ctx w =
    (match teardownAnswer env browser session (trace w2) with
     | Ok _ => match r2 with Ok returnData => Ok [returnData] | Err e => Err e end
     | Err e => Err e
     end,
     {| trace := trace w2 ++ [teardownCall browser session];
        puppeteerSession := puppeteerSession w2 |}).
Proof.
  intros H0 H1 H2. unfold runBatch, bind, try_finally.
  rewrite H0. cbn [fst snd]. rewrite H1, H2, teardown_run.
  destruct (teardownAnswer _ _ _ _), r2; reflexivity.
Qed.

Lemma runBatch_not_acquired env ctx w session isManualSession e w1 :
  resolveSession ctx w = (Ok (session, isManualSession), w) ->
  acquireBrowser env ctx session w = (Err e, w1) ->
  runBatch env ctx w = (Err e, w1).
Proof.
  intros H0 H1. unfold runBatch, bind. rewrite H0. cbn [fst snd].
  rewrite H1. reflexivity.
Qed.

Lemma teardownCall_noLaunch browser session :
  isLaunch (teardownCall browser session) = false.
Proof. unfold teardownCall. destruct (isSome session); reflexivity. Qed.

Lemma teardowns_app evs1 evs2 :
  teardowns (evs1 ++ evs2) = teardowns evs1 ++ teardowns evs2.
Proof. apply filter_app. Qed.

Lemma teardowns_itemLevel evs :
  forallb isItemLevel evs = true -> teardowns evs = [].
Proof.
  induction evs as [|ev evs IH]; simpl; [reflexivity|].
  intros H. apply andb_true_iff in H. destruct H as [H1 H2].
  rewrite (IH H2). destruct ev; simpl in *; congruence.
Qed.

Lemma noLaunch_itemLevel evs :
  forallb isItemLevel evs = true ->
  forallb (fun ev => negb (isLaunch ev)) evs = true.
Proof.
  rewrite !forallb_forall. intros H ev Hin. specialize (H ev Hin).
  destruct ev; simpl in *; congruence.
Qed.

(** Once the session is resolved, a batch run leaves the slot alone, starts
    with the call that acquires the browser and launches nothing after
    it. *)
Lemma runBatch_calls env ctx w session isManualSession r w' :
  resolveSession ctx w = (Ok (session, isManualSession), w) ->
  runBatch env ctx w = (r, w') ->
  puppeteerSession w' = puppeteerSession w /\
  exists evs,
    trace w' = trace w ++ acquireCall ctx session :: evs /\
    forallb (fun ev => negb (isLaunch ev)) evs = true.
Proof.
  intros H0 H.
  destruct (acquireBrowser env ctx session w) as [[browser|e] w1] eqn:H1;
    destruct (acquireBrowser_trace _ _ _ _ _ _ H1) as [T1 S1].
  - destruct (processItems env ctx (length (getInputData ctx)) 0 browser
                           session [] w1) as [r2 w2] eqn:H2.
    rewrite (runBatch_run _ _ _ _ _ _ _ _ _ H0 H1 H2) in H.
    inversion H; subst; clear H. simpl.
    destruct (processItems_emits _ _ _ _ _ _ _ _ _ _ H2) as [S2 [evs [T F]]].
    split; [congruence|].
    exists (evs ++ [teardownCall browser session]).
    rewrite T, T1, <- !app_assoc. split; [reflexivity|].
    rewrite forallb_app, (noLaunch_itemLevel _ F). simpl.
    rewrite teardownCall_noLaunch. reflexivity.
  - rewrite (runBatch_not_acquired _ _ _ _ _ _ _ H0 H1) in H.
    inversion H; subst; clear H. split; [exact S1|].
    exists []. split; [exact T1 | reflexivity].
Qed.

(** ** C1: one teardown per batch *)

(** C1.  In every batch invocation that obtained a browser handle, the calls
    issued after the handle was obtained contain exactly one teardown call:
    [close] on that handle (and no [disconnect]) when there is no session
    and the browser was launched, [disconnect] on that handle (and no
    [close]) when there is a session, ambient or manual, and the browser was
    connected.  The statement covers every outcome of the batch, so it holds
    when an item failed and when the loop stopped early. *)
Theorem teardown_exactly_once env ctx w session isManualSession browser w1 r w' :
  isBatchOperation ctx = true ->
  resolveSession ctx w = (Ok (session, isManualSession), w) ->
  acquireBrowser env ctx session w = (Ok browser, w1) ->
  execute env ctx w = (r, w') ->
  trace w1 =
    trace w
    ++ [match session with
        | Some s => EvConnect (wsEndpoint s)
        | None =>
            EvLaunch (headlessMode (Param.options (getNodeParameter ctx 0)))
                     (buildLaunchArgs (Param.options (getNodeParameter ctx 0)))
                     (Opt.executablePath
                        (Param.options (getNodeParameter ctx 0)))
        end] /\
  exists evs,
    trace w' = trace w1 ++ evs /\
    teardowns evs =
      match session with
      | None => [EvBrowserClose browser]
      | Some _ => [EvDisconnect browser]
      end.
Proof.
  intros Hop H0 H1 H. rewrite (execute_batch _ _ Hop) in H.
  destruct (processItems env ctx (length (getInputData ctx)) 0 browser
                         session [] w1) as [r2 w2] eqn:H2.
  rewrite (runBatch_run _ _ _ _ _ _ _ _ _ H0 H1 H2) in H.
  inversion H; subst; clear H. simpl.
  split; [apply (acquireBrowser_trace _ _ _ _ _ _ H1)|].
  destruct (processItems_emits _ _ _ _ _ _ _ _ _ _ H2) as [_ [evs [T F]]].
  exists (evs ++ [teardownCall browser session]).
  rewrite T, app_assoc. split; [reflexivity|].
  rewrite teardowns_app, (teardowns_itemLevel _ F).
  destruct session; reflexivity.
Qed.

(** Scenario 4 of the specification: three items, the second fails, the
    policy is to continue; the launched browser is closed once. *)
Lemma teardown_exactly_once_witness :
  trace (snd (acquireBrowser Scenario.flaky (Scenario.contentBatch 3 true)
                None (Scenario.start None))) =
    [EvLaunch HeadlessNew [] None] /\
  exists evs,
    trace (snd (execute Scenario.flaky (Scenario.contentBatch 3 true)
                  (Scenario.start None))) =
      trace (snd (acquireBrowser Scenario.flaky (Scenario.contentBatch 3 true)
                    None (Scenario.start None))) ++ evs /\
    teardowns evs = [EvBrowserClose 7].
Proof.
  apply (teardown_exactly_once Scenario.flaky (Scenario.contentBatch 3 true)
           (Scenario.start None) None false 7
           (snd (acquireBrowser Scenario.flaky (Scenario.contentBatch 3 true)
                   None (Scenario.start None)))
           (fst (execute Scenario.flaky (Scenario.contentBatch 3 true)
                   (Scenario.start None)))
           (snd (execute Scenario.flaky (Scenario.contentBatch 3 true)
                   (Scenario.start None))));
    vm_compute; reflexivity.
Defined.

(** ** C3: an ambient session is always attached to *)

(** C3.  For every action or script invocation, when the workflow-scoped
    slot holds a Session Descriptor the first call the node issues is
    [puppeteer.connect] to that descriptor's endpoint and no call of the
    invocation is [puppeteer.launch], whatever the rest of the
    configuration, a manual-override setting included. *)
Theorem ambient_session_connects env ctx w s r w' :
  isBatchOperation ctx = true ->
  puppeteerSession w = Some s ->
  execute env ctx w = (r, w') ->
  exists evs,
    trace w' = trace w ++ EvConnect (wsEndpoint s) :: evs /\
    forallb (fun ev => negb (isLaunch ev)) (EvConnect (wsEndpoint s) :: evs)
      = true.
Proof.
  intros Hop Hs H. rewrite (execute_batch _ _ Hop) in H.
  assert (H0 : resolveSession ctx w = (Ok (Some s, false), w)).
  { rewrite resolveSession_run. cbv zeta. rewrite Hs. reflexivity. }
  destruct (runBatch_calls _ _ _ _ _ _ _ H0 H) as [_ [evs [T F]]].
  exists evs. split; [exact T|]. simpl. exact F.
Qed.

(** Scenario 3 of the specification, with a manual override configured on
    top of the ambient session. *)
Lemma ambient_session_connects_witness :
  exists evs,
    trace (snd (execute Scenario.calm Scenario.overriddenScreenshot
                  (Scenario.start (Some Scenario.ambient)))) =
      trace (Scenario.start (Some Scenario.ambient))
      ++ EvConnect "ws://x" :: evs /\
    forallb (fun ev => negb (isLaunch ev)) (EvConnect "ws://x" :: evs) = true.
Proof.
  apply (ambient_session_connects Scenario.calm Scenario.overriddenScreenshot
           (Scenario.start (Some Scenario.ambient)) Scenario.ambient
           (fst (execute Scenario.calm Scenario.overriddenScreenshot
                   (Scenario.start (Some Scenario.ambient))))
           (snd (execute Scenario.calm Scenario.overriddenScreenshot
                   (Scenario.start (Some Scenario.ambient)))));
    vm_compute; reflexivity.
Defined.

(** ** C5: per-item failure policy *)

Section FailurePolicy.

Variable env : Env.
Variable ctx : Context.




Lemma attempts_length n : forall i browser session w,
  length (fst (attempts env ctx n i browser session w)) = n.
Proof.
  induction n as [|n IH]; intros; simpl; [reflexivity|].
  destruct (runAction env ctx i browser session w) as [r w1].
  specialize (IH (S i) browser session w1).
  destruct (attempts env ctx n (S i) browser session w1). simpl in *.
  congruence.
Qed.

(** Whatever the policy, the loop ends in the world some first [k] of its
    items left, and when it completes these are all of them. *)
Lemma processItems_prefix n : forall i browser session returnData w r w',
  processItems env ctx n i browser session returnData w = (r, w') ->
  exists k,
    k <= n /\
    w' = snd (attempts env ctx k i browser session w) /\
    (isOk r = true -> k = n).
Proof.
  induction n as [|n IH]; intros i browser session returnData w r w' H.
  - simpl in H. inversion H; subst. exists 0. repeat split. lia.
  - simpl in H. unfold bind at 1 in H.
    destruct (processItem env ctx browser session returnData i w)
      as [[rd|e] w1] eqn:E.
    + assert (Hw1 : w1 = snd (runAction env ctx i browser session w)).
      { unfold processItem, try_catch, bind at 1 in E.
        destruct (runAction env ctx i browser session w) as [[results|e] w0].
        - unfold ret in E. inversion E. reflexivity.
        - destruct (continueOnFail ctx); [|discriminate].
          unfold bind, lift, ret in E.
          destruct (readMessage ctx e); inversion E; reflexivity. }
      destruct (IH _ _ _ _ _ _ _ H) as [k [Hk [Hw Hr]]].
      exists (S k). split; [lia|]. split.
      * simpl. destruct (runAction env ctx i browser session w) as [r0 w0].
        simpl in Hw1. subst w0.
        destruct (attempts env ctx k (S i) browser session w1).
        simpl in *. exact Hw.
      * intros Hok. rewrite (Hr Hok). reflexivity.
    + inversion H; subst r w'; clear H.
      exists 1. split; [lia|]. split; [|discriminate].
      simpl. unfold processItem, try_catch, bind at 1 in E.
      destruct (runAction env ctx i browser session w) as [[results|e0] w0].
      * discriminate.
      * simpl. destruct (continueOnFail ctx).
        -- unfold bind, lift, ret in E.
           destruct (readMessage ctx e0); inversion E; reflexivity.
        -- inversion E; reflexivity.
Qed.

End FailurePolicy.

(** C5.  The claim fails on the code for an item that throws [null]: two
    script items with the policy to continue, the script throws [null];
    the handler's read of the caught value's [message] throws a
    [TypeError], no record is pushed, the loop ends in that error after the
    first item (one page opened, one script run, the page closed), and the
    invocation fails with it after closing the browser. *)
Theorem thrown_null_aborts_the_loop :
  processItems (Scenario.scriptThrows JsNull) (Scenario.scriptBatch 2 true)
               2 0 7 None [] Scenario.launched =
    (Err (TypeError "Cannot read properties of null (reading 'message')"),
     {| trace :=
          [EvLaunch HeadlessNew [] None;
           EvNewPage 7;
           EvVmRun (wrapScript "return [{ ok: true }];") 7 Scenario.thePage
                   SendMessageToUI;
           EvPageClose Scenario.thePage];
        puppeteerSession := None |})
  /\
  execute (Scenario.scriptThrows JsNull) (Scenario.scriptBatch 2 true)
          (Scenario.start None) =
    (Err (TypeError "Cannot read properties of null (reading 'message')"),
     {| trace :=
          [EvLaunch HeadlessNew [] None;
           EvNewPage 7;
           EvVmRun (wrapScript "return [{ ok: true }];") 7 Scenario.thePage
                   SendMessageToUI;
           EvPageClose Scenario.thePage;
           EvBrowserClose 7];
        puppeteerSession := None |}).
Proof. split; vm_compute; reflexivity. Qed.



(** ** C9: a failing teardown and the error in flight *)

(** C9, as the code has it.  When the loop over the items ends in an error
    [e], that error reaches the caller exactly when the teardown call
    succeeds; when the teardown call itself throws, the teardown's error
    replaces [e] and is the one the caller receives. *)
Theorem teardown_outcome_decides_error
        env ctx w session isManualSession browser w1 e w2 r w' :
  isBatchOperation ctx = true ->
  resolveSession ctx w = (Ok (session, isManualSession), w) ->
  acquireBrowser env ctx session w = (Ok browser, w1) ->
  processItems env ctx (length (getInputData ctx)) 0 browser session [] w1
    = (Err e, w2) ->
  execute env ctx w = (r, w') ->
  r = match
        match session with
        | Some _ => disconnect env (trace w2) browser
        | None => browser_close env (trace w2) browser
        end
      with
      | Ok _ => Err e
      | Err e' => Err e'
      end.
Proof.
  intros Hop H0 H1 H2 H. rewrite (execute_batch _ _ Hop) in H.
  rewrite (runBatch_run _ _ _ _ _ _ _ _ _ H0 H1 H2) in H.
  inversion H; subst; clear H. unfold teardownAnswer.
  destruct session; reflexivity.
Qed.

(** One item whose navigation fails, policy disabled, in a launched browser:
    with a teardown that succeeds the navigation error comes out, with one
    that fails the teardown's error does. *)
Lemma teardown_outcome_decides_error_witness :
  fst (execute (Scenario.collaborators JsNull
                  (fun _ => Err (HostError "navigation failed"))
                  (Ok tt) (Ok tt) (Err (HostError "unused")))
               (Scenario.contentBatch 1 false) (Scenario.start None)) =
    Err (HostError "navigation failed")
  /\
  fst (execute Scenario.failingTeardown (Scenario.contentBatch 1 false)
               (Scenario.start None)) =
    Err (HostError "close failed").
Proof.
  split.
  - apply (teardown_outcome_decides_error
             (Scenario.collaborators JsNull
                (fun _ => Err (HostError "navigation failed"))
                (Ok tt) (Ok tt) (Err (HostError "unused")))
             (Scenario.contentBatch 1 false) (Scenario.start None)
             None false 7 Scenario.launched
             (HostError "navigation failed")
             (snd (processItems
                     (Scenario.collaborators JsNull
                        (fun _ => Err (HostError "navigation failed"))
                        (Ok tt) (Ok tt) (Err (HostError "unused")))
                     (Scenario.contentBatch 1 false) 1 0 7 None []
                     Scenario.launched))
             _
             (snd (execute
                     (Scenario.collaborators JsNull
                        (fun _ => Err (HostError "navigation failed"))
                        (Ok tt) (Ok tt) (Err (HostError "unused")))
                     (Scenario.contentBatch 1 false) (Scenario.start None))));
      vm_compute; reflexivity.
  - apply (teardown_outcome_decides_error
             Scenario.failingTeardown
             (Scenario.contentBatch 1 false) (Scenario.start None)
             None false 7 Scenario.launched
             (HostError "navigation failed")
             (snd (processItems Scenario.failingTeardown
                     (Scenario.contentBatch 1 false) 1 0 7 None []
                     Scenario.launched))
             _
             (snd (execute Scenario.failingTeardown
                     (Scenario.contentBatch 1 false) (Scenario.start None))));
      vm_compute; reflexivity.
Defined.

(** The claim as stated fails: the loop is propagating the navigation error
    of its only item, the closing of the launched browser throws, and the
    caller receives the error of the close, not the item's. *)
Lemma teardown_failure_masks_item_error :
  fst (processItems Scenario.failingTeardown (Scenario.contentBatch 1 false)
         1 0 7 None [] Scenario.launched) =
    Err (HostError "navigation failed")
  /\
  fst (execute Scenario.failingTeardown (Scenario.contentBatch 1 false)
         (Scenario.start None)) =
    Err (HostError "close failed")
  /\
  fst (execute Scenario.failingTeardown (Scenario.contentBatch 1 false)
         (Scenario.start None)) <>
    Err (HostError "navigation failed").
Proof.
  split; [vm_compute; reflexivity|].
  split; [vm_compute; reflexivity|].
  vm_compute. discriminate.
Qed.

(** ** C6: manual override *)

(** C6.  With no ambient session and the manual-override flag enabled:
    when the websocket endpoint or the page id is missing (absent or empty),
    whichever it is, the invocation fails with [IncompleteManualOverride]
    before any call is issued; when both are supplied, the session the batch
    runs in is the synthetic descriptor built from them with [sessionId]
    ["manual-override"], the first call connects to the supplied endpoint,
    nothing is launched, and the persistent slot is still empty when the
    invocation ends, whatever its outcome. *)
Theorem manual_override env ctx w :
  isBatchOperation ctx = true ->
  puppeteerSession w = None ->
  Opt.manualSessionOverride (Param.options (getNodeParameter ctx 0))
    = Some true ->
  let options := Param.options (getNodeParameter ctx 0) in
  (truthy (Opt.manualWsEndpoint options) = false \/
   truthy (Opt.manualPageId options) = false ->
   execute env ctx w = (Err IncompleteManualOverride, w))
  /\
  (forall endpoint page,
     Opt.manualWsEndpoint options = Some endpoint -> endpoint <> "" ->
     Opt.manualPageId options = Some page -> page <> "" ->
     resolveSession ctx w =
       (Ok (Some {| wsEndpoint := endpoint;
                    pageId := page;
                    sessionId := "manual-override";
                    browserManagerUrl := "" |}, true), w)
     /\
     forall r w',
       execute env ctx w = (r, w') ->
       puppeteerSession w' = None /\
       exists evs,
         trace w' = trace w ++ EvConnect endpoint :: evs /\
         forallb (fun ev => negb (isLaunch ev)) evs = true).
Proof.
  intros Hop Hs Hm options. rewrite (execute_batch _ _ Hop). split.
  - intros Hmissing.
    assert (Hor : negb (truthy (Opt.manualWsEndpoint options))
                  || negb (truthy (Opt.manualPageId options)) = true).
    { destruct Hmissing as [H|H]; rewrite H; simpl;
        [reflexivity | apply orb_true_r]. }
    apply runBatch_not_resolved. rewrite resolveSession_run. cbv zeta.
    rewrite Hs, Hm. fold options. rewrite Hor. reflexivity.
  - intros endpoint page He Hne Hp Hnp.
    assert (H0 : resolveSession ctx w =
                   (Ok (Some {| wsEndpoint := endpoint;
                                pageId := page;
                                sessionId := "manual-override";
                                browserManagerUrl := "" |}, true), w)).
    { rewrite resolveSession_run. cbv zeta.
      rewrite Hs, Hm. fold options. rewrite He, Hp. simpl.
      apply String.eqb_neq in Hne, Hnp. rewrite Hne, Hnp. reflexivity. }
    split; [exact H0|].
    intros r w' H.
    destruct (runBatch_calls _ _ _ _ _ _ _ H0 H) as [S [evs [T F]]].
    split; [congruence|]. exists evs. split; [exact T | exact F].
Qed.

(** Only the page id supplied; only the endpoint supplied; both supplied. *)
Lemma manual_override_witness :
  execute Scenario.calm
          (Scenario.context
             (Scenario.parameters "getPageContent"
                (Scenario.manualOptions None (Some "p1"))) 1 false)
          (Scenario.start None)
    = (Err IncompleteManualOverride, Scenario.start None)
  /\
  execute Scenario.calm
          (Scenario.context
             (Scenario.parameters "getPageContent"
                (Scenario.manualOptions (Some "ws://x") (Some ""))) 1 false)
          (Scenario.start None)
    = (Err IncompleteManualOverride, Scenario.start None)
  /\
  resolveSession Scenario.overriddenScreenshot (Scenario.start None) =
    (Ok (Some {| wsEndpoint := "ws://other";
                 pageId := "p9";
                 sessionId := "manual-override";
                 browserManagerUrl := "" |}, true), Scenario.start None).
Proof.
  split; [|split].
  - apply (proj1 (manual_override Scenario.calm
                    (Scenario.context
                       (Scenario.parameters "getPageContent"
                          (Scenario.manualOptions None (Some "p1"))) 1 false)
                    (Scenario.start None) eq_refl eq_refl eq_refl)).
    left. reflexivity.
  - apply (proj1 (manual_override Scenario.calm
                    (Scenario.context
                       (Scenario.parameters "getPageContent"
                          (Scenario.manualOptions (Some "ws://x") (Some "")))
                       1 false)
                    (Scenario.start None) eq_refl eq_refl eq_refl)).
    right. reflexivity.
  - apply (proj2 (manual_override Scenario.calm Scenario.overriddenScreenshot
                    (Scenario.start None) eq_refl eq_refl eq_refl)
             "ws://other" "p9");
      [reflexivity | discriminate | reflexivity | discriminate].
Defined.

(** ** C7: stopping a persistent session *)

Lemma execute_stop env ctx :
  Param.operation (getNodeParameter ctx 0) = "stopPersistentBrowser" ->
  execute env ctx = stopPersistentBrowser env ctx.
Proof. unfold execute. intros H. rewrite H. reflexivity. Qed.

(** The stop operation, case by case. *)
Lemma stopPersistentBrowser_run env ctx w :
  let id := fst (stopTarget ctx (puppeteerSession w)) in
  let manager := snd (stopTarget ctx (puppeteerSession w)) in
  stopPersistentBrowser env ctx w =
    if negb (nonEmpty id) || negb (nonEmpty manager)
    then (Err NoSessionToStop, w)
    else
      match httpRequest env (trace w) (manager ++ "/stop")%string id with
      | Ok _ =>
          (Ok [returnJsonArray [JsObj [("message", JsStr "Session stopped.")]]],
           {| trace := trace w ++ [EvHttpPost (manager ++ "/stop")%string id];
              puppeteerSession := None |})
      | Err e =>
          (Err (SessionStopFailure e),
           {| trace := trace w ++ [EvHttpPost (manager ++ "/stop")%string id];
              puppeteerSession := puppeteerSession w |})
      end.
Proof.
  unfold stopPersistentBrowser, stopTarget, bind, readSession, try_catch,
    call, writeSession, ret, throw, nonEmpty.
  destruct w as [tr [s|]];
    cbv beta iota zeta
        delta [trace puppeteerSession fst snd isSome option_map negb truthy];
    (destruct (_ || _); [reflexivity|]);
    match goal with
    | |- context [httpRequest ?e ?t ?u ?i] => destruct (httpRequest e t u i)
    end; reflexivity.
Qed.

(** C7.  For the stop operation: with no ambient descriptor and a fallback
    session id or manager address that is empty, the operation fails with
    [NoSessionToStop] and issues no call; the slot changes only by being
    cleared, and only when the ambient descriptor was the source of the
    request and the stop call succeeded; when the operation fails, the
    failed stop call included, the slot is as it was. *)
Theorem stop_persistent env ctx w r w' :
  Param.operation (getNodeParameter ctx 0) = "stopPersistentBrowser" ->
  execute env ctx w = (r, w') ->
  (puppeteerSession w = None ->
   Param.stopSessionId (getNodeParameter ctx 0) = "" \/
   Param.stopBrowserManagerUrl (getNodeParameter ctx 0) = "" ->
   r = Err NoSessionToStop /\ w' = w)
  /\
  (puppeteerSession w' <> puppeteerSession w ->
   puppeteerSession w' = None /\
   exists s,
     puppeteerSession w = Some s /\
     isOk (httpRequest env (trace w) (browserManagerUrl s ++ "/stop")%string
                       (sessionId s)) = true /\
     trace w' =
       trace w ++ [EvHttpPost (browserManagerUrl s ++ "/stop")%string
                              (sessionId s)])
  /\
  (isOk r = false -> puppeteerSession w' = puppeteerSession w)
  /\
  (isOk r = true -> puppeteerSession w' = None).
Proof.
  intros Hop H. rewrite (execute_stop _ _ Hop) in H.
  rewrite stopPersistentBrowser_run in H. cbv zeta in H.
  split; [|split; [|split]].
  - intros Hs Hempty. rewrite Hs in H. simpl in H.
    assert (Hor : negb (nonEmpty (Param.stopSessionId (getNodeParameter ctx 0)))
                  || negb (nonEmpty (Param.stopBrowserManagerUrl
                                       (getNodeParameter ctx 0))) = true).
    { destruct Hempty as [E|E]; rewrite E; simpl;
        [reflexivity | apply orb_true_r]. }
    rewrite Hor in H. inversion H; subst. split; reflexivity.
  - intros Hneq.
    destruct (_ || _); [inversion H; subst; congruence|].
    destruct (httpRequest env (trace w) _ _) as [a|e] eqn:E;
      inversion H; subst; clear H; simpl in *; [|congruence].
    split; [reflexivity|].
    destruct (puppeteerSession w) as [s|]; [|congruence].
    exists s. simpl in *. rewrite E. repeat split.
  - intros Hr.
    destruct (_ || _); [inversion H; subst; reflexivity|].
    destruct (httpRequest env (trace w) _ _);
      inversion H; subst; clear H; simpl in *; [discriminate | reflexivity].
  - intros Hr.
    destruct (_ || _); [inversion H; subst; discriminate|].
    destruct (httpRequest env (trace w) _ _);
      inversion H; subst; clear H; simpl in *; [reflexivity | discriminate].
Qed.

(** No ambient descriptor and an empty fallback session id; an ambient
    descriptor and a manager that refuses the request. *)
Lemma stop_persistent_witness :
  execute Scenario.calm
          (Scenario.context
             (Scenario.stopParameters "" "http://127.0.0.1:3001") 1 false)
          (Scenario.start None)
    = (Err NoSessionToStop, Scenario.start None)
  /\
  puppeteerSession
    (snd (execute Scenario.managerDown
            (Scenario.context
               (Scenario.stopParameters "" "") 1 false)
            (Scenario.start (Some Scenario.ambient))))
    = Some Scenario.ambient.
Proof.
  split.
  - destruct (proj1 (stop_persistent Scenario.calm
                       (Scenario.context
                          (Scenario.stopParameters "" "http://127.0.0.1:3001")
                          1 false)
                       (Scenario.start None) _ _ eq_refl eq_refl)
                eq_refl (or_introl eq_refl)) as [E1 E2].
    reflexivity.
  - apply (proj1 (proj2 (proj2
             (stop_persistent Scenario.managerDown
                (Scenario.context (Scenario.stopParameters "" "") 1 false)
                (Scenario.start (Some Scenario.ambient)) _ _
                eq_refl eq_refl)))).
    reflexivity.
Defined.

(** ** C8: container arguments *)

Section ContainerArgs.

Lemma includes_In l arg : includes l arg = true <-> In arg l.
Proof.
  unfold includes. rewrite existsb_exists. split.
  - intros [x [Hin Heq]]. apply String.eqb_eq in Heq. subst. exact Hin.
  - intros Hin. exists arg. split; [exact Hin | apply String.eqb_refl].
Qed.

Lemma CONTAINER_LAUNCH_ARGS_NoDup : NoDup CONTAINER_LAUNCH_ARGS.
Proof.
  unfold CONTAINER_LAUNCH_ARGS.
  repeat constructor; simpl; intuition discriminate.
Qed.

Lemma buildLaunchArgs_injected options :
  Opt.addContainerArgs options = Some true ->
  buildLaunchArgs options =
    userLaunchArgs options ++ injected (userLaunchArgs options).
Proof.
  intros H. unfold buildLaunchArgs. rewrite H. cbv zeta.
  fold (injected (userLaunchArgs options)).
  destruct (injected (userLaunchArgs options)) as [|a l]; simpl.
  - rewrite app_nil_r. reflexivity.
  - reflexivity.
Qed.

Lemma In_injected user a :
  In a (injected user) <-> In a CONTAINER_LAUNCH_ARGS /\ ~ In a user.
Proof.
  unfold injected. rewrite filter_In, negb_true_iff.
  pose proof (includes_In user a) as H.
  destruct (includes user a).
  - split; [intros [_ E]; discriminate | intros [_ N]; tauto].
  - split; [intros [Hc _]; split; [exact Hc|] | tauto].
    intros Hu. apply H in Hu. discriminate.
Qed.

Lemma injected_NoDup user : NoDup (injected user).
Proof. apply NoDup_filter, CONTAINER_LAUNCH_ARGS_NoDup. Qed.

Lemma count_occ_injected user a :
  count_occ string_dec (injected user) a =
    if in_dec string_dec a CONTAINER_LAUNCH_ARGS
    then if in_dec string_dec a user then 0 else 1
    else 0.
Proof.
  pose proof (In_injected user a) as HI.
  pose proof (proj1 (NoDup_count_occ string_dec _) (injected_NoDup user) a)
    as Hle.
  destruct (in_dec string_dec a CONTAINER_LAUNCH_ARGS) as [Hc|Hc].
  - destruct (in_dec string_dec a user) as [Hu|Hu].
    + apply count_occ_not_In. tauto.
    + assert (Hin : In a (injected user)) by tauto.
      apply (count_occ_In string_dec) in Hin. lia.
  - apply count_occ_not_In. tauto.
Qed.

End ContainerArgs.

(** C8, as the code has it.  In launched mode with the container-arguments
    flag set, the argument list handed to [puppeteer.launch] is the user's
    arguments, unchanged and in their order, followed by those recommended
    arguments the user did not supply, in the order of the recommended list.
    Hence each of the four recommended arguments occurs in it as often as
    the user supplied it, and once when the user did not supply it; every
    other argument occurs as often as the user supplied it; and the list is
    free of duplicates whenever the user's own list is. *)
Theorem container_args_injection env ctx w r w1 :
  let options := Param.options (getNodeParameter ctx 0) in
  let user := userLaunchArgs options in
  Opt.addContainerArgs options = Some true ->
  acquireBrowser env ctx None w = (r, w1) ->
  exists launchArgs,
    trace w1 =
      trace w ++ [EvLaunch (headlessMode options) launchArgs
                           (Opt.executablePath options)] /\
    launchArgs =
      user ++ filter (fun arg => negb (includes user arg))
                     CONTAINER_LAUNCH_ARGS /\
    (forall a, In a CONTAINER_LAUNCH_ARGS ->
       count_occ string_dec launchArgs a
         = Nat.max 1 (count_occ string_dec user a)) /\
    (forall a, ~ In a CONTAINER_LAUNCH_ARGS ->
       count_occ string_dec launchArgs a = count_occ string_dec user a) /\
    (NoDup user -> NoDup launchArgs).
Proof.
  intros options user Hflag H.
  destruct (acquireBrowser_trace _ _ _ _ _ _ H) as [T _].
  exists (buildLaunchArgs options). split; [exact T|].
  rewrite (buildLaunchArgs_injected _ Hflag). fold user.
  split; [reflexivity|]. fold (injected user).
  split; [|split].
  - intros a Hc. rewrite count_occ_app, count_occ_injected.
    destruct (in_dec string_dec a CONTAINER_LAUNCH_ARGS); [|contradiction].
    destruct (in_dec string_dec a user) as [Hu|Hu].
    + apply (count_occ_In string_dec) in Hu. lia.
    + apply (count_occ_not_In string_dec) in Hu. lia.
  - intros a Hc. rewrite count_occ_app, count_occ_injected.
    destruct (in_dec string_dec a CONTAINER_LAUNCH_ARGS); [contradiction|].
    lia.
  - intros Hnd. apply NoDup_app; [exact Hnd | apply injected_NoDup |].
    intros a Hu Hi. apply In_injected in Hi. tauto.
Qed.

(** The user supplied [--disable-gpu] and an argument of their own. *)
Lemma container_args_injection_witness :
  exists launchArgs,
    trace (snd (acquireBrowser Scenario.calm Scenario.containerLaunch None
                  (Scenario.start None))) =
      [EvLaunch HeadlessNew launchArgs None] /\
    launchArgs =
      ["--disable-gpu"; "--window-size=800,600"; "--no-sandbox";
       "--disable-setuid-sandbox"; "--disable-dev-shm-usage"] /\
    NoDup launchArgs.
Proof.
  destruct (container_args_injection Scenario.calm Scenario.containerLaunch
              (Scenario.start None)
              (fst (acquireBrowser Scenario.calm Scenario.containerLaunch None
                      (Scenario.start None)))
              (snd (acquireBrowser Scenario.calm Scenario.containerLaunch None
                      (Scenario.start None)))
              eq_refl eq_refl) as [launchArgs [T [E [_ [_ N]]]]].
  exists launchArgs. split; [exact T|]. split; [exact E|].
  apply N. vm_compute.
  repeat constructor; simpl; intuition discriminate.
Defined.

(** The claim as stated fails: the user supplied [--no-sandbox] twice; the
    list handed to [puppeteer.launch] keeps both, so a recommended argument
    occurs twice and the list has a duplicate entry. *)
Lemma container_args_keep_user_duplicates :
  buildLaunchArgs (Scenario.containerOptions ["--no-sandbox"; "--no-sandbox"])
    = ["--no-sandbox"; "--no-sandbox"; "--disable-setuid-sandbox";
       "--disable-dev-shm-usage"; "--disable-gpu"] /\
  count_occ string_dec
    (buildLaunchArgs
       (Scenario.containerOptions ["--no-sandbox"; "--no-sandbox"]))
    "--no-sandbox" = 2 /\
  ~ NoDup (buildLaunchArgs
             (Scenario.containerOptions ["--no-sandbox"; "--no-sandbox"])).
Proof.
  split; [reflexivity|]. split; [reflexivity|].
  intros H. apply (NoDup_count_occ string_dec) with (x := "--no-sandbox") in H.
  vm_compute in H. lia.
Qed.

(** ** The shape of one item's run *)

Lemma runAction_finally_run env session page w :
  runAction_finally env session page w =
    (cleanupAnswer env session page (trace w),
     {| trace := trace w ++ cleanupCalls env session page (trace w);
        puppeteerSession := puppeteerSession w |}).
Proof.
  unfold runAction_finally, cleanupAnswer, cleanupCalls, bind, ask, call, ret.
  destruct w as [tr slot]. destruct session; simpl.
  - rewrite app_nil_r. reflexivity.
  - destruct (isClosed env tr page); simpl;
      [rewrite app_nil_r|]; reflexivity.
Qed.

(** One item, step by step: page, [try] block, cleanup. *)
Lemma runAction_run env ctx itemIndex browser session w page w1 r1 w2 :
  resolvePage env browser session w = (Ok page, w1) ->
  runAction_body env ctx (Param.operation (getNodeParameter ctx itemIndex))
                 itemIndex browser session page w1 = (r1, w2) ->
  runAction env ctx itemIndex browser session w =
    (match cleanupAnswer env session page (trace w2) with
     | Ok _ => r1
     | Err e => Err e
     end,
     {| trace := trace w2 ++ cleanupCalls env session page (trace w2);
        puppeteerSession := puppeteerSession w2 |}).
Proof.
  intros Hp Hb. unfold runAction, bind, try_finally.
  rewrite Hp, Hb, runAction_finally_run.
  destruct (cleanupAnswer env session page (trace w2)); reflexivity.
Qed.

Lemma runAction_no_page env ctx itemIndex browser session w e w1 :
  resolvePage env browser session w = (Err e, w1) ->
  runAction env ctx itemIndex browser session w = (Err e, w1).
Proof. intros Hp. unfold runAction, bind. rewrite Hp. reflexivity. Qed.

Lemma resolvePage_launched env browser w :
  resolvePage env browser None w =
    (newPage env (trace w) browser,
     {| trace := trace w ++ [EvNewPage browser];
        puppeteerSession := puppeteerSession w |}).
Proof. reflexivity. Qed.

(** ** C10: a created page is closed *)

(** C10.  With no session (launched mode), for every operation, a script
    as well as a content, screenshot or PDF action, the first call of an
    item's run opens a new page; when that fails nothing else happens; when
    it yields a page, the run continues with the item's work, which opens
    and closes no page, and ends, whether the work succeeded or failed, by
    asking whether the page is closed and, when it is not, calling [close]
    on that very page as its last call. *)
Theorem created_page_is_closed env ctx itemIndex browser w r w' :
  runAction env ctx itemIndex browser None w = (r, w') ->
  match newPage env (trace w) browser with
  | Err e => r = Err e /\ trace w' = trace w ++ [EvNewPage browser]
  | Ok page =>
      exists work,
        forallb isWork work = true /\
        trace w' =
          trace w ++ EvNewPage browser :: work
          ++ (if isClosed env (trace w ++ EvNewPage browser :: work) page
              then [] else [EvPageClose page])
  end.
Proof.
  intros H. pose proof (resolvePage_launched env browser w) as Hp.
  destruct (newPage env (trace w) browser) as [page|e].
  - destruct (runAction_body env ctx
                (Param.operation (getNodeParameter ctx itemIndex))
                itemIndex browser None page
                {| trace := trace w ++ [EvNewPage browser];
                   puppeteerSession := puppeteerSession w |})
      as [r1 w2] eqn:Hb.
    rewrite (runAction_run _ _ _ _ _ _ _ _ _ _ Hp Hb) in H.
    inversion H; subst; clear H. simpl.
    destruct (runAction_body_emits _ _ _ _ _ _ _ _ _ _ Hb) as [_ [work [T F]]].
    simpl in T. exists work. split; [exact F|].
    rewrite T, <- !app_assoc. reflexivity.
  - rewrite (runAction_no_page _ _ _ _ _ _ _ _ Hp) in H.
    inversion H; subst. split; reflexivity.
Qed.

(** ** C4: a script that does not return an array *)

(** C4, as the code has it.  For a script-mode item whose wrapped script
    produced a value that is not an array, the item's run never returns
    result items: it fails.  The failure is [InvalidScriptReturn] in session
    mode, and in launched mode when the page is already closed or its
    [close] succeeds; in launched mode, when the cleanup's [page.close]
    itself throws, the item fails with the error of that [close]
    instead. *)
Theorem non_array_script_result
        env ctx itemIndex browser session w page w1 v r w' :
  Param.operation (getNodeParameter ctx itemIndex) = "runCustomScript" ->
  resolvePage env browser session w = (Ok page, w1) ->
  vm_run env (trace w1)
         (wrapScript (Param.scriptCode (getNodeParameter ctx itemIndex)))
         browser page = Ok v ->
  isArray v = false ->
  runAction env ctx itemIndex browser session w = (r, w') ->
  let tr :=
    trace w1
    ++ [EvVmRun (wrapScript (Param.scriptCode (getNodeParameter ctx itemIndex)))
                browser page (logSink ctx)] in
  isOk r = false /\
  r = match session with
      | Some _ => Err InvalidScriptReturn
      | None =>
          if isClosed env tr page then Err InvalidScriptReturn
          else match page_close env tr page with
               | Ok _ => Err InvalidScriptReturn
               | Err e => Err e
               end
      end.
Proof.
  intros Hop Hp Hv Ha H.
  assert (Hb : runAction_body env ctx
                 (Param.operation (getNodeParameter ctx itemIndex))
                 itemIndex browser session page w1 =
               (Err InvalidScriptReturn,
                {| trace :=
                     trace w1
                     ++ [EvVmRun
                           (wrapScript
                              (Param.scriptCode (getNodeParameter ctx itemIndex)))
                           browser page (logSink ctx)];
                   puppeteerSession := puppeteerSession w1 |})).
  { rewrite Hop. unfold runAction_body. simpl.
    unfold runCustomScript, bind, call. rewrite Hv, Ha. reflexivity. }
  rewrite (runAction_run _ _ _ _ _ _ _ _ _ _ Hp Hb) in H.
  inversion H; subst; clear H. unfold cleanupAnswer. cbn [trace].
  destruct session; [split; reflexivity|].
  destruct (isClosed env _ page); [split; reflexivity|].
  destruct (page_close env _ page); split; reflexivity.
Qed.

(** The script returns 42: in a session the item fails with
    [InvalidScriptReturn]; in a launched browser whose page refuses to
    close, with the error of the close. *)
Lemma non_array_script_result_witness :
  fst (runAction Scenario.scriptReturnsNumber (Scenario.scriptBatch 1 false)
         0 7 (Some Scenario.ambient)
         {| trace := [EvConnect "ws://x"];
            puppeteerSession := Some Scenario.ambient |}) =
    Err InvalidScriptReturn
  /\
  fst (runAction Scenario.failingPageClose (Scenario.scriptBatch 1 false)
         0 7 None Scenario.launched) =
    Err (HostError "Protocol error: Target closed").
Proof.
  split.
  - apply (non_array_script_result
             Scenario.scriptReturnsNumber (Scenario.scriptBatch 1 false)
             0 7 (Some Scenario.ambient)
             {| trace := [EvConnect "ws://x"];
                puppeteerSession := Some Scenario.ambient |}
             Scenario.thePage
             {| trace := [EvConnect "ws://x"; EvPages 7];
                puppeteerSession := Some Scenario.ambient |}
             (JsNum 42) _
             (snd (runAction Scenario.scriptReturnsNumber
                     (Scenario.scriptBatch 1 false) 0 7 (Some Scenario.ambient)
                     {| trace := [EvConnect "ws://x"];
                        puppeteerSession := Some Scenario.ambient |})));
      vm_compute; reflexivity.
  - apply (non_array_script_result
             Scenario.failingPageClose (Scenario.scriptBatch 1 false)
             0 7 None Scenario.launched
             Scenario.thePage
             {| trace := [EvLaunch HeadlessNew [] None; EvNewPage 7];
                puppeteerSession := None |}
             (JsNum 42) _
             (snd (runAction Scenario.failingPageClose
                     (Scenario.scriptBatch 1 false) 0 7 None
                     Scenario.launched)));
      vm_compute; reflexivity.
Defined.

(** The claim as stated fails: the script of the only item returns the
    number 42 in a launched browser and the page refuses to close; the item
    fails, but with the error of the close, and with the policy to continue
    it is that error's message the item's record carries. *)
Lemma page_close_failure_masks_invalid_return :
  fst (runAction Scenario.failingPageClose (Scenario.scriptBatch 1 false)
         0 7 None Scenario.launched) =
    Err (HostError "Protocol error: Target closed")
  /\
  fst (runAction Scenario.failingPageClose (Scenario.scriptBatch 1 false)
         0 7 None Scenario.launched) <>
    Err InvalidScriptReturn
  /\
  fst (execute Scenario.failingPageClose (Scenario.scriptBatch 1 true)
         (Scenario.start None)) =
    Ok [[JsObj [("json",
                 JsObj [("error", JsStr "Protocol error: Target closed")]);
                ("pairedItem", JsObj [("item", JsNum 0)])]]].
Proof.
  split; [vm_compute; reflexivity|].
  split; [vm_compute; discriminate|].
  vm_compute. reflexivity.
Qed.

(** Scenario 1 of the specification (the page is opened, used, closed) and
    an item whose navigation fails (the page is closed all the same). *)
Lemma created_page_is_closed_witness :
  (exists work,
     forallb isWork work = true /\
     trace (snd (runAction Scenario.calm (Scenario.contentBatch 1 false)
                   0 7 None Scenario.launched)) =
       trace Scenario.launched ++ EvNewPage 7 :: work
       ++ [EvPageClose Scenario.thePage])
  /\
  (exists work,
     forallb isWork work = true /\
     trace (snd (runAction Scenario.failingTeardown
                   (Scenario.contentBatch 1 false)
                   0 7 None Scenario.launched)) =
       trace Scenario.launched ++ EvNewPage 7 :: work
       ++ [EvPageClose Scenario.thePage]).
Proof.
  split.
  - apply (created_page_is_closed Scenario.calm (Scenario.contentBatch 1 false)
             0 7 Scenario.launched
             (fst (runAction Scenario.calm (Scenario.contentBatch 1 false)
                     0 7 None Scenario.launched))
             (snd (runAction Scenario.calm (Scenario.contentBatch 1 false)
                     0 7 None Scenario.launched))).
    vm_compute. reflexivity.
  - apply (created_page_is_closed Scenario.failingTeardown
             (Scenario.contentBatch 1 false)
             0 7 Scenario.launched
             (fst (runAction Scenario.failingTeardown
                     (Scenario.contentBatch 1 false)
                     0 7 None Scenario.launched))
             (snd (runAction Scenario.failingTeardown
                     (Scenario.contentBatch 1 false)
                     0 7 None Scenario.launched))).
    vm_compute. reflexivity.
Defined.

(** ** C2: a PDF request without dimensions and without a format *)

Lemma pdfOptions_without_dimensions ctx itemIndex :
  let p := getNodeParameter ctx itemIndex in
  Param.preferCSSPageSize p = false ->
  Param.height p = "" \/ Param.width p = "" ->
  PDF.height (pdfOptions ctx itemIndex) = Some (Param.height p) /\
  PDF.width (pdfOptions ctx itemIndex) = Some (Param.width p) /\
  PDF.format (pdfOptions ctx itemIndex) = Some (Param.format p).
Proof.
  intros p Hpref Hdim. unfold pdfOptions. fold p. rewrite Hpref. simpl.
  repeat split.
  destruct Hdim as [E|E]; rewrite E; simpl;
    [reflexivity | rewrite orb_true_r; reflexivity].
Qed.

(** C2, as the code has it.  For a PDF request that does not prefer the CSS
    page size and has an empty height or an empty width, the node puts the
    [format] parameter into the options as it is configured, whatever its
    value, an empty one included, and, once the page is navigated, calls
    [page.pdf] with these options as the very next call: nothing of the
    node's own rejects the options before the render call. *)
Theorem pdf_without_dimensions_is_rendered
        env ctx itemIndex browser session w page w1 url r w' :
  let p := getNodeParameter ctx itemIndex in
  Param.operation p = "getPDF" ->
  Param.preferCSSPageSize p = false ->
  Param.height p = "" \/ Param.width p = "" ->
  resolvePage env browser session w = (Ok page, w1) ->
  buildURL ctx itemIndex = Ok url ->
  goto env (trace w1) page (URL_toString ctx url) = Ok tt ->
  runAction env ctx itemIndex browser session w = (r, w') ->
  PDF.format (pdfOptions ctx itemIndex) = Some (Param.format p) /\
  exists rest,
    trace w' =
      trace w1 ++ EvGoto page (URL_toString ctx url)
      :: EvPdf page (pdfOptions ctx itemIndex) :: rest.
Proof.
  intros p Hop Hpref Hdim Hp Hu Hg H.
  split; [apply (pdfOptions_without_dimensions ctx itemIndex Hpref Hdim)|].
  destruct (runAction_body env ctx (Param.operation p) itemIndex browser
                           session page w1) as [r1 w2] eqn:Hb.
  rewrite (runAction_run _ _ _ _ _ _ _ _ _ _ Hp Hb) in H.
  inversion H; subst; clear H. simpl.
  assert (Hw2 : exists rest,
             trace w2 = trace w1 ++ EvGoto page (URL_toString ctx url)
                        :: EvPdf page (pdfOptions ctx itemIndex) :: rest).
  { clear - Hop Hu Hg Hb. fold p in Hb. rewrite Hop in Hb.
    unfold runAction_body in Hb. simpl in Hb.
    unfold bind at 1 in Hb. unfold lift at 1 in Hb. rewrite Hu in Hb.
    unfold bind at 1 in Hb. unfold call at 1 in Hb. rewrite Hg in Hb.
    unfold performAction in Hb. simpl in Hb.
    unfold bind at 1 in Hb. unfold bind at 1 in Hb.
    unfold call at 1 in Hb. cbv beta in Hb. simpl trace in Hb.
    destruct (pdf env _ page (pdfOptions ctx itemIndex)) as [bytes|e].
    - unfold bind at 1 in Hb. unfold call at 1 in Hb. cbv beta in Hb.
      simpl trace in Hb.
      destruct (prepareBinaryData env _ bytes _ _) as [bin|e].
      + unfold ret at 1 in Hb.
        destruct session as [s|].
        * unfold lift in Hb. inversion Hb; subst. simpl.
          eexists. rewrite <- !app_assoc. simpl. reflexivity.
        * unfold ret in Hb. inversion Hb; subst. simpl.
          eexists. rewrite <- !app_assoc. simpl. reflexivity.
      + inversion Hb; subst. simpl.
        eexists. rewrite <- !app_assoc. simpl. reflexivity.
    - inversion Hb; subst. simpl.
      eexists. rewrite <- !app_assoc. simpl. reflexivity. }
  destruct Hw2 as [rest T]. rewrite T.
  exists (rest ++ cleanupCalls env session page
                    (trace w1 ++ EvGoto page (URL_toString ctx url)
                     :: EvPdf page (pdfOptions ctx itemIndex) :: rest)).
  rewrite <- app_assoc. reflexivity.
Qed.

(** No height, no width and an empty format, in a launched browser. *)
Lemma pdf_without_dimensions_is_rendered_witness :
  PDF.format (pdfOptions Scenario.barePdf 0) = Some "" /\
  exists rest,
    trace (snd (runAction Scenario.calm Scenario.barePdf 0 7 None
                  Scenario.launched)) =
      [EvLaunch HeadlessNew [] None; EvNewPage 7]
      ++ EvGoto Scenario.thePage "https://example.test/"
      :: EvPdf Scenario.thePage (pdfOptions Scenario.barePdf 0) :: rest.
Proof.
  apply (pdf_without_dimensions_is_rendered
           Scenario.calm Scenario.barePdf 0 7 None Scenario.launched
           Scenario.thePage
           {| trace := [EvLaunch HeadlessNew [] None; EvNewPage 7];
              puppeteerSession := None |}
           {| href := "https://example.test/"; appended := [] |}
           (fst (runAction Scenario.calm Scenario.barePdf 0 7 None
                   Scenario.launched))
           (snd (runAction Scenario.calm Scenario.barePdf 0 7 None
                   Scenario.launched)));
    try (vm_compute; reflexivity).
  left. reflexivity.
Defined.

(** The claim as stated fails: with [preferCSSPageSize] false, no height, no
    width and an empty format the item does not fail; [page.pdf] is called,
    with the empty format among its options, and the item returns its
    result. *)
Lemma pdf_without_dimensions_reaches_render :
  Param.preferCSSPageSize (getNodeParameter Scenario.barePdf 0) = false /\
  Param.height (getNodeParameter Scenario.barePdf 0) = "" /\
  Param.width (getNodeParameter Scenario.barePdf 0) = "" /\
  Param.format (getNodeParameter Scenario.barePdf 0) = "" /\
  isOk (fst (runAction Scenario.calm Scenario.barePdf 0 7 None
               Scenario.launched)) = true /\
  In (EvPdf Scenario.thePage (pdfOptions Scenario.barePdf 0))
     (trace (snd (runAction Scenario.calm Scenario.barePdf 0 7 None
                    Scenario.launched))) /\
  PDF.format (pdfOptions Scenario.barePdf 0) = Some "".
Proof.
  repeat split; try reflexivity.
  vm_compute. tauto.
Qed.

(** * Further properties of the node *)

(** ** Starting a persistent session *)

(** The descriptor [startPersistentBrowser] builds from the manager's
    answer. *)
Lemma startPersistentBrowser_run env ctx w :
  startPersistentBrowser env ctx w =
    (match
       httpRequest env (trace w)
         (Param.browserManagerUrl (getNodeParameter ctx 0) ++ "/start")%string
         (Param.sessionId (getNodeParameter ctx 0))
     with
     | Ok response =>
         Ok [[JsObj [("json",
                      sessionObject
                        {| wsEndpoint := response_wsEndpoint response;
                           pageId := response_pageId response;
                           sessionId := response_sessionId response;
                           browserManagerUrl :=
                             Param.browserManagerUrl (getNodeParameter ctx 0)
                        |})]]]
     | Err e => Err (SessionStartFailure e)
     end,
     {| trace :=
          trace w
          ++ [EvHttpPost
                (Param.browserManagerUrl (getNodeParameter ctx 0) ++ "/start")%string
                (Param.sessionId (getNodeParameter ctx 0))];
        puppeteerSession :=
          match
            httpRequest env (trace w)
              (Param.browserManagerUrl (getNodeParameter ctx 0) ++ "/start")%string
              (Param.sessionId (getNodeParameter ctx 0))
          with
          | Ok response =>
              Some {| wsEndpoint := response_wsEndpoint response;
                      pageId := response_pageId response;
                      sessionId := response_sessionId response;
                      browserManagerUrl :=
                        Param.browserManagerUrl (getNodeParameter ctx 0) |}
          | Err _ => puppeteerSession w
          end |}).
Proof.
  unfold startPersistentBrowser, try_catch, bind, call, writeSession, ret,
    throw.
  cbv beta iota zeta delta [trace puppeteerSession].
  destruct w as [tr slot].
  destruct (httpRequest env tr _ _); reflexivity.
Qed.

Lemma execute_start env ctx :
  Param.operation (getNodeParameter ctx 0) = "startPersistentBrowser" ->
  execute env ctx = startPersistentBrowser env ctx.
Proof. unfold execute. intros H. rewrite H. reflexivity. Qed.

(** X1.  The start operation issues exactly one call, the POST to
    [<browserManagerUrl>/start] with the configured session id.  When the
    manager answers, the slot holds the answer's endpoint, page id and
    session id together with the configured manager address, replacing
    whatever descriptor was stored before, and the output is one item with
    these four fields.  When the request fails, the operation fails with
    the [SessionStartFailure] built from what the request threw, and the
    slot is as it was. *)
Theorem start_stores_manager_answer env ctx w r w' :
  Param.operation (getNodeParameter ctx 0) = "startPersistentBrowser" ->
  execute env ctx w = (r, w') ->
  let manager := Param.browserManagerUrl (getNodeParameter ctx 0) in
  let id := Param.sessionId (getNodeParameter ctx 0) in
  trace w' = trace w ++ [EvHttpPost (manager ++ "/start")%string id] /\
  match httpRequest env (trace w) (manager ++ "/start")%string id with
  | Ok response =>
      puppeteerSession w' =
        Some {| wsEndpoint := response_wsEndpoint response;
                pageId := response_pageId response;
                sessionId := response_sessionId response;
                browserManagerUrl := manager |} /\
      r = Ok [[JsObj [("json",
                       JsObj [("wsEndpoint", JsStr (response_wsEndpoint response));
                              ("pageId", JsStr (response_pageId response));
                              ("sessionId", JsStr (response_sessionId response));
                              ("browserManagerUrl", JsStr manager)])]]]
  | Err e =>
      puppeteerSession w' = puppeteerSession w /\
      r = Err (SessionStartFailure e)
  end.
Proof.
  intros Hop H manager id. rewrite (execute_start _ _ Hop) in H.
  rewrite startPersistentBrowser_run in H. fold manager id in H.
  inversion H; subst; clear H. simpl. split; [reflexivity|].
  destruct (httpRequest env (trace w) _ id); split; reflexivity.
Qed.

(** A start against a manager that is down, with a descriptor already in
    the slot. *)
Lemma start_stores_manager_answer_witness :
  trace (snd (execute Scenario.managerDown Scenario.startRequest
                (Scenario.start (Some Scenario.ambient)))) =
    [EvHttpPost "http://127.0.0.1:3001/start" "abc"] /\
  puppeteerSession
    (snd (execute Scenario.managerDown Scenario.startRequest
            (Scenario.start (Some Scenario.ambient)))) =
    Some Scenario.ambient /\
  fst (execute Scenario.managerDown Scenario.startRequest
         (Scenario.start (Some Scenario.ambient))) =
    Err (SessionStartFailure (HostError "ECONNREFUSED")).
Proof.
  destruct (start_stores_manager_answer Scenario.managerDown
              Scenario.startRequest (Scenario.start (Some Scenario.ambient))
              (fst (execute Scenario.managerDown Scenario.startRequest
                      (Scenario.start (Some Scenario.ambient))))
              (snd (execute Scenario.managerDown Scenario.startRequest
                      (Scenario.start (Some Scenario.ambient))))
              eq_refl eq_refl) as [T [S R]].
  split; [exact T|]. split; [exact S | exact R].
Defined.

(** ** Start, then stop *)

(** X2.  When a start succeeded, the session id the manager returned is
    not empty and the manager address the start was configured with is not
    empty, a stop that follows is addressed with what the start stored: one
    POST to [<the start's manager address>/stop] with the session id the
    manager returned; the stop request's own fallback parameters are not
    used.  The slot is empty afterwards when the stop call succeeds and
    still holds the descriptor when it fails.  (With an empty returned id
    or an empty address the stop issues no call, as X3 states.) *)
Theorem start_then_stop env ctxStart ctxStop w response r1 w1 r2 w2 :
  Param.operation (getNodeParameter ctxStart 0) = "startPersistentBrowser" ->
  Param.operation (getNodeParameter ctxStop 0) = "stopPersistentBrowser" ->
  let manager := Param.browserManagerUrl (getNodeParameter ctxStart 0) in
  let id := Param.sessionId (getNodeParameter ctxStart 0) in
  httpRequest env (trace w) (manager ++ "/start")%string id = Ok response ->
  response_sessionId response <> "" ->
  manager <> "" ->
  execute env ctxStart w = (r1, w1) ->
  execute env ctxStop w1 = (r2, w2) ->
  trace w2 =
    trace w ++ [EvHttpPost (manager ++ "/start")%string id;
                EvHttpPost (manager ++ "/stop")%string
                           (response_sessionId response)] /\
  match
    httpRequest env (trace w ++ [EvHttpPost (manager ++ "/start")%string id])
                (manager ++ "/stop")%string (response_sessionId response)
  with
  | Ok _ =>
      puppeteerSession w2 = None /\
      r2 = Ok [[JsObj [("json", JsObj [("message", JsStr "Session stopped.")])]]]
  | Err e =>
      puppeteerSession w2 = puppeteerSession w1 /\
      r2 = Err (SessionStopFailure e)
  end.
Proof.
  intros Hstart Hstop manager id Hresp Hid Hmanager H1 H2.
  rewrite (execute_start _ _ Hstart) in H1.
  rewrite startPersistentBrowser_run in H1. fold manager id in H1.
  rewrite Hresp in H1. inversion H1; subst r1 w1; clear H1.
  rewrite (execute_stop _ _ Hstop) in H2.
  rewrite stopPersistentBrowser_run in H2.
  cbv beta iota zeta delta [trace puppeteerSession stopTarget fst snd
                            sessionId browserManagerUrl] in H2.
  unfold nonEmpty in H2.
  apply String.eqb_neq in Hid, Hmanager. rewrite Hid, Hmanager in H2.
  simpl negb in H2. simpl orb in H2. cbv iota in H2.
  destruct (httpRequest env _ (manager ++ "/stop")%string
                        (response_sessionId response));
    inversion H2; subst; clear H2; simpl;
    rewrite <- app_assoc; repeat split.
Qed.

(** Scenario 2 of the specification followed by a stop whose fallback
    parameters are empty. *)
Lemma start_then_stop_witness :
  trace (snd (execute Scenario.calm Scenario.stopRequest
                (snd (execute Scenario.calm Scenario.startRequest
                        (Scenario.start None))))) =
    [EvHttpPost "http://127.0.0.1:3001/start" "abc";
     EvHttpPost "http://127.0.0.1:3001/stop" "abc"] /\
  puppeteerSession
    (snd (execute Scenario.calm Scenario.stopRequest
            (snd (execute Scenario.calm Scenario.startRequest
                    (Scenario.start None))))) = None.
Proof.
  destruct (start_then_stop Scenario.calm Scenario.startRequest
              Scenario.stopRequest (Scenario.start None)
              {| response_wsEndpoint := "ws://x";
                 response_pageId := "p1";
                 response_sessionId := "abc" |}
              (fst (execute Scenario.calm Scenario.startRequest
                      (Scenario.start None)))
              (snd (execute Scenario.calm Scenario.startRequest
                      (Scenario.start None)))
              (fst (execute Scenario.calm Scenario.stopRequest
                      (snd (execute Scenario.calm Scenario.startRequest
                              (Scenario.start None)))))
              (snd (execute Scenario.calm Scenario.stopRequest
                      (snd (execute Scenario.calm Scenario.startRequest
                              (Scenario.start None)))))
              eq_refl eq_refl eq_refl
              ltac:(discriminate) ltac:(discriminate) eq_refl eq_refl)
    as [T [S _]].
  split; [exact T | exact S].
Defined.

(** X3.  The fallback parameters of a stop are consulted only when the slot
    is empty.  When the slot holds a descriptor whose session id or manager
    address is empty, the stop fails with [NoSessionToStop] without issuing
    a call and without touching the slot, even when complete fallback
    parameters are configured. *)
Theorem stop_ignores_fallback_beside_descriptor env ctx w s :
  Param.operation (getNodeParameter ctx 0) = "stopPersistentBrowser" ->
  puppeteerSession w = Some s ->
  sessionId s = "" \/ browserManagerUrl s = "" ->
  execute env ctx w = (Err NoSessionToStop, w).
Proof.
  intros Hop Hs Hempty. rewrite (execute_stop _ _ Hop).
  rewrite stopPersistentBrowser_run. rewrite Hs.
  cbv beta iota zeta delta [stopTarget fst snd]. unfold nonEmpty.
  destruct Hempty as [E|E]; rewrite E; simpl;
    [reflexivity | rewrite orb_true_r; reflexivity].
Qed.

(** The manager's answer to the start carried no session id; the stop has a
    complete fallback. *)
Lemma stop_ignores_fallback_beside_descriptor_witness :
  execute Scenario.calm Scenario.stopWithFallback
          (Scenario.start (Some Scenario.anonymous))
  = (Err NoSessionToStop, Scenario.start (Some Scenario.anonymous)).
Proof.
  apply (stop_ignores_fallback_beside_descriptor Scenario.calm
           Scenario.stopWithFallback (Scenario.start (Some Scenario.anonymous))
           Scenario.anonymous eq_refl eq_refl).
  left. reflexivity.
Defined.

(** ** What each operation touches *)

Lemma isBatchOperation_false ctx :
  isBatchOperation ctx = false ->
  Param.operation (getNodeParameter ctx 0) = "startPersistentBrowser" \/
  Param.operation (getNodeParameter ctx 0) = "stopPersistentBrowser".
Proof.
  unfold isBatchOperation. intros H. apply andb_false_iff in H.
  destruct H as [H|H]; apply negb_false_iff, String.eqb_eq in H; auto.
Qed.

(** X4.  The start and stop operations never touch a browser or a page:
    the only call either of them can issue is one POST to the browser
    manager. *)
Theorem admin_operations_touch_no_browser env ctx w r w' :
  isBatchOperation ctx = false ->
  execute env ctx w = (r, w') ->
  exists evs,
    trace w' = trace w ++ evs /\
    length evs <= 1 /\
    forallb isHttp evs = true.
Proof.
  intros Hop H. destruct (isBatchOperation_false _ Hop) as [E|E].
  - rewrite (execute_start _ _ E), startPersistentBrowser_run in H.
    inversion H; subst; clear H. simpl.
    eexists. split; [reflexivity|]. split; [simpl; lia | reflexivity].
  - rewrite (execute_stop _ _ E), stopPersistentBrowser_run in H.
    cbv zeta in H. destruct (_ || _).
    + inversion H; subst; clear H. exists []. rewrite app_nil_r.
      split; [reflexivity|]. split; [simpl; lia | reflexivity].
    + destruct (httpRequest env (trace w) _ _);
        inversion H; subst; clear H; simpl;
        (eexists; split; [reflexivity|]; split; [simpl; lia | reflexivity]).
Qed.

(** A stop with nothing to stop issues no call; a start issues one. *)
Lemma admin_operations_touch_no_browser_witness :
  (exists evs,
     trace (snd (execute Scenario.calm Scenario.stopRequest
                   (Scenario.start None))) = [] ++ evs /\
     length evs <= 1 /\ forallb isHttp evs = true)
  /\
  (exists evs,
     trace (snd (execute Scenario.calm Scenario.startRequest
                   (Scenario.start None))) = [] ++ evs /\
     length evs <= 1 /\ forallb isHttp evs = true).
Proof.
  split.
  - apply (admin_operations_touch_no_browser Scenario.calm Scenario.stopRequest
             (Scenario.start None)
             (fst (execute Scenario.calm Scenario.stopRequest
                     (Scenario.start None)))
             (snd (execute Scenario.calm Scenario.stopRequest
                     (Scenario.start None))));
      reflexivity.
  - apply (admin_operations_touch_no_browser Scenario.calm Scenario.startRequest
             (Scenario.start None)
             (fst (execute Scenario.calm Scenario.startRequest
                     (Scenario.start None)))
             (snd (execute Scenario.calm Scenario.startRequest
                     (Scenario.start None))));
      reflexivity.
Defined.

Lemma itemLevel_or_teardown_app evs ev :
  forallb isItemLevel evs = true ->
  isTeardown ev = true ->
  forallb (fun ev => isItemLevel ev || isTeardown ev) (evs ++ [ev]) = true.
Proof.
  intros F T. rewrite forallb_app. simpl. rewrite T, orb_true_r.
  rewrite andb_true_r. rewrite forallb_forall in *.
  intros x Hin. rewrite (F x Hin). reflexivity.
Qed.

Lemma teardownCall_isTeardown browser session :
  isTeardown (teardownCall browser session) = true.
Proof. unfold teardownCall. destruct (isSome session); reflexivity. Qed.

(** Once the session is resolved, a batch run leaves the slot alone and
    issues the acquiring call followed by calls of the items and of the
    teardown only. *)
Lemma runBatch_after_acquire env ctx w session isManualSession r w' :
  resolveSession ctx w = (Ok (session, isManualSession), w) ->
  runBatch env ctx w = (r, w') ->
  puppeteerSession w' = puppeteerSession w /\
  exists evs,
    trace w' = trace w ++ acquireCall ctx session :: evs /\
    forallb (fun ev => isItemLevel ev || isTeardown ev) evs = true.
Proof.
  intros H0 H.
  destruct (acquireBrowser env ctx session w) as [[browser|e] w1] eqn:H1;
    destruct (acquireBrowser_trace _ _ _ _ _ _ H1) as [T1 S1].
  - destruct (processItems env ctx (length (getInputData ctx)) 0 browser
                           session [] w1) as [r2 w2] eqn:H2.
    rewrite (runBatch_run _ _ _ _ _ _ _ _ _ H0 H1 H2) in H.
    inversion H; subst; clear H. simpl.
    destruct (processItems_emits _ _ _ _ _ _ _ _ _ _ H2) as [S2 [evs [T F]]].
    split; [congruence|].
    exists (evs ++ [teardownCall browser session]).
    rewrite T, T1, <- !app_assoc. split; [reflexivity|].
    apply itemLevel_or_teardown_app;
      [exact F | apply teardownCall_isTeardown].
  - rewrite (runBatch_not_acquired _ _ _ _ _ _ _ H0 H1) in H.
    inversion H; subst; clear H. split; [exact S1|].
    exists []. split; [exact T1 | reflexivity].
Qed.

Lemma forallb_impl {A : Type} (P Q : A -> bool) (l : list A) :
  (forall x, P x = true -> Q x = true) ->
  forallb P l = true -> forallb Q l = true.
Proof. rewrite !forallb_forall. auto. Qed.

Lemma itemLevel_or_teardown_noHttp ev :
  isItemLevel ev || isTeardown ev = true -> negb (isHttp ev) = true.
Proof. destruct ev; simpl; congruence. Qed.

Lemma itemLevel_or_teardown_noAcquire ev :
  isItemLevel ev || isTeardown ev = true -> negb (isAcquire ev) = true.
Proof. destruct ev; simpl; congruence. Qed.

(** X5.  The action and script operations never write the session slot and
    never call the browser manager: whatever the configuration and whatever
    the outcome, the slot is after the invocation what it was before, and
    no call of the invocation is an HTTP request. *)
Theorem batch_leaves_slot_and_manager_alone env ctx w r w' :
  isBatchOperation ctx = true ->
  execute env ctx w = (r, w') ->
  puppeteerSession w' = puppeteerSession w /\
  exists evs,
    trace w' = trace w ++ evs /\
    forallb (fun ev => negb (isHttp ev)) evs = true.
Proof.
  intros Hop H. rewrite (execute_batch _ _ Hop) in H.
  destruct (resolveSession ctx w) as [[[session isManualSession]|e] w0] eqn:H0;
    pose proof (resolveSession_pure _ _ _ _ H0); subst w0.
  - destruct (runBatch_after_acquire _ _ _ _ _ _ _ H0 H) as [S [evs [T F]]].
    split; [exact S|]. exists (acquireCall ctx session :: evs).
    split; [exact T|]. simpl. apply andb_true_iff. split.
    + unfold acquireCall. destruct session; reflexivity.
    + apply (forallb_impl _ _ _ itemLevel_or_teardown_noHttp F).
  - rewrite (runBatch_not_resolved _ _ _ _ H0) in H.
    inversion H; subst. split; [reflexivity|].
    exists []. rewrite app_nil_r. split; reflexivity.
Qed.

(** Scenario 3 of the specification: the descriptor stays in the slot. *)
Lemma batch_leaves_slot_and_manager_alone_witness :
  puppeteerSession
    (snd (execute Scenario.calm Scenario.overriddenScreenshot
            (Scenario.start (Some Scenario.ambient)))) =
    Some Scenario.ambient /\
  exists evs,
    trace (snd (execute Scenario.calm Scenario.overriddenScreenshot
                  (Scenario.start (Some Scenario.ambient)))) = [] ++ evs /\
    forallb (fun ev => negb (isHttp ev)) evs = true.
Proof.
  apply (batch_leaves_slot_and_manager_alone Scenario.calm
           Scenario.overriddenScreenshot
           (Scenario.start (Some Scenario.ambient))
           (fst (execute Scenario.calm Scenario.overriddenScreenshot
                   (Scenario.start (Some Scenario.ambient))))
           (snd (execute Scenario.calm Scenario.overriddenScreenshot
                   (Scenario.start (Some Scenario.ambient)))));
    reflexivity.
Defined.

(** X6.  With an empty slot and the manual-override flag not set to [true],
    the invocation runs in launched mode: its first call is
    [puppeteer.launch], headless unless [headless] is [false], with the
    launch arguments and the configured executable path; no later call
    connects or launches; the override's endpoint and page id, when
    configured, are not used. *)
Theorem no_session_no_override_launches env ctx w r w' :
  isBatchOperation ctx = true ->
  puppeteerSession w = None ->
  Opt.manualSessionOverride (Param.options (getNodeParameter ctx 0))
    <> Some true ->
  execute env ctx w = (r, w') ->
  let options := Param.options (getNodeParameter ctx 0) in
  exists evs,
    trace w' =
      trace w
      ++ EvLaunch (match Opt.headless options with
                   | Some false => HeadlessFalse
                   | _ => HeadlessNew
                   end)
                  (buildLaunchArgs options) (Opt.executablePath options)
      :: evs /\
    forallb (fun ev => negb (isAcquire ev)) evs = true.
Proof.
  intros Hop Hs Hm H options. rewrite (execute_batch _ _ Hop) in H.
  assert (H0 : resolveSession ctx w = (Ok (None, false), w)).
  { rewrite resolveSession_run. cbv zeta. rewrite Hs.
    destruct (Opt.manualSessionOverride _) as [[|]|];
      [congruence | reflexivity | reflexivity]. }
  destruct (runBatch_after_acquire _ _ _ _ _ _ _ H0 H) as [_ [evs [T F]]].
  exists evs. split; [exact T|].
  apply (forallb_impl _ _ _ itemLevel_or_teardown_noAcquire F).
Qed.

(** The override's fields are configured but its flag is off. *)
Lemma no_session_no_override_launches_witness :
  exists evs,
    trace (snd (execute Scenario.calm Scenario.overrideSwitchedOff
                  (Scenario.start None))) =
      [] ++ EvLaunch HeadlessFalse [] None :: evs /\
    forallb (fun ev => negb (isAcquire ev)) evs = true.
Proof.
  apply (no_session_no_override_launches Scenario.calm
           Scenario.overrideSwitchedOff (Scenario.start None)
           (fst (execute Scenario.calm Scenario.overrideSwitchedOff
                   (Scenario.start None)))
           (snd (execute Scenario.calm Scenario.overrideSwitchedOff
                   (Scenario.start None))));
    try reflexivity.
  discriminate.
Defined.

(** ** Failing to obtain a browser *)

(** X7.  When the browser cannot be obtained the whole invocation fails at
    once: with a session, a failed [puppeteer.connect] gives
    [ConnectFailure]; without one, a failed [puppeteer.launch] gives
    [LaunchFailure]; either carries the cause.  The failed call is the only
    call of the invocation: no item is processed and no teardown is
    attempted. *)
Theorem acquire_failure_is_fatal env ctx w session isManualSession e :
  isBatchOperation ctx = true ->
  resolveSession ctx w = (Ok (session, isManualSession), w) ->
  let options := Param.options (getNodeParameter ctx 0) in
  match session with
  | Some s => connect env (trace w) (wsEndpoint s)
  | None => launch env (trace w) (headlessMode options)
                   (buildLaunchArgs options) (Opt.executablePath options)
  end = Err e ->
  execute env ctx w =
    (Err (match session with
          | Some _ => ConnectFailure e
          | None => LaunchFailure e
          end),
     {| trace :=
          trace w
          ++ [match session with
              | Some s => EvConnect (wsEndpoint s)
              | None => EvLaunch (headlessMode options)
                                 (buildLaunchArgs options)
                                 (Opt.executablePath options)
              end];
        puppeteerSession := puppeteerSession w |}).
Proof.
  intros Hop H0 options He. rewrite (execute_batch _ _ Hop).
  apply (runBatch_not_acquired _ _ _ _ _ _ _ H0).
  unfold acquireBrowser, try_catch, call, throw. fold options.
  destruct session as [s|]; rewrite He; reflexivity.
Qed.

(** The browser of the ambient session is gone; there are three items. *)
Lemma acquire_failure_is_fatal_witness :
  execute Scenario.unreachable (Scenario.contentBatch 3 true)
          (Scenario.start (Some Scenario.ambient)) =
    (Err (ConnectFailure (HostError "connect ECONNREFUSED")),
     {| trace := [EvConnect "ws://x"];
        puppeteerSession := Some Scenario.ambient |}).
Proof.
  apply (acquire_failure_is_fatal Scenario.unreachable
           (Scenario.contentBatch 3 true)
           (Scenario.start (Some Scenario.ambient))
           (Some Scenario.ambient) false
           (HostError "connect ECONNREFUSED"));
    reflexivity.
Defined.

(** ** The batch as a whole *)

(** X8.  An empty batch still acquires a browser and tears it down: with no
    input items the calls after the acquisition are exactly the one
    teardown call, and the invocation returns one empty list of items,
    unless the teardown throws, whose error it then fails with. *)
Theorem empty_batch env ctx w session isManualSession browser w1 :
  isBatchOperation ctx = true ->
  getInputData ctx = [] ->
  resolveSession ctx w = (Ok (session, isManualSession), w) ->
  acquireBrowser env ctx session w = (Ok browser, w1) ->
  execute env ctx w =
    (match
       match session with
       | Some _ => disconnect env (trace w1) browser
       | None => browser_close env (trace w1) browser
       end
     with
     | Ok _ => Ok [[]]
     | Err e => Err e
     end,
     {| trace :=
          trace w1
          ++ [match session with
              | Some _ => EvDisconnect browser
              | None => EvBrowserClose browser
              end];
        puppeteerSession := puppeteerSession w1 |}).
Proof.
  intros Hop Hitems H0 H1. rewrite (execute_batch _ _ Hop).
  assert (H2 : processItems env ctx (length (getInputData ctx)) 0 browser
                 session [] w1 = (Ok [], w1)).
  { rewrite Hitems. reflexivity. }
  rewrite (runBatch_run _ _ _ _ _ _ _ _ _ H0 H1 H2).
  unfold teardownAnswer, teardownCall. destruct session; reflexivity.
Qed.

(** No items, no session. *)
Lemma empty_batch_witness :
  execute Scenario.calm (Scenario.contentBatch 0 false) (Scenario.start None)
  = (Ok [[]],
     {| trace := [EvLaunch HeadlessNew [] None; EvBrowserClose 7];
        puppeteerSession := None |}).
Proof.
  apply (empty_batch Scenario.calm (Scenario.contentBatch 0 false)
           (Scenario.start None) None false 7 Scenario.launched);
    reflexivity.
Defined.

(** X9.  The results of a batch reach the caller only through a successful
    teardown: when every item was processed and the loop completed with its
    results, the invocation returns them as its single output list when the
    teardown call succeeds, and fails with the teardown's error, the
    results discarded, when the teardown call throws. *)
Theorem results_need_successful_teardown
        env ctx w session isManualSession browser w1 returnData w2 r w' :
  isBatchOperation ctx = true ->
  resolveSession ctx w = (Ok (session, isManualSession), w) ->
  acquireBrowser env ctx session w = (Ok browser, w1) ->
  processItems env ctx (length (getInputData ctx)) 0 browser session [] w1
    = (Ok returnData, w2) ->
  execute env ctx w = (r, w') ->
  r = match
        match session with
        | Some _ => disconnect env (trace w2) browser
        | None => browser_close env (trace w2) browser
        end
      with
      | Ok _ => Ok [returnData]
      | Err e => Err e
      end.
Proof.
  intros Hop H0 H1 H2 H. rewrite (execute_batch _ _ Hop) in H.
  rewrite (runBatch_run _ _ _ _ _ _ _ _ _ H0 H1 H2) in H.
  inversion H; subst; clear H. unfold teardownAnswer.
  destruct session; reflexivity.
Qed.

(** Two content items succeed in a launched browser that then refuses to
    close. *)
Lemma results_need_successful_teardown_witness :
  fst (execute Scenario.stubbornBrowser (Scenario.contentBatch 2 false)
         (Scenario.start None)) =
    Err (HostError "close failed").
Proof.
  apply (results_need_successful_teardown Scenario.stubbornBrowser
           (Scenario.contentBatch 2 false) (Scenario.start None)
           None false 7 Scenario.launched
           (fst (Scenario.attempts_results Scenario.stubbornBrowser
                   (Scenario.contentBatch 2 false) 2))
           (snd (processItems Scenario.stubbornBrowser
                   (Scenario.contentBatch 2 false) 2 0 7 None []
                   Scenario.launched))
           _
           (snd (execute Scenario.stubbornBrowser
                   (Scenario.contentBatch 2 false) (Scenario.start None))));
    vm_compute; reflexivity.
Defined.

(** ** The page of an item *)

Lemma resolvePage_session env browser s w :
  resolvePage env browser (Some s) w =
    (match pages env (trace w) browser with
     | Ok ps =>
         match find (fun p => targetId p =? pageId s) ps with
         | Some foundPage => Ok foundPage
         | None => Err (PageNotFound (pageId s))
         end
     | Err e => Err e
     end,
     {| trace := trace w ++ [EvPages browser];
        puppeteerSession := puppeteerSession w |}).
Proof.
  unfold resolvePage, bind, call, throw, ret.
  destruct (pages env (trace w) browser) as [ps|e]; [|reflexivity].
  destruct (find _ ps); reflexivity.
Qed.

Lemma find_absent {A : Type} (f : A -> bool) (l : list A) :
  (forall x, In x l -> f x = false) -> find f l = None.
Proof.
  induction l as [|a l IH]; intros H; simpl; [reflexivity|].
  rewrite (H a (or_introl eq_refl)). apply IH.
  intros x Hin. apply H. right. exact Hin.
Qed.

(** X10.  In a session the page is attached to, never created and never
    closed: whatever the operation and the outcome, the first call of an
    item's run lists the browser's pages and every further call is a call
    of the item's work; no page is opened and no page is closed. *)
Theorem attached_page_is_never_closed env ctx itemIndex browser s w r w' :
  runAction env ctx itemIndex browser (Some s) w = (r, w') ->
  exists work,
    trace w' = trace w ++ EvPages browser :: work /\
    forallb isWork work = true.
Proof.
  intros H.
  destruct (resolvePage env browser (Some s) w) as [[page|e] w1] eqn:Hp;
    pose proof Hp as Hp'; rewrite resolvePage_session in Hp';
    inversion Hp' as [[Hr Hw1]]; clear Hp'.
  - destruct (runAction_body env ctx
                (Param.operation (getNodeParameter ctx itemIndex))
                itemIndex browser (Some s) page w1) as [r1 w2] eqn:Hb.
    rewrite (runAction_run _ _ _ _ _ _ _ _ _ _ Hp Hb) in H.
    inversion H; subst r w'; clear H. simpl.
    destruct (runAction_body_emits _ _ _ _ _ _ _ _ _ _ Hb) as [_ [work [T F]]].
    exists work. rewrite app_nil_r, T, <- Hw1. simpl.
    rewrite <- app_assoc. split; [reflexivity | exact F].
  - rewrite (runAction_no_page _ _ _ _ _ _ _ _ Hp) in H.
    inversion H; subst r w'; clear H. exists []. rewrite <- Hw1.
    split; reflexivity.
Qed.

(** Scenario 3 of the specification, one item. *)
Lemma attached_page_is_never_closed_witness :
  exists work,
    trace (snd (runAction Scenario.calm Scenario.overriddenScreenshot 0 7
                  (Some Scenario.ambient)
                  (Scenario.start (Some Scenario.ambient)))) =
      [] ++ EvPages 7 :: work /\
    forallb isWork work = true.
Proof.
  apply (attached_page_is_never_closed Scenario.calm
           Scenario.overriddenScreenshot 0 7 Scenario.ambient
           (Scenario.start (Some Scenario.ambient))
           (fst (runAction Scenario.calm Scenario.overriddenScreenshot 0 7
                   (Some Scenario.ambient)
                   (Scenario.start (Some Scenario.ambient))))
           (snd (runAction Scenario.calm Scenario.overriddenScreenshot 0 7
                   (Some Scenario.ambient)
                   (Scenario.start (Some Scenario.ambient))))).
  reflexivity.
Defined.

(** X11.  In a session, when none of the browser's pages has the
    descriptor's page id as its target id, the item fails with the
    [PageNotFound] error of line 54, built for that id; listing the pages
    is the only call: nothing is navigated, run or rendered. *)
Theorem missing_page_fails_item env ctx itemIndex browser s w ps :
  pages env (trace w) browser = Ok ps ->
  (forall p, In p ps -> targetId p <> pageId s) ->
  runAction env ctx itemIndex browser (Some s) w =
    (Err (PageNotFound (pageId s)),
     {| trace := trace w ++ [EvPages browser];
        puppeteerSession := puppeteerSession w |}).
Proof.
  intros Hps Hnone.
  apply runAction_no_page. rewrite resolvePage_session, Hps.
  rewrite find_absent; [reflexivity|].
  intros p Hin. apply String.eqb_neq. apply Hnone. exact Hin.
Qed.

(** The session's page [p1] was closed behind the node's back; the browser
    only has another page. *)
Lemma missing_page_fails_item_witness :
  runAction Scenario.otherPageOnly (Scenario.contentBatch 1 false) 0 7
            (Some Scenario.ambient) (Scenario.start (Some Scenario.ambient))
  = (Err (PageNotFound "p1"),
     {| trace := [EvPages 7]; puppeteerSession := Some Scenario.ambient |}).
Proof.
  apply (missing_page_fails_item Scenario.otherPageOnly
           (Scenario.contentBatch 1 false) 0 7 Scenario.ambient
           (Scenario.start (Some Scenario.ambient))
           [{| page_handle := 2; targetId := "p2" |}] eq_refl).
  intros p [E|[]]. subst p. discriminate.
Defined.

(** ** The work of an item *)

(** X12.  For the content, screenshot and PDF operations (every operation
    other than the script), a configured URL that does not parse fails the
    item with [InvalidURL] naming the configured text before anything is
    done with the page: no navigation and no render call is issued.  The
    cleanup still runs: in launched mode the page just opened is closed
    when still open, and a throwing [close] replaces the error. *)
Theorem invalid_url_fails_before_navigation
        env ctx itemIndex browser session w page w1 r w' :
  Param.operation (getNodeParameter ctx itemIndex) <> "runCustomScript" ->
  URL_new ctx (Param.url (getNodeParameter ctx itemIndex)) = None ->
  resolvePage env browser session w = (Ok page, w1) ->
  runAction env ctx itemIndex browser session w = (r, w') ->
  let urlString := Param.url (getNodeParameter ctx itemIndex) in
  trace w' =
    trace w1
    ++ match session with
       | Some _ => []
       | None => if isClosed env (trace w1) page then [] else [EvPageClose page]
       end /\
  r = match session with
      | Some _ => Err (InvalidURL urlString)
      | None =>
          if isClosed env (trace w1) page then Err (InvalidURL urlString)
          else match page_close env (trace w1) page with
               | Ok _ => Err (InvalidURL urlString)
               | Err e => Err e
               end
      end.
Proof.
  intros Hop Hurl Hp H urlString.
  assert (Hb : runAction_body env ctx
                 (Param.operation (getNodeParameter ctx itemIndex))
                 itemIndex browser session page w1 =
               (Err (InvalidURL urlString), w1)).
  { unfold runAction_body. apply String.eqb_neq in Hop. rewrite Hop.
    unfold bind, lift, buildURL. rewrite Hurl. reflexivity. }
  rewrite (runAction_run _ _ _ _ _ _ _ _ _ _ Hp Hb) in H.
  inversion H; subst r w'; clear H. unfold cleanupAnswer, cleanupCalls.
  cbn [trace]. split; [reflexivity|].
  destruct session; [reflexivity|].
  destruct (isClosed env (trace w1) page); [reflexivity|].
  destruct (page_close env (trace w1) page); reflexivity.
Qed.

(** A content request with an empty URL in a launched browser: the page is
    opened and closed, nothing else. *)
Lemma invalid_url_fails_before_navigation_witness :
  trace (snd (runAction Scenario.calm Scenario.noUrl 0 7 None
                Scenario.launched)) =
    [EvLaunch HeadlessNew [] None; EvNewPage 7]
    ++ [EvPageClose Scenario.thePage] /\
  fst (runAction Scenario.calm Scenario.noUrl 0 7 None Scenario.launched) =
    Err (InvalidURL "").
Proof.
  apply (invalid_url_fails_before_navigation Scenario.calm Scenario.noUrl
           0 7 None Scenario.launched Scenario.thePage
           {| trace := [EvLaunch HeadlessNew [] None; EvNewPage 7];
              puppeteerSession := None |}
           (fst (runAction Scenario.calm Scenario.noUrl 0 7 None
                   Scenario.launched))
           (snd (runAction Scenario.calm Scenario.noUrl 0 7 None
                   Scenario.launched)));
    try reflexivity.
  discriminate.
Defined.

(** X13.  A script item never navigates and never renders: once its page
    is resolved, its only call before the cleanup is the one run of the VM,
    on the script text wrapped as the body of an asynchronous function and
    with the browser and that page as capabilities; the configured URL
    plays no part. *)
Theorem script_item_only_runs_the_script
        env ctx itemIndex browser session w page w1 r w' :
  Param.operation (getNodeParameter ctx itemIndex) = "runCustomScript" ->
  resolvePage env browser session w = (Ok page, w1) ->
  runAction env ctx itemIndex browser session w = (r, w') ->
  let run :=
    EvVmRun
      ("module.exports = async function() { "
       ++ Param.scriptCode (getNodeParameter ctx itemIndex) ++ newline
       ++ "}()")%string
      browser page
      (if getMode ctx =? "manual" then SendMessageToUI else ConsoleLog) in
  trace w' =
    trace w1 ++ run
    :: match session with
       | Some _ => []
       | None =>
           if isClosed env (trace w1 ++ [run]) page then []
           else [EvPageClose page]
       end.
Proof.
  intros Hop Hp H run.
  destruct (runAction_body env ctx
              (Param.operation (getNodeParameter ctx itemIndex))
              itemIndex browser session page w1) as [r1 w2] eqn:Hb.
  rewrite (runAction_run _ _ _ _ _ _ _ _ _ _ Hp Hb) in H.
  inversion H; subst r w'; clear H. cbn [trace].
  assert (T : trace w2 = trace w1 ++ [run]).
  { rewrite Hop in Hb. unfold runAction_body in Hb. simpl in Hb.
    unfold runCustomScript, bind in Hb. unfold call at 1 in Hb.
    fold (wrapScript (Param.scriptCode (getNodeParameter ctx itemIndex))) in run.
    fold (logSink ctx) in run. fold run in Hb.
    destruct (vm_run env (trace w1) _ browser page) as [v|e].
    - destruct (negb (isArray v)).
      + inversion Hb; subst. reflexivity.
      + destruct session as [s|].
        * unfold lift in Hb.
          destruct (mapR (stampPageId (pageId s)) (elements v));
            inversion Hb; subst; reflexivity.
        * unfold ret, lift in Hb. inversion Hb; subst. reflexivity.
    - inversion Hb; subst. reflexivity. }
  rewrite T. unfold cleanupCalls. rewrite <- app_assoc. reflexivity.
Qed.

(** A script item in a launched browser, its URL parameter left as it
    is. *)
Lemma script_item_only_runs_the_script_witness :
  trace (snd (runAction Scenario.calm (Scenario.scriptBatch 1 false) 0 7 None
                Scenario.launched)) =
    [EvLaunch HeadlessNew [] None; EvNewPage 7]
    ++ [EvVmRun
          ("module.exports = async function() { return [{ ok: true }];"
           ++ newline ++ "}()")%string
          7 Scenario.thePage SendMessageToUI;
        EvPageClose Scenario.thePage].
Proof.
  apply (script_item_only_runs_the_script Scenario.calm
           (Scenario.scriptBatch 1 false) 0 7 None Scenario.launched
           Scenario.thePage
           {| trace := [EvLaunch HeadlessNew [] None; EvNewPage 7];
              puppeteerSession := None |}
           (fst (runAction Scenario.calm (Scenario.scriptBatch 1 false) 0 7
                   None Scenario.launched))
           (snd (runAction Scenario.calm (Scenario.scriptBatch 1 false) 0 7
                   None Scenario.launched)));
    reflexivity.
Defined.

(** ** Stamping results with the page id *)

Lemma lookup_set_prop_same k v props :
  lookup_prop k (set_prop k v props) = v.
Proof.
  induction props as [|[k' v'] rest IH]; simpl.
  - rewrite String.eqb_refl. reflexivity.
  - destruct (k' =? k) eqn:E; simpl.
    + rewrite String.eqb_refl. reflexivity.
    + rewrite E. exact IH.
Qed.

Lemma lookup_set_prop_other k k' v props :
  k' <> k -> lookup_prop k' (set_prop k v props) = lookup_prop k' props.
Proof.
  intros Hne. induction props as [|[k0 v0] rest IH]; simpl.
  - apply not_eq_sym, String.eqb_neq in Hne. rewrite Hne. reflexivity.
  - destruct (k0 =? k) eqn:E; simpl.
    + apply String.eqb_eq in E. subst k0.
      apply not_eq_sym, String.eqb_neq in Hne. rewrite Hne. reflexivity.
    + destruct (k0 =? k'); [reflexivity | exact IH].
Qed.

Lemma set_prop_keys k v props :
  map fst (set_prop k v props) =
    if existsb (String.eqb k) (map fst props) then map fst props
    else map fst props ++ [k].
Proof.
  induction props as [|[k0 v0] rest IH]; simpl; [reflexivity|].
  rewrite (String.eqb_sym k k0).
  destruct (k0 =? k) eqn:E; simpl.
  - apply String.eqb_eq in E. subst. reflexivity.
  - rewrite IH. destruct (existsb _ _); reflexivity.
Qed.

(** X14.  Stamping an item with the session's page id,
    [{ ...item, json: { ...item.json, pageId } }], fails exactly for the
    items [undefined] and [null], with a [TypeError].  For every other
    item the result's [json.pageId] is the session's page id, whatever
    [pageId] the item carried; every other property of the item and every
    other property of its [json] is kept with its value; and an item that
    already has a [json] property keeps its properties in their order. *)
Theorem stampPageId_sets_only_the_page_id pageId item :
  match stampPageId pageId item with
  | Err e =>
      (item = JsUndefined \/ item = JsNull) /\ exists msg, e = TypeError msg
  | Ok stamped =>
      item <> JsUndefined /\ item <> JsNull /\
      prop "pageId" (prop "json" stamped) = JsStr pageId /\
      (forall k, k <> "json" -> prop k stamped = prop k item) /\
      (forall k json,
         k <> "pageId" -> get_json item = Ok json ->
         prop k (prop "json" stamped) = prop k json) /\
      (existsb (String.eqb "json") (map fst (spread item)) = true ->
       map fst (spread stamped) = map fst (spread item))
  end.
Proof.
  unfold stampPageId.
  destruct (get_json item) as [json|e] eqn:Hj.
  - assert (Hu : item <> JsUndefined) by (intros ->; discriminate).
    assert (Hn : item <> JsNull) by (intros ->; discriminate).
    split; [exact Hu|]. split; [exact Hn|].
    unfold prop. cbn [spread]. rewrite lookup_set_prop_same. cbn [spread].
    split; [apply lookup_set_prop_same|].
    split; [intros k Hk; apply lookup_set_prop_other; exact Hk|].
    split.
    + intros k json' Hk E. inversion E; subst json'.
      apply lookup_set_prop_other. exact Hk.
    + intros Hhas. rewrite set_prop_keys, Hhas. reflexivity.
  - destruct item; simpl in Hj; try discriminate;
      inversion Hj; subst; (split; [auto | eexists; reflexivity]).
Qed.

(** ** What an action returns *)

Ltac split_matches H :=
  repeat match type of H with
         | context [match ?x with _ => _ end] =>
             destruct x eqn:?; try discriminate H
         end.

(** The three shapes of what [performAction] returns. *)
Lemma performAction_items env ctx operation itemIndex page url w items w' :
  performAction env ctx operation itemIndex page url w = (Ok items, w') ->
  (operation = "getPageContent" /\
   exists body,
     items = [JsObj [("json", JsObj [("body", JsStr body)]);
                     pairedItem itemIndex]])
  \/
  ((operation = "getScreenshot" \/ operation = "getPDF") /\
   exists binaryData,
     items =
       [JsObj [("binary",
                JsObj [(Param.dataPropertyName (getNodeParameter ctx itemIndex),
                        binaryData)]);
               ("json", JsObj [("url", JsStr (URL_toString ctx url))]);
               pairedItem itemIndex]])
  \/
  (operation <> "getPageContent" /\ operation <> "getScreenshot" /\
   operation <> "getPDF" /\ items = []).
Proof.
  unfold performAction, bind, call, ret. intros H.
  destruct (operation =? "getPageContent") eqn:E1.
  - apply String.eqb_eq in E1. left. split; [exact E1|].
    split_matches H. inversion H; subst. eexists. reflexivity.
  - destruct (operation =? "getScreenshot") eqn:E2.
    + apply String.eqb_eq in E2. right. left. split; [left; exact E2|].
      split_matches H. inversion H; subst. eexists. reflexivity.
    + destruct (operation =? "getPDF") eqn:E3.
      * apply String.eqb_eq in E3. right. left. split; [right; exact E3|].
        split_matches H. inversion H; subst. eexists. reflexivity.
      * right. right. apply String.eqb_neq in E1, E2, E3.
        inversion H; subst. repeat split; assumption.
Qed.

Lemma performAction_emits env ctx operation itemIndex page url :
  emits isWork (performAction env ctx operation itemIndex page url).
Proof. unfold performAction. emits_steps. Qed.

(** What [runAction] returns is what its [try] block returned, and its
    calls are those of the page's resolution, of the block and of the
    cleanup. *)
Lemma runAction_Ok env ctx itemIndex browser session w items w' :
  runAction env ctx itemIndex browser session w = (Ok items, w') ->
  exists page w1 w2,
    resolvePage env browser session w = (Ok page, w1) /\
    runAction_body env ctx (Param.operation (getNodeParameter ctx itemIndex))
                   itemIndex browser session page w1 = (Ok items, w2) /\
    trace w' = trace w2 ++ cleanupCalls env session page (trace w2).
Proof.
  intros H.
  destruct (resolvePage env browser session w) as [[page|e] w1] eqn:Hp.
  - destruct (runAction_body env ctx
                (Param.operation (getNodeParameter ctx itemIndex))
                itemIndex browser session page w1) as [r1 w2] eqn:Hb.
    rewrite (runAction_run _ _ _ _ _ _ _ _ _ _ Hp Hb) in H.
    exists page, w1, w2. split; [reflexivity|].
    destruct (cleanupAnswer env session page (trace w2));
      inversion H; subst; split; first [exact Hb | reflexivity].
  - rewrite (runAction_no_page _ _ _ _ _ _ _ _ Hp) in H. discriminate.
Qed.

(** The [try] block of an action that returns: the URL parsed, the
    navigation succeeded, and the results are those of the action, stamped
    in a session. *)
Lemma runAction_body_action_Ok
      env ctx operation itemIndex browser session page w1 items w2 :
  operation <> "runCustomScript" ->
  runAction_body env ctx operation itemIndex browser session page w1
    = (Ok items, w2) ->
  exists url resultData evs,
    performAction env ctx operation itemIndex page url
      {| trace := trace w1 ++ [EvGoto page (URL_toString ctx url)];
         puppeteerSession := puppeteerSession w1 |} = (Ok resultData, w2) /\
    trace w2 = trace w1 ++ EvGoto page (URL_toString ctx url) :: evs /\
    match session with
    | Some s => mapR (stampPageId (pageId s)) resultData
    | None => Ok resultData
    end = Ok items.
Proof.
  intros Hop Hb. unfold runAction_body in Hb.
  apply String.eqb_neq in Hop. rewrite Hop in Hb.
  unfold bind at 1 in Hb. unfold lift at 1 in Hb.
  destruct (buildURL ctx itemIndex) as [url|]; [|discriminate].
  unfold bind at 1 in Hb. unfold call at 1 in Hb.
  destruct (goto env (trace w1) page (URL_toString ctx url));
    [|discriminate].
  unfold bind at 1 in Hb.
  destruct (performAction env ctx operation itemIndex page url _)
    as [[resultData|] w3] eqn:Ha; [|discriminate].
  assert (Hw : w3 = w2 /\
               match session with
               | Some s => mapR (stampPageId (pageId s)) resultData
               | None => Ok resultData
               end = Ok items).
  { destruct session; unfold lift, ret in Hb; inversion Hb; subst;
      split; reflexivity. }
  destruct Hw as [-> Hitems].
  destruct (performAction_emits _ _ _ _ _ _ _ _ _ Ha) as [_ [evs [T _]]].
  exists url, resultData, evs. split; [exact Ha|].
  split; [|exact Hitems]. rewrite T. simpl. rewrite <- app_assoc.
  reflexivity.
Qed.

(** X15.  An item of a content, screenshot or PDF request that succeeds
    returns exactly one result; the result is paired to the item's index;
    in a session its [json] carries the session's page id, and outside a
    session its [json] has no [pageId].  An item of any other operation
    that is not the script navigates and returns no result at all. *)
Theorem action_returns_one_paired_result
        env ctx itemIndex browser session w items w' :
  let operation := Param.operation (getNodeParameter ctx itemIndex) in
  operation <> "runCustomScript" ->
  runAction env ctx itemIndex browser session w = (Ok items, w') ->
  (operation = "getPageContent" \/ operation = "getScreenshot" \/
   operation = "getPDF" ->
   exists item,
     items = [item] /\
     prop "pairedItem" item = JsObj [("item", JsNum (Z.of_nat itemIndex))] /\
     prop "pageId" (prop "json" item) =
       match session with
       | Some s => JsStr (pageId s)
       | None => JsUndefined
       end)
  /\
  (operation <> "getPageContent" -> operation <> "getScreenshot" ->
   operation <> "getPDF" ->
   items = [] /\ exists page url, In (EvGoto page url) (trace w')).
Proof.
  intros operation Hop H.
  destruct (runAction_Ok _ _ _ _ _ _ _ _ H) as [page [w1 [w2 [Hp [Hb T]]]]].
  fold operation in Hb.
  destruct (runAction_body_action_Ok _ _ _ _ _ _ _ _ _ _ Hop Hb)
    as [url [resultData [evs [Ha [T2 Hitems]]]]].
  destruct (performAction_items _ _ _ _ _ _ _ _ _ Ha)
    as [[Eop [body Ei]] | [[Eop [bin Ei]] | [N1 [N2 [N3 Ei]]]]];
    subst resultData.
  - split; [|intros N; contradiction].
    intros _. destruct session as [s|]; simpl in Hitems;
      inversion Hitems; subst; eexists;
      (split; [reflexivity|]); split; reflexivity.
  - split; [|intros N1 N2 N3; destruct Eop; contradiction].
    intros _. destruct session as [s|]; simpl in Hitems;
      inversion Hitems; subst; eexists;
      (split; [reflexivity|]); split; reflexivity.
  - split; [intros [E|[E|E]]; contradiction|].
    intros _ _ _. split.
    + destruct session; simpl in Hitems; inversion Hitems; reflexivity.
    + exists page, (URL_toString ctx url). rewrite T, T2.
      apply in_or_app. left. apply in_or_app. right. left. reflexivity.
Qed.

(** Scenario 3 of the specification (one stamped result) and a request for
    an operation the node does not know (navigation, no result). *)
Lemma action_returns_one_paired_result_witness :
  (exists item,
     fst (runAction Scenario.calm Scenario.overriddenScreenshot 0 7
            (Some Scenario.ambient) (Scenario.start (Some Scenario.ambient)))
       = Ok [item] /\
     prop "pairedItem" item = JsObj [("item", JsNum 0)] /\
     prop "pageId" (prop "json" item) = JsStr "p1")
  /\
  fst (runAction Scenario.calm Scenario.unknownOperation 0 7 None
         Scenario.launched) = Ok [].
Proof.
  split.
  - destruct (proj1 (action_returns_one_paired_result Scenario.calm
                       Scenario.overriddenScreenshot 0 7
                       (Some Scenario.ambient)
                       (Scenario.start (Some Scenario.ambient))
                       _ _ ltac:(discriminate) eq_refl)
                (or_intror (or_introl eq_refl)))
      as [item [E [P1 P2]]].
    exists item. split; [exact (f_equal Ok E)|]. split; assumption.
  - destruct (proj2 (action_returns_one_paired_result Scenario.calm
                       Scenario.unknownOperation 0 7 None Scenario.launched
                       _ _ ltac:(discriminate) eq_refl)
                ltac:(discriminate) ltac:(discriminate) ltac:(discriminate))
      as [E _].
    exact (f_equal Ok E).
Defined.

(** An object with a [json] that already has a [pageId], and a number. *)
Lemma stampPageId_sets_only_the_page_id_witness :
  (exists stamped,
     stampPageId "p1"
       (JsObj [("json", JsObj [("pageId", JsStr "old"); ("title", JsStr "t")]);
               ("binary", JsObj [])]) = Ok stamped /\
     prop "pageId" (prop "json" stamped) = JsStr "p1" /\
     prop "title" (prop "json" stamped) = JsStr "t" /\
     prop "binary" stamped = JsObj [] /\
     map fst (spread stamped) = ["json"; "binary"])
  /\
  (exists stamped,
     stampPageId "p1" (JsNum 5) = Ok stamped /\
     prop "pageId" (prop "json" stamped) = JsStr "p1").
Proof.
  split.
  - pose proof (stampPageId_sets_only_the_page_id "p1"
                  (JsObj [("json", JsObj [("pageId", JsStr "old");
                                          ("title", JsStr "t")]);
                          ("binary", JsObj [])])) as H.
    destruct (stampPageId "p1" _) as [stamped|e] eqn:E in H.
    + destruct H as [_ [_ [P [K [J O]]]]].
      exists stamped. split; [exact E|]. split; [exact P|].
      split; [apply (J "title" _ ltac:(discriminate) eq_refl)|].
      split; [apply (K "binary" ltac:(discriminate))|].
      apply O. reflexivity.
    + destruct H as [[H|H] _]; discriminate.
  - pose proof (stampPageId_sets_only_the_page_id "p1" (JsNum 5)) as H.
    destruct (stampPageId "p1" (JsNum 5)) as [stamped|e] eqn:E in H.
    + destruct H as [_ [_ [P _]]]. exists stamped. split; [exact E | exact P].
    + destruct H as [[H|H] _]; discriminate.
Defined.

(** ** Invariants of the calls of a batch *)

Lemma emits_readSession (P : Event -> bool) : emits P readSession.
Proof. silent. Qed.

Section CallInvariant.

Variable env : Env.
Variable ctx : Context.
Variable P : Event -> bool.

(** [P] only constrains the calls of the items' work. *)
Hypothesis P_other : forall ev, isWork ev = false -> P ev = true.

Hypothesis P_work :
  forall operation itemIndex browser session page,
    emits P (runAction_body env ctx operation itemIndex browser session page).

Lemma runAction_invariant itemIndex browser session :
  emits P (runAction env ctx itemIndex browser session).
Proof.
  unfold runAction, resolvePage, runAction_finally. emits_steps;
    try (apply emits_call; apply P_other; reflexivity).
  apply P_work.
Qed.

Lemma processItems_invariant n : forall i browser session returnData,
  emits P (processItems env ctx n i browser session returnData).
Proof.
  induction n as [|n IH]; intros; simpl.
  - apply emits_ret.
  - apply emits_bind; [|intros; apply IH].
    unfold processItem. emits_steps. apply runAction_invariant.
Qed.

Lemma runBatch_invariant : emits P (runBatch env ctx).
Proof.
  unfold runBatch. apply emits_bind.
  - unfold resolveSession. apply emits_bind; [apply emits_readSession|].
    intros session. emits_steps.
  - intros resolved. apply emits_bind.
    + unfold acquireBrowser. emits_steps;
        apply emits_call; apply P_other; reflexivity.
    + intros browser. apply emits_bind; [|intros; apply emits_ret].
      apply emits_try_finally; [apply processItems_invariant|].
      unfold teardown. emits_steps;
        apply emits_call; apply P_other; reflexivity.
Qed.

End CallInvariant.

Lemma pdfOptions_shape ctx itemIndex :
  pdfShape (pdfOptions ctx itemIndex) = true.
Proof.
  unfold pdfShape, pdfOptions. cbn.
  set (p := getNodeParameter ctx itemIndex).
  destruct (Param.preferCSSPageSize p), (Param.displayHeaderFooter p); cbn;
    destruct (truthy (Opt.fileName (Param.options p))) eqn:Et; cbn;
    rewrite ?Et, ?orb_true_r, ?andb_true_r;
    try reflexivity;
    destruct (Param.height p =? ""), (Param.width p =? ""); reflexivity.
Qed.

Lemma screenshotOptions_shape ctx itemIndex :
  shotShape (screenshotOptions ctx itemIndex) = true.
Proof.
  unfold shotShape, screenshotOptions. cbn.
  set (p := getNodeParameter ctx itemIndex).
  destruct (Param.imageType p =? "png"); cbn;
    destruct (truthy (Opt.fileName (Param.options p))) eqn:Et; cbn;
    rewrite ?Et, ?orb_true_r; reflexivity.
Qed.

Lemma runAction_body_renderShape env ctx operation itemIndex browser session page :
  emits renderShape
        (runAction_body env ctx operation itemIndex browser session page).
Proof.
  unfold runAction_body, runCustomScript, performAction. emits_steps.
  - apply emits_call. apply screenshotOptions_shape.
  - apply emits_call. apply pdfOptions_shape.
Qed.

Lemma renderShape_other ev : isWork ev = false -> renderShape ev = true.
Proof. destruct ev; simpl; congruence. Qed.

(** What [pdfShape] says, spelled out. *)
Lemma pdfShape_spec o :
  pdfShape o = true ->
  (PDF.preferCSSPageSize o = true ->
   PDF.height o = None /\ PDF.width o = None /\ PDF.format o = None) /\
  (PDF.preferCSSPageSize o = false ->
   exists h w0,
     PDF.height o = Some h /\ PDF.width o = Some w0 /\
     (PDF.format o <> None <-> h = "" \/ w0 = "")) /\
  (PDF.headerTemplate o <> None <-> PDF.displayHeaderFooter o = true) /\
  (PDF.footerTemplate o <> None <-> PDF.displayHeaderFooter o = true).
Proof.
  destruct o as [pr dhf ob pb ls pref sc mg ht ft h w0 f pth].
  unfold pdfShape. cbn. intros F.
  repeat match type of F with
         | _ && _ = true => apply andb_true_iff in F; destruct F as [F ?]
         end.
  assert (Hht : ht <> None <-> dhf = true).
  { destruct ht, dhf; simpl in *; split; congruence. }
  assert (Hft : ft <> None <-> dhf = true).
  { destruct ft, dhf; simpl in *; split; congruence. }
  split; [|split; [|split; assumption]].
  - intros ->.
    repeat match type of F with
           | _ && _ = true => apply andb_true_iff in F; destruct F as [F ?]
           end.
    destruct h, w0, f; simpl in *; try discriminate. repeat split.
  - intros ->.
    repeat match type of F with
           | _ && _ = true => apply andb_true_iff in F; destruct F as [F ?]
           end.
    destruct h as [h|]; [|discriminate].
    destruct w0 as [w0|]; [|discriminate].
    exists h, w0. split; [reflexivity|]. split; [reflexivity|].
    match goal with
    | E : Bool.eqb (isSome f) _ = true |- _ => apply Bool.eqb_prop in E
    end.
    simpl in *.
    destruct (String.eqb_spec h ""), (String.eqb_spec w0 ""), f;
      simpl in *; try discriminate; split; try tauto; try congruence;
      intros [E|E]; congruence.
Qed.

(** X16.  Every [page.pdf] call of a batch is made with options that
    respect the precedence of the page-size settings.  When the CSS page
    size is preferred, no height, no width and no format is passed.
    Otherwise the configured height and width are both passed, and a format
    is passed exactly when one of them is empty: complete dimensions are
    never accompanied by a format.  Header and footer templates are passed
    exactly when the header and footer are displayed. *)
Theorem pdf_calls_respect_precedence env ctx w r w' :
  isBatchOperation ctx = true ->
  execute env ctx w = (r, w') ->
  exists evs,
    trace w' = trace w ++ evs /\
    forall page o,
      In (EvPdf page o) evs ->
      (PDF.preferCSSPageSize o = true ->
       PDF.height o = None /\ PDF.width o = None /\ PDF.format o = None) /\
      (PDF.preferCSSPageSize o = false ->
       exists h w0,
         PDF.height o = Some h /\ PDF.width o = Some w0 /\
         (PDF.format o <> None <-> h = "" \/ w0 = "")) /\
      (PDF.headerTemplate o <> None <-> PDF.displayHeaderFooter o = true) /\
      (PDF.footerTemplate o <> None <-> PDF.displayHeaderFooter o = true).
Proof.
  intros Hop H. rewrite (execute_batch _ _ Hop) in H.
  destruct (runBatch_invariant env ctx renderShape renderShape_other
              (runAction_body_renderShape env ctx) _ _ _ H)
    as [_ [evs [T F]]].
  exists evs. split; [exact T|]. intros page o Hin.
  rewrite forallb_forall in F. specialize (F _ Hin).
  apply pdfShape_spec. exact F.
Qed.

(** A PDF request with neither dimension in a launched browser: the one
    [page.pdf] call passes the format. *)
Lemma pdf_calls_respect_precedence_witness :
  exists evs,
    trace (snd (execute Scenario.calm Scenario.barePdf (Scenario.start None)))
      = [] ++ evs /\
    In (EvPdf Scenario.thePage (pdfOptions Scenario.barePdf 0)) evs /\
    PDF.format (pdfOptions Scenario.barePdf 0) <> None.
Proof.
  destruct (pdf_calls_respect_precedence Scenario.calm Scenario.barePdf
              (Scenario.start None)
              (fst (execute Scenario.calm Scenario.barePdf
                      (Scenario.start None)))
              (snd (execute Scenario.calm Scenario.barePdf
                      (Scenario.start None)))
              eq_refl eq_refl) as [evs [T F]].
  exists evs. split; [exact T|].
  assert (Hin : In (EvPdf Scenario.thePage (pdfOptions Scenario.barePdf 0))
                   evs).
  { simpl in T. rewrite <- T. vm_compute. tauto. }
  split; [exact Hin|].
  destruct (F _ _ Hin) as [_ [D _]].
  destruct (D eq_refl) as [h [w0 [Eh [Ew Ef]]]].
  apply Ef. left. vm_compute in Eh. congruence.
Defined.

(** X17.  Every [page.screenshot] call of a batch passes a quality exactly
    when the image type is not png, and never an empty path. *)
Theorem screenshot_calls_pass_quality_for_lossy_types env ctx w r w' :
  isBatchOperation ctx = true ->
  execute env ctx w = (r, w') ->
  exists evs,
    trace w' = trace w ++ evs /\
    forall page o,
      In (EvScreenshot page o) evs ->
      (Shot.quality o <> None <-> Shot.type o <> "png") /\
      Shot.path o <> Some "".
Proof.
  intros Hop H. rewrite (execute_batch _ _ Hop) in H.
  destruct (runBatch_invariant env ctx renderShape renderShape_other
              (runAction_body_renderShape env ctx) _ _ _ H)
    as [_ [evs [T F]]].
  exists evs. split; [exact T|]. intros page o Hin.
  rewrite forallb_forall in F. specialize (F _ Hin). simpl in F.
  unfold shotShape in F. apply andb_true_iff in F. destruct F as [F1 F2].
  apply Bool.eqb_prop in F1. split.
  - destruct (Shot.quality o), (String.eqb_spec (Shot.type o) "png");
      simpl in F1; try discriminate; split; congruence.
  - intros E. rewrite E in F2. discriminate.
Qed.

(** Scenario 3 of the specification: a png screenshot, no quality. *)
Lemma screenshot_calls_pass_quality_for_lossy_types_witness :
  exists evs,
    trace (snd (execute Scenario.calm Scenario.overriddenScreenshot
                  (Scenario.start (Some Scenario.ambient)))) = [] ++ evs /\
    forall page o,
      In (EvScreenshot page o) evs ->
      (Shot.quality o <> None <-> Shot.type o <> "png") /\
      Shot.path o <> Some "".
Proof.
  apply (screenshot_calls_pass_quality_for_lossy_types Scenario.calm
           Scenario.overriddenScreenshot
           (Scenario.start (Some Scenario.ambient))
           (fst (execute Scenario.calm Scenario.overriddenScreenshot
                   (Scenario.start (Some Scenario.ambient))))
           (snd (execute Scenario.calm Scenario.overriddenScreenshot
                   (Scenario.start (Some Scenario.ambient)))));
    reflexivity.
Defined.

(** ** Navigation *)

Lemma append_all_parameters (l : list (string * string)) : forall u,
  fold_left
    (fun u queryParameter =>
       {| href := href u; appended := appended u ++ [queryParameter] |})
    l u
  = {| href := href u; appended := appended u ++ l |}.
Proof.
  induction l as [|q l IH]; intros u; simpl.
  - rewrite app_nil_r. destruct u; reflexivity.
  - rewrite IH. simpl. rewrite <- app_assoc. reflexivity.
Qed.

(** X18.  For every operation other than the script, once the page is
    resolved and the configured URL parses, the first call on the page is
    the navigation, and it goes to the parsed address with every configured
    query parameter appended, each once, in the configured order (none when
    no parameters are configured). *)
Theorem navigation_appends_query_parameters_in_order
        env ctx itemIndex browser session w page w1 h r w' :
  let p := getNodeParameter ctx itemIndex in
  Param.operation p <> "runCustomScript" ->
  URL_new ctx (Param.url p) = Some h ->
  resolvePage env browser session w = (Ok page, w1) ->
  runAction env ctx itemIndex browser session w = (r, w') ->
  exists rest,
    trace w' =
      trace w1
      ++ EvGoto page
           (URL_toString ctx
              {| href := h;
                 appended := match Param.queryParameters p with
                             | Some parameters => parameters
                             | None => []
                             end |})
      :: rest.
Proof.
  intros p Hop Hurl Hp H.
  destruct (runAction_body env ctx (Param.operation p) itemIndex browser
                           session page w1) as [r1 w2] eqn:Hb.
  rewrite (runAction_run _ _ _ _ _ _ _ _ _ _ Hp Hb) in H.
  inversion H; subst r w'; clear H. cbn [trace].
  assert (Hu : buildURL ctx itemIndex =
               Ok {| href := h;
                     appended := match Param.queryParameters p with
                                 | Some parameters => parameters
                                 | None => []
                                 end |}).
  { unfold buildURL. fold p. rewrite Hurl, append_all_parameters.
    reflexivity. }
  unfold runAction_body in Hb. apply String.eqb_neq in Hop. rewrite Hop in Hb.
  unfold bind at 1 in Hb. unfold lift at 1 in Hb. rewrite Hu in Hb.
  match type of Hb with
  | bind (call ?ev ?ans) ?k w1 = _ =>
      assert (Hk : forall a, emits isWork (k a))
  end.
  { intros a. emits_steps. apply performAction_emits. }
  unfold bind at 1 in Hb. unfold call at 1 in Hb.
  destruct (goto env (trace w1) page _) as [a|e].
  - destruct (Hk a _ _ _ Hb) as [_ [evs [T _]]]. simpl in T.
    rewrite T. eexists. rewrite <- !app_assoc. simpl. reflexivity.
  - inversion Hb; subst. simpl. eexists. rewrite <- !app_assoc. simpl.
    reflexivity.
Qed.

(** A content request with two query parameters of the same name. *)
Lemma navigation_appends_query_parameters_in_order_witness :
  exists rest,
    trace (snd (runAction Scenario.calm Scenario.withQuery 0 7 None
                  Scenario.launched)) =
      [EvLaunch HeadlessNew [] None; EvNewPage 7]
      ++ EvGoto Scenario.thePage "https://example.test/?a=1&a=2&b=3" :: rest.
Proof.
  apply (navigation_appends_query_parameters_in_order Scenario.calm
           Scenario.withQuery 0 7 None Scenario.launched Scenario.thePage
           {| trace := [EvLaunch HeadlessNew [] None; EvNewPage 7];
              puppeteerSession := None |}
           "https://example.test/"
           (fst (runAction Scenario.calm Scenario.withQuery 0 7 None
                   Scenario.launched))
           (snd (runAction Scenario.calm Scenario.withQuery 0 7 None
                   Scenario.launched)));
    try reflexivity.
  discriminate.
Defined.

(** ** Launch arguments *)

(** X19.  Without the container-arguments flag (absent or [false]) the
    launch arguments are exactly the user's.  With it, each of the four
    recommended arguments is among the launch arguments, and injecting is
    idempotent: launch arguments that were already completed are left as
    they are by a second completion. *)
Theorem container_injection_completes_once options :
  (Opt.addContainerArgs options <> Some true ->
   buildLaunchArgs options = userLaunchArgs options)
  /\
  (Opt.addContainerArgs options = Some true ->
   (forall arg, In arg CONTAINER_LAUNCH_ARGS ->
                In arg (buildLaunchArgs options)) /\
   (forall options',
      Opt.addContainerArgs options' = Some true ->
      userLaunchArgs options' = buildLaunchArgs options ->
      buildLaunchArgs options' = buildLaunchArgs options)).
Proof.
  split.
  - intros Hflag. unfold buildLaunchArgs.
    destruct (Opt.addContainerArgs options) as [[|]|];
      [congruence | reflexivity | reflexivity].
  - intros Hflag.
    assert (Hall : forall arg, In arg CONTAINER_LAUNCH_ARGS ->
                               In arg (buildLaunchArgs options)).
    { intros arg Hin. rewrite (buildLaunchArgs_injected _ Hflag).
      apply in_or_app.
      destruct (in_dec string_dec arg (userLaunchArgs options)) as [Hu|Hu];
        [left; exact Hu | right; apply In_injected; split; assumption]. }
    split; [exact Hall|].
    intros options' Hflag' Huser.
    rewrite (buildLaunchArgs_injected _ Hflag'), Huser.
    assert (Hnil : injected (buildLaunchArgs options) = []).
    { destruct (injected (buildLaunchArgs options)) as [|a l] eqn:E;
        [reflexivity|].
      assert (Hin : In a (injected (buildLaunchArgs options)))
        by (rewrite E; left; reflexivity).
      apply In_injected in Hin. destruct Hin as [Hc Hn].
      exfalso. apply Hn. apply Hall. exact Hc. }
    rewrite Hnil. apply app_nil_r.
Qed.

(** The user's arguments with the flag off, and a completed list completed
    again. *)
Lemma container_injection_completes_once_witness :
  buildLaunchArgs Scenario.noOptions = [] /\
  buildLaunchArgs
    (Scenario.containerOptions
       (buildLaunchArgs (Scenario.containerOptions ["--headless=old"])))
  = ["--headless=old"; "--no-sandbox"; "--disable-setuid-sandbox";
     "--disable-dev-shm-usage"; "--disable-gpu"].
Proof.
  split.
  - apply (proj1 (container_injection_completes_once Scenario.noOptions)).
    discriminate.
  - apply (proj2 (proj2 (container_injection_completes_once
                           (Scenario.containerOptions ["--headless=old"]))
                    eq_refl)
             (Scenario.containerOptions
                (buildLaunchArgs
                   (Scenario.containerOptions ["--headless=old"])))
             eq_refl eq_refl).
Defined.

(** ** The loop over the items *)

(** The results of items that all succeeded. *)
Lemma contributions_all_ok ctx outcomes : forall i,
  forallb isOk outcomes = true ->
  contributions ctx i outcomes =
    flat_map (fun r => match r with Ok results => results | Err _ => [] end)
             outcomes.
Proof.
  induction outcomes as [|[results|e] rest IH]; intros i H; simpl in *;
    [reflexivity | | discriminate].
  rewrite (IH (S i) H). reflexivity.
Qed.

Lemma processItems_all_ok env ctx n : forall i browser session returnData w,
  forallb isOk (fst (attempts env ctx n i browser session w)) = true ->
  processItems env ctx n i browser session returnData w =
    (Ok (returnData
         ++ contributions ctx i
              (fst (attempts env ctx n i browser session w))),
     snd (attempts env ctx n i browser session w)).
Proof.
  induction n as [|n IH]; intros i browser session returnData w Hok.
  - simpl. unfold ret. rewrite app_nil_r. reflexivity.
  - simpl in *. unfold bind at 1. unfold processItem, try_catch, bind at 1.
    destruct (runAction env ctx i browser session w) as [[results|e] w1].
    + unfold ret. specialize (IH (S i) browser session (returnData ++ results) w1).
      destruct (attempts env ctx n (S i) browser session w1) as [rs w2].
      simpl in *. rewrite (IH Hok), <- app_assoc. reflexivity.
    + destruct (attempts env ctx n (S i) browser session w1) as [rs w2].
      simpl in Hok. discriminate.
Qed.

(** X20.  When no item fails, the continue-on-failure policy plays no
    part: under either setting the loop completes, every item was run
    once, in input order, and the output is the concatenation of the
    items' results in that order, with no error record in it. *)
Theorem successful_batch_ignores_policy env ctx browser session w :
  let n := length (getInputData ctx) in
  forallb isOk (fst (attempts env ctx n 0 browser session w)) = true ->
  processItems env ctx n 0 browser session [] w =
    (Ok (flat_map
           (fun r => match r with Ok results => results | Err _ => [] end)
           (fst (attempts env ctx n 0 browser session w))),
     snd (attempts env ctx n 0 browser session w))
  /\ length (fst (attempts env ctx n 0 browser session w)) = n.
Proof.
  intros n Hok. split; [|apply attempts_length].
  rewrite (processItems_all_ok _ _ _ _ _ _ _ _ Hok).
  rewrite (contributions_all_ok _ _ _ Hok). reflexivity.
Qed.

(** Two content items, policy disabled and policy enabled. *)
Lemma successful_batch_ignores_policy_witness :
  fst (processItems Scenario.calm (Scenario.contentBatch 2 false) 2 0 7 None
         [] Scenario.launched) =
  fst (processItems Scenario.calm (Scenario.contentBatch 2 true) 2 0 7 None
         [] Scenario.launched).
Proof.
  destruct (successful_batch_ignores_policy Scenario.calm
              (Scenario.contentBatch 2 false) 7 None Scenario.launched
              eq_refl) as [E1 _].
  destruct (successful_batch_ignores_policy Scenario.calm
              (Scenario.contentBatch 2 true) 7 None Scenario.launched
              eq_refl) as [E2 _].
  change (length (getInputData (Scenario.contentBatch 2 false))) with 2 in E1.
  change (length (getInputData (Scenario.contentBatch 2 true))) with 2 in E2.
  rewrite E1, E2. reflexivity.
Defined.

(** The calls of one item in launched mode: a new page first, and at most
    one close, of no other kind of page call. *)
Lemma runAction_launched_counts env ctx itemIndex browser w r w' :
  runAction env ctx itemIndex browser None w = (r, w') ->
  exists evs,
    trace w' = trace w ++ evs /\
    length (filter isNewPage evs) = 1 /\
    filter isPages evs = [] /\
    forallb isItemLevel evs = true.
Proof.
  intros H.
  destruct (runAction_emits _ _ _ _ _ _ _ _ H) as [_ [evs0 [T0 F0]]].
  pose proof (resolvePage_launched env browser w) as Hp.
  destruct (newPage env (trace w) browser) as [page|e].
  - destruct (runAction_body env ctx
                (Param.operation (getNodeParameter ctx itemIndex))
                itemIndex browser None page
                {| trace := trace w ++ [EvNewPage browser];
                   puppeteerSession := puppeteerSession w |})
      as [r1 w2] eqn:Hb.
    rewrite (runAction_run _ _ _ _ _ _ _ _ _ _ Hp Hb) in H.
    inversion H; subst r w'; clear H. cbn [trace] in *.
    destruct (runAction_body_emits _ _ _ _ _ _ _ _ _ _ Hb) as [_ [work [T F]]].
    cbn [trace] in T.
    exists (EvNewPage browser :: work
            ++ cleanupCalls env None page (trace w2)).
    split; [rewrite T, <- !app_assoc; reflexivity|].
    assert (Hw1 : filter isNewPage work = []).
    { clear - F. induction work as [|ev work IH]; [reflexivity|].
      simpl in F. apply andb_true_iff in F. destruct F as [F1 F2].
      simpl. rewrite (IH F2). destruct ev; simpl in *; congruence. }
    assert (Hw2 : filter isPages work = []).
    { clear - F. induction work as [|ev work IH]; [reflexivity|].
      simpl in F. apply andb_true_iff in F. destruct F as [F1 F2].
      simpl. rewrite (IH F2). destruct ev; simpl in *; congruence. }
    assert (Hw3 : forallb isItemLevel work = true).
    { apply (forallb_impl isWork); [|exact F].
      intros []; simpl; congruence. }
    unfold cleanupCalls. simpl. rewrite !filter_app, Hw1, Hw2, forallb_app, Hw3.
    destruct (isClosed env (trace w2) page); repeat split.
  - rewrite (runAction_no_page _ _ _ _ _ _ _ _ Hp) in H.
    inversion H; subst r w'; clear H. exists [EvNewPage browser].
    repeat split.
Qed.

Lemma attempts_launched_pages env ctx n : forall i browser w,
  exists evs,
    trace (snd (attempts env ctx n i browser None w)) = trace w ++ evs /\
    length (filter isNewPage evs) = n /\
    filter isPages evs = [].
Proof.
  induction n as [|n IH]; intros i browser w.
  - exists []. simpl. rewrite app_nil_r. repeat split.
  - simpl.
    destruct (runAction env ctx i browser None w) as [r w1] eqn:E.
    destruct (runAction_launched_counts _ _ _ _ _ _ _ E)
      as [evs1 [T1 [C1 [P1 _]]]].
    destruct (IH (S i) browser w1) as [evs2 [T2 [C2 P2]]].
    destruct (attempts env ctx n (S i) browser None w1) as [rs w2].
    simpl in *. exists (evs1 ++ evs2).
    rewrite T2, T1, <- app_assoc, !filter_app, length_app, C1, C2, P1, P2.
    repeat split.
Qed.

Lemma attempts_session_pages env ctx n : forall i browser s w,
  exists evs,
    trace (snd (attempts env ctx n i browser (Some s) w)) = trace w ++ evs /\
    length (filter isPages evs) = n /\
    filter isNewPage evs = [].
Proof.
  induction n as [|n IH]; intros i browser s w.
  - exists []. simpl. rewrite app_nil_r. repeat split.
  - simpl.
    destruct (runAction env ctx i browser (Some s) w) as [r w1] eqn:E.
    assert (H1 : exists work,
               trace w1 = trace w ++ EvPages browser :: work /\
               forallb isWork work = true).
    { destruct (resolvePage env browser (Some s) w) as [[page|e] w0] eqn:Hp;
        pose proof Hp as Hp'; rewrite resolvePage_session in Hp';
        inversion Hp' as [[Hr Hw0]]; clear Hp'.
      - destruct (runAction_body env ctx
                    (Param.operation (getNodeParameter ctx i))
                    i browser (Some s) page w0) as [r1 w2] eqn:Hb.
        rewrite (runAction_run _ _ _ _ _ _ _ _ _ _ Hp Hb) in E.
        inversion E; subst r w1; clear E. simpl.
        destruct (runAction_body_emits _ _ _ _ _ _ _ _ _ _ Hb)
          as [_ [work [T F]]].
        exists work. rewrite app_nil_r, T, <- Hw0. simpl.
        rewrite <- app_assoc. split; [reflexivity | exact F].
      - rewrite (runAction_no_page _ _ _ _ _ _ _ _ Hp) in E.
        inversion E; subst r w1; clear E. exists []. rewrite <- Hw0.
        split; reflexivity. }
    destruct H1 as [work [T1 F]].
    assert (Hw1 : filter isNewPage work = [] /\ filter isPages work = []).
    { clear - F. induction work as [|ev work IH]; [split; reflexivity|].
      simpl in F. apply andb_true_iff in F. destruct F as [F1 F2].
      destruct (IH F2) as [I1 I2]. simpl. rewrite I1, I2.
      destruct ev; simpl in *; try discriminate; split; reflexivity. }
    destruct Hw1 as [W1 W2].
    destruct (IH (S i) browser s w1) as [evs2 [T2 [C2 P2]]].
    destruct (attempts env ctx n (S i) browser (Some s) w1) as [rs w2].
    simpl in *. exists ((EvPages browser :: work) ++ evs2).
    rewrite T2, T1, <- app_assoc, !filter_app, length_app. simpl.
    rewrite W1, W2, C2, P2. repeat split.
Qed.

(** X21.  A batch of N items makes at most N page acquisitions, one per
    item it processes, and exactly N whenever the loop completes: in
    launched mode the loop opens one new page per processed item and never
    lists the browser's pages; in a session it lists the browser's pages
    once per processed item, looking the session's page up afresh each
    time, and opens no page. *)
Theorem one_page_acquisition_per_item env ctx browser session w r w' :
  let n := length (getInputData ctx) in
  processItems env ctx n 0 browser session [] w = (r, w') ->
  exists evs,
    trace w' = trace w ++ evs /\
    match session with
    | None =>
        length (filter isNewPage evs) <= n /\
        filter isPages evs = [] /\
        (isOk r = true -> length (filter isNewPage evs) = n)
    | Some _ =>
        length (filter isPages evs) <= n /\
        filter isNewPage evs = [] /\
        (isOk r = true -> length (filter isPages evs) = n)
    end.
Proof.
  intros n H.
  destruct (processItems_prefix _ _ _ _ _ _ _ _ _ _ H) as [k [Hk [Hw Hr]]].
  subst w'. destruct session as [s|].
  - destruct (attempts_session_pages env ctx k 0 browser s w)
      as [evs [T [C P]]].
    exists evs. split; [exact T|]. rewrite C.
    split; [exact Hk|]. split; [exact P | exact Hr].
  - destruct (attempts_launched_pages env ctx k 0 browser w)
      as [evs [T [C P]]].
    exists evs. split; [exact T|]. rewrite C.
    split; [exact Hk|]. split; [exact P | exact Hr].
Qed.

(** Scenario 4 of the specification (three items, three new pages, the
    failing item's included), and the same batch with the policy disabled
    (the loop stops at the second item: two new pages). *)
Lemma one_page_acquisition_per_item_witness :
  (exists evs,
     trace (snd (processItems Scenario.flaky (Scenario.contentBatch 3 true)
                   3 0 7 None [] Scenario.launched)) =
       trace Scenario.launched ++ evs /\
     length (filter isNewPage evs) = 3)
  /\
  (exists evs,
     trace (snd (processItems Scenario.flaky (Scenario.contentBatch 3 false)
                   3 0 7 None [] Scenario.launched)) =
       trace Scenario.launched ++ evs /\
     length (filter isNewPage evs) <= 3).
Proof.
  split.
  - destruct (one_page_acquisition_per_item Scenario.flaky
                (Scenario.contentBatch 3 true) 7 None Scenario.launched
                (fst (processItems Scenario.flaky
                        (Scenario.contentBatch 3 true)
                        3 0 7 None [] Scenario.launched))
                (snd (processItems Scenario.flaky
                        (Scenario.contentBatch 3 true)
                        3 0 7 None [] Scenario.launched))
                eq_refl) as [evs [T [_ [_ E]]]].
    exists evs. split; [exact T|]. apply E. reflexivity.
  - destruct (one_page_acquisition_per_item Scenario.flaky
                (Scenario.contentBatch 3 false) 7 None Scenario.launched
                (fst (processItems Scenario.flaky
                        (Scenario.contentBatch 3 false)
                        3 0 7 None [] Scenario.launched))
                (snd (processItems Scenario.flaky
                        (Scenario.contentBatch 3 false)
                        3 0 7 None [] Scenario.launched))
                eq_refl) as [evs [T [L _]]].
    exists evs. split; [exact T | exact L].
Defined.

(** ** Container detection *)

Lemma startsWith_app prefix rest : startsWith prefix (prefix ++ rest) = true.
Proof.
  induction prefix as [|a prefix IH]; simpl; [reflexivity|].
  rewrite Ascii.eqb_refl. exact IH.
Qed.

Lemma startsWith_split prefix : forall s,
  startsWith prefix s = true -> exists rest, s = (prefix ++ rest)%string.
Proof.
  induction prefix as [|a prefix IH]; intros s H.
  - exists s. reflexivity.
  - destruct s as [|b s]; simpl in H; [discriminate|].
    apply andb_true_iff in H. destruct H as [E H].
    apply Ascii.eqb_eq in E. subst b.
    destruct (IH s H) as [rest ->]. exists rest. reflexivity.
Qed.

Lemma str_includes_startsWith searchString s :
  startsWith searchString s = true -> str_includes searchString s = true.
Proof. intros H. destruct s; simpl; rewrite H; reflexivity. Qed.

(** [str_includes] finds exactly the strings that contain the search string
    somewhere. *)
Lemma str_includes_spec searchString s :
  str_includes searchString s = true <->
  exists before after, s = (before ++ searchString ++ after)%string.
Proof.
  split.
  - induction s as [|c s IH]; simpl.
    + destruct (startsWith searchString "") eqn:E; [|discriminate].
      intros _. destruct (startsWith_split _ _ E) as [rest R].
      exists "", rest. exact R.
    + destruct (startsWith searchString (String c s)) eqn:E.
      * intros _. destruct (startsWith_split _ _ E) as [rest R].
        exists "", rest. exact R.
      * intros H. destruct (IH H) as [before [after ->]].
        exists (String c before), after. reflexivity.
  - intros [before [after ->]].
    induction before as [|c before IH]; simpl.
    + apply str_includes_startsWith, startsWith_app.
    + rewrite IH. destruct (startsWith searchString _); reflexivity.
Qed.

(** X22.  [isRunningInContainer] answers yes exactly when the marker file
    [/.dockerenv] exists, or, the look-up of the marker file having
    answered no without throwing, when the host is Linux and the readable
    control-group description of its init process contains [docker] or
    [kubepods], or one of [KUBERNETES_SERVICE_HOST], [DOCKER_CONTAINER] and
    [DOCKER_HOST] is set to a non-empty value.  In particular a look-up of
    the marker file that throws gives no, whatever the environment. *)
Theorem container_detection_causes host :
  isRunningInContainer host = true <->
  existsSync host "/.dockerenv" = Ok true \/
  (existsSync host "/.dockerenv" = Ok false /\
   ((platform host = "linux" /\
     exists cgroupContent before after,
       readFileSync host "/proc/1/cgroup" = Ok cgroupContent /\
       (cgroupContent = (before ++ "docker" ++ after)%string \/
        cgroupContent = (before ++ "kubepods" ++ after)%string)) \/
    truthy (process_env host "KUBERNETES_SERVICE_HOST") = true \/
    truthy (process_env host "DOCKER_CONTAINER") = true \/
    truthy (process_env host "DOCKER_HOST") = true)).
Proof.
  unfold isRunningInContainer.
  destruct (existsSync host "/.dockerenv") as [[|]|e].
  - split; [intros _; left; reflexivity | reflexivity].
  - cbv zeta.
    set (fromCgroup :=
           if platform host =? "linux"
           then match readFileSync host "/proc/1/cgroup" with
                | Ok cgroupContent =>
                    str_includes "docker" cgroupContent
                    || str_includes "kubepods" cgroupContent
                | Err _ => false
                end
           else false).
    set (fromEnv :=
           truthy (process_env host "KUBERNETES_SERVICE_HOST")
           || truthy (process_env host "DOCKER_CONTAINER")
           || truthy (process_env host "DOCKER_HOST")).
    assert (Hcg : fromCgroup = true <->
                  platform host = "linux" /\
                  exists cgroupContent before after,
                    readFileSync host "/proc/1/cgroup" = Ok cgroupContent /\
                    (cgroupContent = (before ++ "docker" ++ after)%string \/
                     cgroupContent = (before ++ "kubepods" ++ after)%string)).
    { subst fromCgroup.
      destruct (String.eqb_spec (platform host) "linux") as [Hp|Hp].
      - destruct (readFileSync host "/proc/1/cgroup") as [content|e].
        + rewrite orb_true_iff, !str_includes_spec. split.
          * intros [[b [a E]]|[b [a E]]]; (split; [exact Hp|]);
              exists content, b, a; (split; [reflexivity|]);
              [left | right]; exact E.
          * intros [_ [c [b [a [E G]]]]]. injection E as <-.
            destruct G as [G|G]; [left | right]; exists b, a; exact G.
        + split; [discriminate|].
          intros [_ [c [b [a [E _]]]]]. discriminate.
      - split; [discriminate|]. intros [F _]. contradiction. }
    assert (Henv : fromEnv = true <->
                   truthy (process_env host "KUBERNETES_SERVICE_HOST") = true \/
                   truthy (process_env host "DOCKER_CONTAINER") = true \/
                   truthy (process_env host "DOCKER_HOST") = true).
    { subst fromEnv. rewrite !orb_true_iff. tauto. }
    clearbody fromCgroup fromEnv.
    destruct fromCgroup, fromEnv; simpl; split; intros H;
      try reflexivity.
    + right. split; [reflexivity|]. left. apply Hcg. reflexivity.
    + right. split; [reflexivity|]. left. apply Hcg. reflexivity.
    + right. split; [reflexivity|]. right. apply Henv. reflexivity.
    + discriminate.
    + destruct H as [F|[_ [F|F]]];
        [discriminate | apply Hcg in F | apply Henv in F]; discriminate.
  - split; [discriminate|].
    intros [F|[F _]]; discriminate.
Qed.

(** A host on which looking for the marker file throws although
    [DOCKER_HOST] is set, and a pod. *)
Lemma container_detection_causes_witness :
  isRunningInContainer Scenario.sandboxed = false /\
  isRunningInContainer Scenario.pod = true.
Proof.
  split.
  - destruct (isRunningInContainer Scenario.sandboxed) eqn:E; [|reflexivity].
    apply (proj1 (container_detection_causes Scenario.sandboxed)) in E.
    destruct E as [F|[F _]]; discriminate.
  - apply (proj2 (container_detection_causes Scenario.pod)).
    right. split; [reflexivity|]. left. split; [reflexivity|].
    exists "12:pids:/kubepods/besteffort/pod1", "12:pids:/",
           "/besteffort/pod1".
    split; [reflexivity | right; reflexivity].
Defined.

(** X23.  The control-group file is consulted on Linux only, and a failure
    to read it is ignored: on a host without the marker file that is not
    Linux, or whose control-group file cannot be read, the answer is
    decided by the environment alone, and is yes exactly when
    [KUBERNETES_SERVICE_HOST], [DOCKER_CONTAINER] or [DOCKER_HOST] is set
    to a non-empty value. *)
Theorem container_detection_falls_back_to_environment host :
  existsSync host "/.dockerenv" = Ok false ->
  platform host <> "linux" \/
  (exists e, readFileSync host "/proc/1/cgroup" = Err e) ->
  isRunningInContainer host =
    (truthy (process_env host "KUBERNETES_SERVICE_HOST")
     || truthy (process_env host "DOCKER_CONTAINER")
     || truthy (process_env host "DOCKER_HOST")).
Proof.
  intros Hm Hc. unfold isRunningInContainer. rewrite Hm.
  assert (Hf : (if platform host =? "linux"
                then match readFileSync host "/proc/1/cgroup" with
                     | Ok cgroupContent =>
                         str_includes "docker" cgroupContent
                         || str_includes "kubepods" cgroupContent
                     | Err _ => false
                     end
                else false) = false).
  { destruct Hc as [Hp|[e He]].
    - apply String.eqb_neq in Hp. rewrite Hp. reflexivity.
    - rewrite He. destruct (platform host =? "linux"); reflexivity. }
  cbv zeta. rewrite Hf.
  destruct (_ || _); reflexivity.
Qed.

(** A Linux host whose control-group file cannot be read, with
    [DOCKER_HOST] set; a macOS host with nothing set. *)
Lemma container_detection_falls_back_to_environment_witness :
  isRunningInContainer Scenario.restricted = true /\
  isRunningInContainer Scenario.laptop = false.
Proof.
  split.
  - rewrite (container_detection_falls_back_to_environment
               Scenario.restricted eq_refl).
    + reflexivity.
    + right. exists (HostError "EACCES"). reflexivity.
  - rewrite (container_detection_falls_back_to_environment
               Scenario.laptop eq_refl).
    + reflexivity.
    + left. discriminate.
Defined.

(** ** Device options *)

Lemma mapR_all_ok {A B : Type} (f : A -> Result B) (g : A -> B) (l : list A) :
  (forall x, In x l -> f x = Ok (g x)) -> mapR f l = Ok (map g l).
Proof.
  induction l as [|a l IH]; intros H; simpl; [reflexivity|].
  rewrite (H a (or_introl eq_refl)), IH; [reflexivity|].
  intros x Hin. apply H. right. exact Hin.
Qed.

Lemma get_known devices : forall name,
  In name (map fst devices) -> exists d, Devices.get devices name = Some d.
Proof.
  induction devices as [|[k d] rest IH]; intros name Hin; [destruct Hin|].
  simpl. destruct (String.eqb_spec k name) as [E|N]; [eauto|].
  destruct Hin as [E|Hin]; [simpl in E; contradiction|].
  apply IH. exact Hin.
Qed.

Lemma get_unique devices : forall name d,
  NoDup (map fst devices) -> In (name, d) devices ->
  Devices.get devices name = Some d.
Proof.
  induction devices as [|[k d0] rest IH]; intros name d Hnd Hin;
    [destruct Hin|].
  simpl in *. apply NoDup_cons_iff in Hnd. destruct Hnd as [Hk Hnd].
  destruct Hin as [E|Hin].
  - inversion E; subst. rewrite String.eqb_refl. reflexivity.
  - destruct (String.eqb_spec k name) as [E|N].
    + subst k. exfalso. apply Hk.
      apply (in_map fst) in Hin. exact Hin.
    + apply IH; assumption.
Qed.

(** X24.  Over a table of known devices (an object, so its keys are
    distinct) [getDevices] never fails and offers one option per device, in
    the order of the table's keys: the option's name and its value are both
    the device's name, and its description is that device's viewport, as
    [<width>x<height>] in decimal. *)
Theorem getDevices_offers_every_device devices :
  NoDup (map fst devices) ->
  Devices.getDevices devices =
    Ok (map (fun entry =>
               {| Devices.name := fst entry;
                  Devices.value := fst entry;
                  Devices.description :=
                    (string_of_nat
                       (Devices.width (Devices.viewport (snd entry)))
                     ++ "x"
                     ++ string_of_nat
                          (Devices.height (Devices.viewport (snd entry))))%string
               |})
            devices).
Proof.
  intros Hnd. unfold Devices.getDevices.
  rewrite (mapR_all_ok _ (deviceOption devices)).
  - f_equal. rewrite map_map. apply map_ext_in.
    intros [name d] Hin. unfold deviceOption. simpl.
    rewrite (get_unique _ _ _ Hnd Hin). reflexivity.
  - intros name Hin. unfold deviceOption.
    destruct (get_known _ _ Hin) as [d E]. rewrite E. reflexivity.
Qed.

(** Two devices. *)
Lemma getDevices_offers_every_device_witness :
  Devices.getDevices Scenario.twoDevices =
    Ok [{| Devices.name := "iPhone 6";
           Devices.value := "iPhone 6";
           Devices.description := "375x667" |};
        {| Devices.name := "iPad";
           Devices.value := "iPad";
           Devices.description := "768x1024" |}].
Proof.
  apply (getDevices_offers_every_device Scenario.twoDevices).
  repeat constructor; simpl; intuition discriminate.
Defined.

(** ** What a script returns *)

(** X25.  For a script item whose wrapped script produced an array, the
    item's results are what [normalizeItems] makes of the array's
    elements, none, one or many: as they are in launched mode, and each
    stamped with the session's page id in a session, where an element that
    is [undefined] or [null] fails the item with a [TypeError] instead.  A
    failure of the normaliser fails the item; and in launched mode a
    throwing [page.close] in the cleanup replaces either outcome. *)
Theorem script_results_are_normalized
        env ctx itemIndex browser session w page w1 elems r w' :
  Param.operation (getNodeParameter ctx itemIndex) = "runCustomScript" ->
  resolvePage env browser session w = (Ok page, w1) ->
  vm_run env (trace w1)
         (wrapScript (Param.scriptCode (getNodeParameter ctx itemIndex)))
         browser page = Ok (JsArr elems) ->
  runAction env ctx itemIndex browser session w = (r, w') ->
  let tr :=
    trace w1
    ++ [EvVmRun (wrapScript (Param.scriptCode (getNodeParameter ctx itemIndex)))
                browser page (logSink ctx)] in
  r = match session with
      | Some s =>
          match mapR (stampPageId (pageId s)) elems with
          | Ok stamped => normalizeItems ctx stamped
          | Err e => Err e
          end
      | None =>
          if isClosed env tr page then normalizeItems ctx elems
          else match page_close env tr page with
               | Ok _ => normalizeItems ctx elems
               | Err e => Err e
               end
      end.
Proof.
  intros Hop Hp Hv H tr.
  assert (Hb : runAction_body env ctx
                 (Param.operation (getNodeParameter ctx itemIndex))
                 itemIndex browser session page w1 =
               (match session with
                | Some s =>
                    match mapR (stampPageId (pageId s)) elems with
                    | Ok stamped => normalizeItems ctx stamped
                    | Err e => Err e
                    end
                | None => normalizeItems ctx elems
                end,
                {| trace := tr; puppeteerSession := puppeteerSession w1 |})).
  { rewrite Hop. unfold runAction_body. simpl.
    unfold runCustomScript, bind at 1. unfold call at 1. rewrite Hv.
    simpl. destruct session as [s|].
    - unfold bind, lift.
      destruct (mapR (stampPageId (pageId s)) elems); reflexivity.
    - reflexivity. }
  rewrite (runAction_run _ _ _ _ _ _ _ _ _ _ Hp Hb) in H.
  inversion H; subst r w'; clear H. unfold cleanupAnswer. cbn [trace].
  destruct session; [reflexivity|].
  destruct (isClosed env tr page); [reflexivity|].
  destruct (page_close env tr page); reflexivity.
Qed.

(** A script that returns two items and one that returns [[null]], both in
    the session of scenario 2. *)
Lemma script_results_are_normalized_witness :
  fst (runAction Scenario.twoResults (Scenario.scriptBatch 1 false) 0 7
         (Some Scenario.ambient) (Scenario.start (Some Scenario.ambient))) =
    Ok [JsObj [("json", JsObj [("n", JsNum 1); ("pageId", JsStr "p1")])];
        JsObj [("json", JsObj [("n", JsNum 2); ("pageId", JsStr "p1")])]]
  /\
  fst (runAction Scenario.nullResult (Scenario.scriptBatch 1 false) 0 7
         (Some Scenario.ambient) (Scenario.start (Some Scenario.ambient))) =
    Err (TypeError "Cannot read properties of null (reading 'json')").
Proof.
  split.
  - apply (script_results_are_normalized Scenario.twoResults
             (Scenario.scriptBatch 1 false) 0 7 (Some Scenario.ambient)
             (Scenario.start (Some Scenario.ambient)) Scenario.thePage
             {| trace := [EvPages 7];
                puppeteerSession := Some Scenario.ambient |}
             [JsObj [("json", JsObj [("n", JsNum 1)])];
              JsObj [("json", JsObj [("n", JsNum 2)])]]
             _
             (snd (runAction Scenario.twoResults
                     (Scenario.scriptBatch 1 false) 0 7
                     (Some Scenario.ambient)
                     (Scenario.start (Some Scenario.ambient)))));
      reflexivity.
  - apply (script_results_are_normalized Scenario.nullResult
             (Scenario.scriptBatch 1 false) 0 7 (Some Scenario.ambient)
             (Scenario.start (Some Scenario.ambient)) Scenario.thePage
             {| trace := [EvPages 7];
                puppeteerSession := Some Scenario.ambient |}
             [JsNull]
             _
             (snd (runAction Scenario.nullResult
                     (Scenario.scriptBatch 1 false) 0 7
                     (Some Scenario.ambient)
                     (Scenario.start (Some Scenario.ambient)))));
      reflexivity.
Defined.
